(** * The session controller of the terminal assistant (package [ui])

    A shallow embedding of [ui/ui.go]: the [Ui] struct, its [Init],
    [Update] and [View] methods, and the closures it hands to the
    Bubble Tea runtime as [tea.Cmd] values.

    - Go strings are [string]; [int] window sizes are [Z]; an [error]
      value is the text it carries.
    - A pointer that can be nil ([u.engine], [u.config], an optional
      history entry) is an [option]; a method call through a nil
      pointer is the [Panic] outcome.
    - [Update] mutates [u] in place and returns a command: here it maps
      the session to the new session and the command.
    - A [tea.Cmd] is a closure; the closures of this file are the
      constructors of [Cmd], and what each does to the session when
      the runtime runs it is a function of its own ([startExecEnter],
      [awaitChatStreamFn], ...), with the answer of the outside world
      (a completion, a chunk, an exit status) as a parameter.
    - Packages of the repository whose files are not at hand ([ai]'s
      engine, [config], [history], [run], the prompt, renderer and
      spinner of [ui]) are modelled from their use in [ui.go] and from
      the specification; what they compute beyond that is a field of
      the class [Collaborators]. *)

From Stdlib Require Import String Ascii List Bool ZArith Lia.
Import ListNotations.
Open Scope string_scope.

Set Warnings "-register-all".

(** ** Outcomes *)

(** A Go call either returns or panics on a nil dereference. *)
Inductive outcome (A : Type) : Type :=
| Done (a : A)
| Panic.

Arguments Done {A} a.
Arguments Panic {A}.

Definition bind {A B : Type} (m : outcome A) (k : A -> outcome B) : outcome B :=
  match m with
  | Done a => k a
  | Panic => Panic
  end.

Notation "'do' x <- m ; k" := (bind m (fun x => k))
  (at level 10, x name, m at level 100, k at level 200).

(** Dereference of a pointer that may be nil. *)
Definition deref {A : Type} (p : option A) : outcome A :=
  match p with
  | Some a => Done a
  | None => Panic
  end.

(** ** Strings *)

Definition nl : string := String (ascii_of_nat 10) EmptyString.

(** [strings.ToLower] on one byte: the letters [A]..[Z] move to
    [a]..[z]; every other byte stays.  The Go function also lowers the
    letters outside ASCII, which are not followed here: two of them
    become ASCII letters (U+0130 becomes [i], U+212A becomes [k]), none
    becomes [y], and a byte that is no UTF-8 becomes U+FFFD, so whether
    the result is the string [y], the one use of [ToLower] in [ui.go],
    is the same for both. *)
Definition toLowerAscii (c : ascii) : ascii :=
  let n := nat_of_ascii c in
  if ((65 <=? n) && (n <=? 90))%nat then ascii_of_nat (n + 32) else c.

Fixpoint ToLower (s : string) : string :=
  match s with
  | EmptyString => EmptyString
  | String c rest => String (toLowerAscii c) (ToLower rest)
  end.

Definition isEmpty (s : string) : bool :=
  match s with
  | EmptyString => true
  | String _ _ => false
  end.

(** ** Data of the collaborators *)

Definition Error : Type := string.

(** Modelled from the spec: the [RunMode] type of package [ui], whose
    declaration is not at hand; [runMode] is one of REPL and CLI. *)
Inductive RunMode : Type := ReplMode | CliMode.

(** Modelled from the spec: the [PromptMode] type of package [ui], whose
    declaration is not at hand; [promptMode] is one of Chat, Exec, Config
    and Default. *)
Inductive PromptMode : Type :=
| ExecPromptMode | ConfigPromptMode | ChatPromptMode | DefaultPromptMode.

(** Modelled from the spec: the engine modes [ai.ExecEngineMode] and
    [ai.ChatEngineMode], whose declaration is not at hand. *)
Inductive EngineMode : Type := ExecEngineMode | ChatEngineMode.

Definition RunMode_eqb (a b : RunMode) : bool :=
  match a, b with
  | ReplMode, ReplMode | CliMode, CliMode => true
  | _, _ => false
  end.

Definition PromptMode_eqb (a b : PromptMode) : bool :=
  match a, b with
  | ExecPromptMode, ExecPromptMode
  | ConfigPromptMode, ConfigPromptMode
  | ChatPromptMode, ChatPromptMode
  | DefaultPromptMode, DefaultPromptMode => true
  | _, _ => false
  end.

(** [ai.EngineExecOutput]. *)
Record EngineExecOutput : Type := {
  Command : string;
  Explanation : string;
  Executable : bool
}.

Definition GetCommand (eo : EngineExecOutput) : string := Command eo.
Definition GetExplanation (eo : EngineExecOutput) : string := Explanation eo.
Definition IsExecutable (eo : EngineExecOutput) : bool := Executable eo.

(** [ai.EngineChatStreamOutput]. *)
Record EngineChatStreamOutput : Type := {
  content : string;
  last : bool;
  interrupt : bool;
  executable : bool
}.

Definition GetContent (co : EngineChatStreamOutput) : string := content co.
Definition IsLast (co : EngineChatStreamOutput) : bool := last co.

(** Modelled from the spec: [run.RunOutput], built by [run.NewRunOutput]
    from the error of the subprocess, an error message and a success
    message, and read back through [HasError], [GetErrorMessage] and
    [GetSuccessMessage]. *)
Record RunOutput : Type := {
  runError : option Error;
  errorMessage : string;
  successMessage : string
}.

Definition NewRunOutput (e : option Error) (errorMsg successMsg : string) : RunOutput :=
  {| runError := e; errorMessage := errorMsg; successMessage := successMsg |}.

Definition HasError (r : RunOutput) : bool :=
  match runError r with
  | Some _ => true
  | None => false
  end.

(** Modelled from the spec: the part of [config.Config] that [ui.go]
    reads: the editor and the configuration file of the system
    configuration, and the default prompt mode of the user's. *)
Record Config : Type := {
  editor : string;
  configFile : string;
  defaultPromptMode : string
}.

(** What [config.NewConfig] returns: a configuration, the
    [viper.ConfigFileNotFoundError], or another error. *)
Inductive ConfigLoad : Type :=
| ConfigLoaded (cfg : Config)
| ConfigFileNotFound (e : Error)
| ConfigFailed (e : Error).

(** Modelled from the spec: [ai.Engine], the completion backend that the
    controller owns: its mode, the piped input it was given and its
    conversational memory.  What the engine does during a completion
    (the request, what it adds to its memory, the chunks it puts on its
    channel) is its own business: a completion is followed through what
    it returns to the controller, which the closures below take as a
    parameter. *)
Record Engine : Type := {
  eMode : EngineMode;
  ePipe : string;
  eMemory : list string
}.

Definition SetMode (m : EngineMode) (e : Engine) : Engine :=
  {| eMode := m; ePipe := ePipe e; eMemory := eMemory e |}.

Definition SetPipe (p : string) (e : Engine) : Engine :=
  {| eMode := eMode e; ePipe := p; eMemory := eMemory e |}.

(** [Reset] forgets the conversation. *)
Definition Reset (e : Engine) : Engine :=
  {| eMode := eMode e; ePipe := ePipe e; eMemory := [] |}.

(** Modelled from the spec: [history.History], an ordered record of the
    submitted inputs with a cursor in [0, length]. *)
Record History : Type := {
  entries : list string;
  cursor : nat
}.

Definition NewHistory : History := {| entries := []; cursor := 0 |}.

Definition GetPrevious (h : History) : History * option string :=
  match cursor h with
  | 0 => (h, None)
  | S c => ({| entries := entries h; cursor := c |}, Some (nth c (entries h) ""))
  end.

Definition GetNext (h : History) : History * option string :=
  if (S (cursor h) <? length (entries h))%nat then
    ({| entries := entries h; cursor := S (cursor h) |},
     Some (nth (S (cursor h)) (entries h) ""))
  else if (S (cursor h) =? length (entries h))%nat then
    ({| entries := entries h; cursor := S (cursor h) |}, Some "")
  else (h, None).

Definition Add (input : string) (h : History) : History :=
  {| entries := entries h ++ [input]; cursor := S (length (entries h)) |}.

Definition ResetHistory (h : History) : History := NewHistory.

(** Modelled from the spec: the [Prompt] of package [ui], the line-edit
    widget: its mode, its text and whether it has the focus. *)
Record Prompt : Type := {
  mode : PromptMode;
  value : string;
  focused : bool
}.

Definition NewPrompt (m : PromptMode) : Prompt :=
  {| mode := m; value := ""; focused := true |}.

Definition SetValue (v : string) (p : Prompt) : Prompt :=
  {| mode := mode p; value := v; focused := focused p |}.

Definition GetValue (p : Prompt) : string := value p.

Definition Focus (p : Prompt) : Prompt :=
  {| mode := mode p; value := value p; focused := true |}.

Definition Blur (p : Prompt) : Prompt :=
  {| mode := mode p; value := value p; focused := false |}.

Definition SetPromptMode (m : PromptMode) (p : Prompt) : Prompt :=
  {| mode := m; value := value p; focused := focused p |}.

(** Modelled from the spec: the [Renderer] of package [ui], built by
    [NewRenderer] from a word-wrap width. *)
Record Renderer : Type := { wordWrap : Z }.

Definition NewRenderer (w : Z) : Renderer := {| wordWrap := w |}.

(** Modelled from the spec: the [Spinner] of package [ui], shown while a
    one-shot completion is awaited; its state is the frame it shows. *)
Record Spinner : Type := { frame : nat }.

Definition NewSpinner : Spinner := {| frame := 0 |}.

(** ** Messages and commands *)

(** [tea.KeyType]: the nine keys that [Update] names; typed characters
    ([KeyRunes]) and every other key of the library go to its default
    branch. *)
Inductive KeyType : Type :=
| KeyCtrlC | KeyUp | KeyDown | KeyTab | KeyEnter
| KeyCtrlH | KeyCtrlL | KeyCtrlR | KeyCtrlS
| KeyRunes | KeyOther.

(** [tea.KeyMsg]: the type of the key and the text that [msg.String()]
    yields for it. *)
Record Key : Type := {
  keyType : KeyType;
  keyString : string
}.

Inductive Msg : Type :=
| TickMsg                                            (* spinner.TickMsg *)
| WindowSizeMsg (w h : Z)                            (* tea.WindowSizeMsg *)
| KeyMsg (k : Key)                                   (* tea.KeyMsg *)
| EngineExecOutputMsg (o : EngineExecOutput)         (* ai.EngineExecOutput *)
| EngineChatStreamOutputMsg (o : EngineChatStreamOutput)
| RunOutputMsg (r : RunOutput)                       (* run.RunOutput *)
| ErrorMsg (e : Error)                               (* error *)
| OtherMsg.                                          (* any other message *)

(** The two callbacks given to [tea.ExecProcess]. *)
Inductive ProcessCallback : Type :=
| ExecCommandDone      (* the callback of execCommand *)
| EditSettingsDone.    (* the callback of editSettings *)

(** [tea.Cmd]: the commands of the library that [ui.go] uses, the
    closures that [ui.go] builds, and the two combinators. *)
Inductive Cmd : Type :=
| CmdNil                                   (* a nil tea.Cmd *)
| Println (s : string)                     (* tea.Println(s) *)
| Quit                                     (* tea.Quit *)
| ClearScreen                              (* tea.ClearScreen *)
| Blink                                    (* textinput.Blink *)
| SpinnerTick                              (* u.components.spinner.Tick *)
| SpinnerCmd                               (* returned by Spinner.Update *)
| PromptCmd                                (* returned by Prompt.Update *)
| StartReplFn (cfg : Config)               (* the closure of startRepl *)
| CliExecFn                                (* the closure of startCli and of finishConfig *)
| StartConfigFn                            (* the closure of startConfig *)
| FinishConfigReplFn                       (* the closure of finishConfig, REPL *)
| StartExecFn (input : string)             (* the closure of startExec *)
| StartChatStreamFn (input : string)       (* the closure of startChatStream *)
| AwaitChatStreamFn                        (* the closure of awaitChatStream *)
| ExecProcess (c : string) (cb : ProcessCallback)   (* tea.ExecProcess(c, cb) *)
| Sequence (cs : list Cmd)                 (* tea.Sequence(cs...) *)
| Batch (cs : list Cmd).                   (* tea.Batch(cs...) *)

(** Does the command ask the runtime to quit? *)
Fixpoint hasQuit (c : Cmd) : bool :=
  match c with
  | Quit => true
  | Sequence cs | Batch cs => existsb hasQuit cs
  | _ => false
  end.

(** Does the command start a subprocess? *)
Fixpoint hasExecProcess (c : Cmd) : bool :=
  match c with
  | ExecProcess _ _ => true
  | Sequence cs | Batch cs => existsb hasExecProcess cs
  | _ => false
  end.

(** Does the command wait for a chunk of the chat stream? *)
Fixpoint hasAwait (c : Cmd) : bool :=
  match c with
  | AwaitChatStreamFn => true
  | Sequence cs | Batch cs => existsb hasAwait cs
  | _ => false
  end.

(** The lines that the command prints, in the order of the command. *)
Fixpoint printed (c : Cmd) : list string :=
  match c with
  | Println s => [s]
  | Sequence cs | Batch cs => flat_map printed cs
  | _ => []
  end.

(** ** The session *)

Record UiState : Type := {
  error : option Error;
  runMode : RunMode;
  promptMode : PromptMode;
  configuring : bool;
  querying : bool;
  confirming : bool;
  executing : bool;
  args : string;
  pipe : string;
  buffer : string;
  command : string
}.

Record UiDimensions : Type := {
  width : Z;
  height : Z
}.

Record UiComponents : Type := {
  prompt : Prompt;
  renderer : Renderer;
  spinner : Spinner
}.

Record Ui : Type := {
  state : UiState;
  dimensions : UiDimensions;
  components : UiComponents;
  config : option Config;
  engine : option Engine;
  history : History
}.

(** Modelled from the spec: [UiInput], what the process was invoked
    with: the run mode, the prompt mode, the arguments and the piped
    input. *)
Record UiInput : Type := {
  inRunMode : RunMode;
  inPromptMode : PromptMode;
  inArgs : string;
  inPipe : string
}.

(** *** Assignments to one field *)

Definition set_error (x : option Error) (s : UiState) : UiState :=
  {| error := x; runMode := runMode s; promptMode := promptMode s;
     configuring := configuring s; querying := querying s;
     confirming := confirming s; executing := executing s; args := args s;
     pipe := pipe s; buffer := buffer s; command := command s |}.

Definition set_promptMode (x : PromptMode) (s : UiState) : UiState :=
  {| error := error s; runMode := runMode s; promptMode := x;
     configuring := configuring s; querying := querying s;
     confirming := confirming s; executing := executing s; args := args s;
     pipe := pipe s; buffer := buffer s; command := command s |}.

Definition set_configuring (x : bool) (s : UiState) : UiState :=
  {| error := error s; runMode := runMode s; promptMode := promptMode s;
     configuring := x; querying := querying s;
     confirming := confirming s; executing := executing s; args := args s;
     pipe := pipe s; buffer := buffer s; command := command s |}.

Definition set_querying (x : bool) (s : UiState) : UiState :=
  {| error := error s; runMode := runMode s; promptMode := promptMode s;
     configuring := configuring s; querying := x;
     confirming := confirming s; executing := executing s; args := args s;
     pipe := pipe s; buffer := buffer s; command := command s |}.

Definition set_confirming (x : bool) (s : UiState) : UiState :=
  {| error := error s; runMode := runMode s; promptMode := promptMode s;
     configuring := configuring s; querying := querying s;
     confirming := x; executing := executing s; args := args s;
     pipe := pipe s; buffer := buffer s; command := command s |}.

Definition set_executing (x : bool) (s : UiState) : UiState :=
  {| error := error s; runMode := runMode s; promptMode := promptMode s;
     configuring := configuring s; querying := querying s;
     confirming := confirming s; executing := x; args := args s;
     pipe := pipe s; buffer := buffer s; command := command s |}.

Definition set_buffer (x : string) (s : UiState) : UiState :=
  {| error := error s; runMode := runMode s; promptMode := promptMode s;
     configuring := configuring s; querying := querying s;
     confirming := confirming s; executing := executing s; args := args s;
     pipe := pipe s; buffer := x; command := command s |}.

Definition set_command (x : string) (s : UiState) : UiState :=
  {| error := error s; runMode := runMode s; promptMode := promptMode s;
     configuring := configuring s; querying := querying s;
     confirming := confirming s; executing := executing s; args := args s;
     pipe := pipe s; buffer := buffer s; command := x |}.

Definition set_prompt (x : Prompt) (c : UiComponents) : UiComponents :=
  {| prompt := x; renderer := renderer c; spinner := spinner c |}.

Definition set_renderer (x : Renderer) (c : UiComponents) : UiComponents :=
  {| prompt := prompt c; renderer := x; spinner := spinner c |}.

Definition set_spinner (x : Spinner) (c : UiComponents) : UiComponents :=
  {| prompt := prompt c; renderer := renderer c; spinner := x |}.

(** [st f u] is [u] after the assignment [f] to a field of [u.state]. *)
Definition st (f : UiState -> UiState) (u : Ui) : Ui :=
  {| state := f (state u); dimensions := dimensions u;
     components := components u; config := config u; engine := engine u;
     history := history u |}.

(** [co f u] is [u] after the assignment [f] to a field of
    [u.components]. *)
Definition co (f : UiComponents -> UiComponents) (u : Ui) : Ui :=
  {| state := state u; dimensions := dimensions u;
     components := f (components u); config := config u; engine := engine u;
     history := history u |}.

(** [pr f u] is [u] after the prompt method [f]. *)
Definition pr (f : Prompt -> Prompt) (u : Ui) : Ui :=
  co (fun c => set_prompt (f (prompt c)) c) u.

Definition with_dimensions (x : UiDimensions) (u : Ui) : Ui :=
  {| state := state u; dimensions := x; components := components u;
     config := config u; engine := engine u; history := history u |}.

Definition with_config (x : option Config) (u : Ui) : Ui :=
  {| state := state u; dimensions := dimensions u; components := components u;
     config := x; engine := engine u; history := history u |}.

Definition with_engine (x : option Engine) (u : Ui) : Ui :=
  {| state := state u; dimensions := dimensions u; components := components u;
     config := config u; engine := x; history := history u |}.

Definition with_history (x : History) (u : Ui) : Ui :=
  {| state := state u; dimensions := dimensions u; components := components u;
     config := config u; engine := engine u; history := x |}.

(** A method of the engine called through [u.engine]. *)
Definition onEngine (f : Engine -> Engine) (u : Ui) : outcome Ui :=
  do e <- deref (engine u); Done (with_engine (Some (f e)) u).

(** ** What the collaborators compute *)

Class Collaborators : Type := {
  (** [Prompt.Update], [Prompt.AsString] and [Prompt.View]. *)
  promptUpdate : Prompt -> Msg -> Prompt;
  promptAsString : Prompt -> string;
  promptView : Prompt -> string;
  (** [Spinner.Update] and [Spinner.View]. *)
  spinnerUpdate : Spinner -> Spinner;
  spinnerView : Spinner -> string;
  (** The methods of the renderer. *)
  RenderContent : Renderer -> string -> string;
  RenderError : Renderer -> string -> string;
  RenderWarning : Renderer -> string -> string;
  RenderHelp : Renderer -> string -> string;
  RenderSuccess : Renderer -> string -> string;
  RenderHelpMessage : Renderer -> string;
  RenderConfigMessage : Renderer -> string;
  (** [GetPromptModeFromString] of package [ui]. *)
  GetPromptModeFromString : string -> PromptMode;
  (** [config.WriteConfig(key, true)]. *)
  WriteConfig : string -> Error + Config;
  (** [ai.NewEngine(mode, config)]: the engine and the error. *)
  NewEngine : EngineMode -> Config -> option Engine * option Error;
  (** An engine is built in the mode that was asked for. *)
  NewEngine_mode : forall m cfg e, fst (NewEngine m cfg) = Some e -> eMode e = m
}.

Section Controller.

Context {ext : Collaborators}.

(** The renderer of the session. *)
Definition rd (u : Ui) : Renderer := renderer (components u).

(** [u.components.prompt, promptCmd = u.components.prompt.Update(msg)]:
    the prompt is replaced; the command that comes with it is
    [PromptCmd]. *)
Definition updatePrompt (msg : Msg) (u : Ui) : Ui :=
  pr (fun p => promptUpdate p msg) u.

(** The notice printed when the user declines. *)
Definition cancelNotice (u : Ui) : string :=
  nl ++ RenderWarning (rd u) "[cancel]" ++ nl.

(** [if u.state.pipe != "" { engine.SetPipe(u.state.pipe) }] on an
    engine that [ai.NewEngine] has just returned. *)
Definition pipeInto (u : Ui) (eng : option Engine) : outcome (option Engine) :=
  if isEmpty (pipe (state u)) then Done eng
  else do e <- deref eng; Done (Some (SetPipe (pipe (state u)) e)).

(** [NewUi]. *)
Definition NewUi (input : UiInput) : Ui :=
  {| state := {| error := None;
                 runMode := inRunMode input;
                 promptMode := inPromptMode input;
                 configuring := false;
                 querying := false;
                 confirming := false;
                 executing := false;
                 args := inArgs input;
                 pipe := inPipe input;
                 buffer := "";
                 command := "" |};
     dimensions := {| width := 150; height := 150 |};
     components := {| prompt := NewPrompt (inPromptMode input);
                      renderer := NewRenderer 150;
                      spinner := NewSpinner |};
     config := None;
     engine := None;
     history := NewHistory |}.

(** *** Methods that build a command *)

(** The prompt mode is taken from the configuration when none was
    chosen. *)
Definition resolvePromptMode (cfg : Config) (u : Ui) : Ui :=
  if PromptMode_eqb (promptMode (state u)) DefaultPromptMode
  then st (set_promptMode (GetPromptModeFromString (defaultPromptMode cfg))) u
  else u.

Definition engineModeFor (u : Ui) : EngineMode :=
  if PromptMode_eqb (promptMode (state u)) ChatPromptMode
  then ChatEngineMode else ExecEngineMode.

(** [startRepl]: nothing happens before the runtime runs the closure. *)
Definition startRepl (u : Ui) (cfg : Config) : Cmd :=
  Sequence [ClearScreen;
            Println (RenderContent (rd u) (RenderHelpMessage (rd u)));
            Blink;
            StartReplFn cfg].

(** [startCli]. *)
Definition startCli (u : Ui) (cfg : Config) : outcome (Ui * Cmd) :=
  let u := with_config (Some cfg) u in
  let u := resolvePromptMode cfg u in
  let (eng, err) := NewEngine (engineModeFor u) cfg in
  match err with
  | Some e => Done (st (set_error (Some e)) u, CmdNil)
  | None =>
      do eng <- pipeInto u eng;
      let u := with_engine eng u in
      let u := st (set_querying true) u in
      let u := st (set_confirming false) u in
      let u := st (set_buffer "") u in
      let u := st (set_command "") u in
      if PromptMode_eqb (promptMode (state u)) ExecPromptMode
      then Done (u, Batch [SpinnerTick; CliExecFn])
      else Done (u, Batch [StartChatStreamFn (args (state u)); AwaitChatStreamFn])
  end.

(** [startConfig]. *)
Definition startConfig (u : Ui) : Cmd := StartConfigFn.

(** [finishConfig]. *)
Definition finishConfig (u : Ui) (key : string) : outcome (Ui * Cmd) :=
  let u := st (set_configuring false) u in
  match WriteConfig key with
  | inl e => Done (st (set_error (Some e)) u, CmdNil)
  | inr cfg =>
      let u := with_config (Some cfg) u in
      let (eng, err) := NewEngine ExecEngineMode cfg in
      match err with
      | Some e => Done (st (set_error (Some e)) u, CmdNil)
      | None =>
          do eng <- pipeInto u eng;
          let u := with_engine eng u in
          if RunMode_eqb (runMode (state u)) ReplMode then
            Done (u, Sequence [ClearScreen;
                               Println (RenderSuccess (rd u) (nl ++ "[settings ok]" ++ nl));
                               Blink;
                               FinishConfigReplFn])
          else if PromptMode_eqb (promptMode (state u)) ExecPromptMode then
            let u := st (set_querying true) u in
            let u := st (set_configuring false) u in
            let u := st (set_buffer "") u in
            Done (u, Sequence [Println (RenderSuccess (rd u) (nl ++ "[settings ok]"));
                               SpinnerTick;
                               CliExecFn])
          else
            Done (u, Batch [StartChatStreamFn (args (state u)); AwaitChatStreamFn])
      end
  end.

(** [execCommand]: the three assignments, then the subprocess with its
    callback. *)
Definition execCommand (u : Ui) (input : string) : Ui * Cmd :=
  let u := st (set_querying false) u in
  let u := st (set_confirming false) u in
  let u := st (set_executing true) u in
  (u, ExecProcess input ExecCommandDone).

(** [editSettings]. *)
Definition editSettings (u : Ui) : outcome (Ui * Cmd) :=
  let u := st (set_querying false) u in
  let u := st (set_confirming false) u in
  let u := st (set_executing true) u in
  do cfg <- deref (config u);
  Done (u, ExecProcess (editor cfg ++ " " ++ configFile cfg) EditSettingsDone).

(** [Init]; [load] is what [config.NewConfig] returns. *)
Definition Init (u : Ui) (load : ConfigLoad) : outcome (Ui * Cmd) :=
  match load with
  | ConfigFileNotFound _ =>
      if RunMode_eqb (runMode (state u)) ReplMode
      then Done (u, Sequence [ClearScreen; startConfig u])
      else Done (u, startConfig u)
  | ConfigFailed e =>
      Done (u, Sequence [Println (RenderError (rd u) e); Quit])
  | ConfigLoaded cfg =>
      if RunMode_eqb (runMode (state u)) ReplMode
      then Done (u, startRepl u cfg)
      else startCli u cfg
  end.

(** *** [Update] *)

(** [!u.state.querying && !u.state.confirming]. *)
Definition free (u : Ui) : bool :=
  negb (querying (state u)) && negb (confirming (state u)).

(** The keys: the [switch msg.Type] of [Update]. *)
Definition updateKey (u : Ui) (k : Key) : outcome (Ui * Cmd) :=
  let msg := KeyMsg k in
  match keyType k with
  | KeyCtrlC => Done (u, Quit)
  | KeyUp | KeyDown =>
      if free u then
        let (h, input) :=
          match keyType k with
          | KeyUp => GetPrevious (history u)
          | _ => GetNext (history u)
          end in
        let u := with_history h u in
        match input with
        | Some s =>
            let u := pr (SetValue s) u in
            let u := updatePrompt msg u in
            Done (u, Batch [PromptCmd])
        | None => Done (u, Batch [])
        end
      else Done (u, Batch [])
  | KeyTab =>
      if free u then
        do u <- (if PromptMode_eqb (promptMode (state u)) ChatPromptMode then
                   let u := st (set_promptMode ExecPromptMode) u in
                   let u := pr (SetPromptMode ExecPromptMode) u in
                   onEngine (SetMode ExecEngineMode) u
                 else
                   let u := st (set_promptMode ChatPromptMode) u in
                   let u := pr (SetPromptMode ChatPromptMode) u in
                   onEngine (SetMode ChatEngineMode) u);
        do u <- onEngine Reset u;
        let u := updatePrompt msg u in
        Done (u, Batch [PromptCmd; Blink])
      else Done (u, Batch [])
  | KeyEnter =>
      if configuring (state u) then
        finishConfig u (GetValue (prompt (components u)))
      else if free u then
        let input := GetValue (prompt (components u)) in
        if negb (isEmpty input) then
          let inputPrint := promptAsString (prompt (components u)) in
          let u := with_history (Add input (history u)) u in
          let u := pr (SetValue "") u in
          let u := pr Blur u in
          let u := updatePrompt msg u in
          if PromptMode_eqb (promptMode (state u)) ChatPromptMode then
            Done (u, Batch [PromptCmd; Println inputPrint;
                            StartChatStreamFn input; AwaitChatStreamFn])
          else
            Done (u, Batch [PromptCmd; Println inputPrint;
                            StartExecFn input; SpinnerTick])
        else Done (u, Batch [])
      else Done (u, Batch [])
  | KeyCtrlH =>
      if negb (configuring (state u)) && free u then
        let u := updatePrompt msg u in
        Done (u, Batch [PromptCmd;
                        Println (RenderContent (rd u) (RenderHelpMessage (rd u)));
                        Blink])
      else Done (u, Batch [])
  | KeyCtrlL =>
      if free u then
        let u := updatePrompt msg u in
        Done (u, Batch [PromptCmd; ClearScreen; Blink])
      else Done (u, Batch [])
  | KeyCtrlR =>
      if free u then
        let u := with_history (ResetHistory (history u)) u in
        do u <- onEngine Reset u;
        let u := pr (SetValue "") u in
        let u := updatePrompt msg u in
        Done (u, Batch [PromptCmd; ClearScreen; Blink])
      else Done (u, Batch [])
  | KeyCtrlS =>
      if free u && negb (configuring (state u)) && negb (executing (state u)) then
        let u := st (set_executing true) u in
        let u := st (set_buffer "") u in
        let u := st (set_command "") u in
        let u := pr Blur u in
        let u := updatePrompt msg u in
        do r <- editSettings u;
        let (u, c) := r in
        Done (u, Batch [PromptCmd; c])
      else Done (u, Batch [])
  | KeyRunes | KeyOther =>
      if confirming (state u) then
        if String.eqb (ToLower (keyString k)) "y" then
          let u := st (set_confirming false) u in
          let u := st (set_executing true) u in
          let u := st (set_buffer "") u in
          let u := pr (SetValue "") u in
          let (u, c) := execCommand u (command (state u)) in
          Done (u, Sequence [CmdNil; c])
        else
          let u := st (set_confirming false) u in
          let u := st (set_executing false) u in
          let u := st (set_buffer "") u in
          let u := updatePrompt msg u in
          let u := pr (SetValue "") u in
          let u := pr Focus u in
          if RunMode_eqb (runMode (state u)) ReplMode then
            let cmds := [PromptCmd; Println (cancelNotice u); Blink] in
            let u := st (set_command "") u in
            Done (u, Batch cmds)
          else
            Done (u, Sequence [PromptCmd; Println (cancelNotice u); Quit])
      else
        let u := pr Focus u in
        let u := updatePrompt msg u in
        Done (u, Batch [PromptCmd; Blink])
  end.

(** [Update]: the [switch msg := msg.(type)]. *)
Definition Update (u : Ui) (msg : Msg) : outcome (Ui * Cmd) :=
  match msg with
  | TickMsg =>
      if querying (state u) then
        let u := co (fun c => set_spinner (spinnerUpdate (spinner c)) c) u in
        Done (u, Batch [SpinnerCmd])
      else Done (u, Batch [])
  | WindowSizeMsg w h =>
      let u := with_dimensions {| width := w; height := h |} u in
      let u := co (set_renderer (NewRenderer (width (dimensions u)))) u in
      Done (u, Batch [])
  | KeyMsg k => updateKey u k
  | EngineExecOutputMsg o =>
      if IsExecutable o then
        let u := st (set_confirming true) u in
        let u := st (set_command (GetCommand o)) u in
        let output :=
          RenderContent (rd u) ("`" ++ command (state u) ++ "`")
          ++ ("  " ++ RenderHelp (rd u) (GetExplanation o)
                   ++ nl ++ nl ++ "  confirm execution? [y/N]") in
        let u := pr Blur u in
        let u := updatePrompt msg u in
        Done (u, Sequence [PromptCmd; Blink; Println output])
      else
        let output := RenderContent (rd u) (GetExplanation o) in
        let u := pr Focus u in
        if RunMode_eqb (runMode (state u)) CliMode then
          Done (u, Sequence [Println output; Quit])
        else
          let u := updatePrompt msg u in
          Done (u, Sequence [PromptCmd; Blink; Println output])
  | EngineChatStreamOutputMsg o =>
      if IsLast o then
        let output := RenderContent (rd u) (buffer (state u)) in
        let u := st (set_buffer "") u in
        let u := pr Focus u in
        if RunMode_eqb (runMode (state u)) CliMode then
          Done (u, Sequence [Println output; Quit])
        else
          Done (u, Sequence [Println output; Blink])
      else Done (u, AwaitChatStreamFn)
  | RunOutputMsg r =>
      let u := st (set_querying false) u in
      let u := updatePrompt msg u in
      let u := pr Focus u in
      let output :=
        if HasError r
        then RenderError (rd u) (nl ++ errorMessage r ++ nl)
        else RenderSuccess (rd u) (nl ++ successMessage r ++ nl) in
      if RunMode_eqb (runMode (state u)) CliMode then
        Done (u, Sequence [Println output; Quit])
      else
        Done (u, Sequence [Println output; PromptCmd; Blink])
  | ErrorMsg e =>
      Done (st (set_error (Some e)) u, CmdNil)
  | OtherMsg => Done (u, Batch [])
  end.

(** *** [View] *)

Definition View (u : Ui) : string :=
  match error (state u) with
  | Some e => RenderError (rd u) ("[error] " ++ e)
  | None =>
      if configuring (state u) then
        RenderContent (rd u) (buffer (state u)) ++ nl
          ++ promptView (prompt (components u))
      else if negb (querying (state u)) && negb (confirming (state u))
              && negb (executing (state u)) then
        promptView (prompt (components u))
      else if PromptMode_eqb (promptMode (state u)) ChatPromptMode then
        RenderContent (rd u) (buffer (state u))
      else if querying (state u) then
        spinnerView (spinner (components u))
      else if negb (executing (state u)) then
        RenderContent (rd u) (buffer (state u))
      else ""
  end.

(** *** The closures, run by the runtime *)

(** The closure of [startRepl]. *)
Definition startReplFn (cfg : Config) (u : Ui) : outcome (Ui * option Msg) :=
  let u := with_config (Some cfg) u in
  let u := resolvePromptMode cfg u in
  let (eng, err) := NewEngine (engineModeFor u) cfg in
  match err with
  | Some e => Done (u, Some (ErrorMsg e))
  | None =>
      do eng <- pipeInto u eng;
      let u := with_engine eng u in
      let u := st (set_buffer ("Welcome " ++ nl ++ nl)) u in
      let u := st (set_command "") u in
      let u := pr (fun _ => NewPrompt (promptMode (state u))) u in
      Done (u, None)
  end.

(** The closure of [startCli] and of the CLI branch of [finishConfig];
    [r] is what [u.engine.ExecCompletion(u.state.args)] returns. *)
Definition cliExecFn (r : Error + EngineExecOutput) (u : Ui) : outcome (Ui * option Msg) :=
  do _ <- deref (engine u);
  let u := st (set_querying false) u in
  match r with
  | inl e => Done (u, Some (ErrorMsg e))
  | inr output => Done (u, Some (EngineExecOutputMsg output))
  end.

(** The closure of [startConfig]. *)
Definition startConfigFn (u : Ui) : Ui * option Msg :=
  let u := st (set_configuring true) u in
  let u := st (set_querying false) u in
  let u := st (set_confirming false) u in
  let u := st (set_executing false) u in
  let u := st (set_buffer (RenderConfigMessage (rd u))) u in
  let u := st (set_command "") u in
  let u := pr (fun _ => NewPrompt ConfigPromptMode) u in
  (u, None).

(** The closure of the REPL branch of [finishConfig]. *)
Definition finishConfigReplFn (u : Ui) : Ui * option Msg :=
  let u := st (set_buffer "") u in
  let u := st (set_command "") u in
  let u := pr (fun _ => NewPrompt ExecPromptMode) u in
  (u, None).

(** The closure of [startExec], up to the call of
    [u.engine.ExecCompletion(input)], which blocks ... *)
Definition startExecEnter (input : string) (u : Ui) : outcome Ui :=
  let u := st (set_querying true) u in
  let u := st (set_confirming false) u in
  let u := st (set_buffer "") u in
  let u := st (set_command "") u in
  do _ <- deref (engine u);
  Done u.

(** ... and from its return, with [r] what it returned. *)
Definition startExecReturn (r : Error + EngineExecOutput) (u : Ui) : Ui * option Msg :=
  let u := st (set_querying false) u in
  match r with
  | inl e => (u, Some (ErrorMsg e))
  | inr output => (u, Some (EngineExecOutputMsg output))
  end.

(** The closure of [startChatStream], up to the call of
    [u.engine.ChatStreamCompletion(input)] ... *)
Definition startChatStreamEnter (input : string) (u : Ui) : outcome Ui :=
  let u := st (set_querying true) u in
  let u := st (set_executing false) u in
  let u := st (set_confirming false) u in
  let u := st (set_buffer "") u in
  let u := st (set_command "") u in
  do _ <- deref (engine u);
  Done u.

(** ... and from its return: the error, or nil. *)
Definition startChatStreamReturn (r : option Error) (u : Ui) : Ui * option Msg :=
  match r with
  | Some e => (u, Some (ErrorMsg e))
  | None => (u, None)
  end.

(** The closure of [awaitChatStream]; [output] is the chunk received
    from [u.engine.GetChannel()]. *)
Definition awaitChatStreamFn (output : EngineChatStreamOutput) (u : Ui)
  : outcome (Ui * option Msg) :=
  do _ <- deref (engine u);
  let u := st (set_buffer (buffer (state u) ++ GetContent output)) u in
  let u := st (set_querying (negb (IsLast output))) u in
  Done (u, Some (EngineChatStreamOutputMsg output)).

(** The callback of [execCommand]; [exit] is the error of the
    subprocess, nil when it succeeded. *)
Definition execCommandDone (exit : option Error) (u : Ui) : Ui * option Msg :=
  let u := st (set_executing false) u in
  let u := st (set_command "") u in
  (u, Some (RunOutputMsg (NewRunOutput exit "[error]" "[ok]"))).

(** The callback of [editSettings]; [exit] is the error of the editor,
    [load] is what [config.NewConfig] returns when it is called. *)
Definition editSettingsDone (exit : option Error) (load : ConfigLoad) (u : Ui)
  : outcome (Ui * option Msg) :=
  let u := st (set_executing false) u in
  let u := st (set_command "") u in
  let failed e := Some (RunOutputMsg (NewRunOutput (Some e) "[settings error]" "")) in
  match exit with
  | Some e => Done (u, failed e)
  | None =>
      match load with
      | ConfigFileNotFound e | ConfigFailed e => Done (u, failed e)
      | ConfigLoaded cfg =>
          let u := with_config (Some cfg) u in
          let (eng, err) := NewEngine ExecEngineMode cfg in
          do eng <- pipeInto u eng;
          match err with
          | Some e => Done (u, failed e)
          | None =>
              let u := with_engine eng u in
              Done (u, Some (RunOutputMsg (NewRunOutput None "" "[settings ok]")))
          end
      end
  end.

(** ** The runtime *)

(** A command that changes nothing in the session when it runs. *)
Definition inert (c : Cmd) : bool :=
  match c with
  | CmdNil | Println _ | Quit | ClearScreen | Blink
  | SpinnerTick | SpinnerCmd | PromptCmd => true
  | _ => false
  end.

(** The commands that run in one piece: all but the combinators and
    the two closures that block in a call of the engine after their
    first assignments. *)
Definition runsInOnePiece (c : Cmd) : bool :=
  match c with
  | Sequence _ | Batch _ | StartExecFn _ | StartChatStreamFn _ => false
  | _ => true
  end.

(** [fires c u r]: the runtime runs [c], a command that runs in one
    piece, on the session [u], with outcome [r]: the session after it
    and the message it returns, if any. *)
Inductive fires : Cmd -> Ui -> outcome (Ui * option Msg) -> Prop :=
| fires_inert c u :
    inert c = true -> fires c u (Done (u, None))
| fires_startRepl cfg u :
    fires (StartReplFn cfg) u (startReplFn cfg u)
| fires_cliExec r u :
    fires CliExecFn u (cliExecFn r u)
| fires_startConfig u :
    fires StartConfigFn u (Done (startConfigFn u))
| fires_finishConfigRepl u :
    fires FinishConfigReplFn u (Done (finishConfigReplFn u))
| fires_await output u :
    fires AwaitChatStreamFn u (awaitChatStreamFn output u)
| fires_execCommandDone c exit u :
    fires (ExecProcess c ExecCommandDone) u (Done (execCommandDone exit u))
| fires_editSettingsDone c exit load u :
    fires (ExecProcess c EditSettingsDone) u (editSettingsDone exit load u).

(** What the runtime holds: a command waiting to run, or a closure
    blocked in a call of the engine. *)
Inductive Job : Type :=
| Waiting (c : Cmd)
| InExecCompletion            (* startExec, inside ExecCompletion *)
| InChatStreamCompletion.     (* startChatStream, inside ChatStreamCompletion *)

(** The session with the runtime around it: the commands and closures
    under way, the messages not yet given to [Update], and whether
    [Update] has returned [tea.Quit]. *)
Record World : Type := {
  ui : Ui;
  pending : list Job;
  inbox : list Msg;
  quitting : bool
}.

(** The messages of the terminal. *)
Definition fromTerminal (m : Msg) : bool :=
  match m with
  | TickMsg | WindowSizeMsg _ _ | KeyMsg _ | OtherMsg => true
  | _ => false
  end.

Definition post (om : option Msg) (box : list Msg) : list Msg :=
  match om with
  | Some m => (box ++ [m])%list
  | None => box
  end.

(** One move of the runtime.  The terminal sends a message
    ([step_arrive]); [Update] gets the first message and its command
    joins the jobs ([step_update]); a batch starts all its commands
    ([step_batch]); a sequence runs its first command and keeps the
    others for later ([step_sequence]; a first command that does not
    run in one piece is started beside it, [step_spawn]; [ui.go] builds
    no such sequence); a command runs ([step_fire]); [startExec] and
    [startChatStream] enter the engine and return from it
    ([step_startExec] to [step_chatStreamReturn]).  A move whose
    closure panics does not exist: the process is gone.  The runtime
    may run [Update] while a subprocess is under way, which the library
    does not; the sessions that can be reached here include those that
    can be reached there. *)
Inductive step : World -> World -> Prop :=
| step_arrive w m :
    fromTerminal m = true ->
    step w {| ui := ui w; pending := pending w; inbox := (inbox w ++ [m])%list;
              quitting := quitting w |}
| step_update w m rest u' c :
    inbox w = m :: rest ->
    Update (ui w) m = Done (u', c) ->
    step w {| ui := u'; pending := (pending w ++ [Waiting c])%list; inbox := rest;
              quitting := quitting w || hasQuit c |}
| step_batch w l1 cs l2 :
    pending w = (l1 ++ Waiting (Batch cs) :: l2)%list ->
    step w {| ui := ui w; pending := (l1 ++ map Waiting cs ++ l2)%list;
              inbox := inbox w; quitting := quitting w |}
| step_sequence w l1 c cs l2 u' om :
    pending w = (l1 ++ Waiting (Sequence (c :: cs)) :: l2)%list ->
    fires c (ui w) (Done (u', om)) ->
    step w {| ui := u'; pending := (l1 ++ Waiting (Sequence cs) :: l2)%list;
              inbox := post om (inbox w); quitting := quitting w |}
| step_spawn w l1 c cs l2 :
    pending w = (l1 ++ Waiting (Sequence (c :: cs)) :: l2)%list ->
    runsInOnePiece c = false ->
    step w {| ui := ui w;
              pending := (l1 ++ Waiting c :: Waiting (Sequence cs) :: l2)%list;
              inbox := inbox w; quitting := quitting w |}
| step_fire w l1 c l2 u' om :
    pending w = (l1 ++ Waiting c :: l2)%list ->
    fires c (ui w) (Done (u', om)) ->
    step w {| ui := u'; pending := (l1 ++ l2)%list;
              inbox := post om (inbox w); quitting := quitting w |}
| step_startExec w l1 input l2 u' :
    pending w = (l1 ++ Waiting (StartExecFn input) :: l2)%list ->
    startExecEnter input (ui w) = Done u' ->
    step w {| ui := u'; pending := (l1 ++ InExecCompletion :: l2)%list;
              inbox := inbox w; quitting := quitting w |}
| step_execReturn w l1 l2 r :
    pending w = (l1 ++ InExecCompletion :: l2)%list ->
    step w {| ui := fst (startExecReturn r (ui w)); pending := (l1 ++ l2)%list;
              inbox := post (snd (startExecReturn r (ui w))) (inbox w);
              quitting := quitting w |}
| step_startChatStream w l1 input l2 u' :
    pending w = (l1 ++ Waiting (StartChatStreamFn input) :: l2)%list ->
    startChatStreamEnter input (ui w) = Done u' ->
    step w {| ui := u'; pending := (l1 ++ InChatStreamCompletion :: l2)%list;
              inbox := inbox w; quitting := quitting w |}
| step_chatStreamReturn w l1 l2 r :
    pending w = (l1 ++ InChatStreamCompletion :: l2)%list ->
    step w {| ui := fst (startChatStreamReturn r (ui w)); pending := (l1 ++ l2)%list;
              inbox := post (snd (startChatStreamReturn r (ui w))) (inbox w);
              quitting := quitting w |}.

(** The session as the process starts: [NewUi], then [Init]. *)
Definition boot (input : UiInput) (load : ConfigLoad) : outcome World :=
  do r <- Init (NewUi input) load;
  Done {| ui := fst r; pending := [Waiting (snd r)]; inbox := [];
          quitting := hasQuit (snd r) |}.

Inductive reachable : World -> Prop :=
| reachable_boot input load w :
    boot input load = Done w -> reachable w
| reachable_step w w' :
    reachable w -> step w w' -> reachable w'.

End Controller.

(** ** A schedule of the runtime, to run a session on given events *)

(** What the outside world answers to a command that the runtime runs. *)
Inductive Answer : Type :=
| NoAnswer
| Completion (r : Error + EngineExecOutput)    (* ExecCompletion returned r *)
| Chunk (o : EngineChatStreamOutput)           (* the channel delivered o *)
| Exit (e : option Error) (load : ConfigLoad). (* the subprocess ended with e *)

(** One move of the runtime; [i] is the place of a job in [pending]. *)
Inductive Event : Type :=
| Arrive (m : Msg)                   (* the terminal sends m *)
| Handle                             (* Update gets the first message *)
| Expand (i : nat)                   (* a Batch starts its commands *)
| Next (i : nat) (a : Answer)        (* a Sequence runs its first command *)
| Run (i : nat) (a : Answer)         (* a command runs *)
| Enter (i : nat)                    (* startExec or startChatStream calls the engine *)
| ExecReturns (i : nat) (r : Error + EngineExecOutput)
| ChatReturns (i : nat) (r : option Error).

(** [pick i l]: the list before place [i], the element there, the list
    after it. *)
Fixpoint pick {A : Type} (i : nat) (l : list A) : option (list A * A * list A) :=
  match l, i with
  | [], _ => None
  | x :: rest, 0 => Some ([], x, rest)
  | x :: rest, S j =>
      match pick j rest with
      | Some (l1, y, l2) => Some (x :: l1, y, l2)
      | None => None
      end
  end.

Section Schedule.

Context {ext : Collaborators}.

Definition fire (c : Cmd) (a : Answer) (u : Ui) : option (outcome (Ui * option Msg)) :=
  match c, a with
  | StartReplFn cfg, NoAnswer => Some (startReplFn cfg u)
  | CliExecFn, Completion r => Some (cliExecFn r u)
  | StartConfigFn, NoAnswer => Some (Done (startConfigFn u))
  | FinishConfigReplFn, NoAnswer => Some (Done (finishConfigReplFn u))
  | AwaitChatStreamFn, Chunk o => Some (awaitChatStreamFn o u)
  | ExecProcess _ ExecCommandDone, Exit e _ => Some (Done (execCommandDone e u))
  | ExecProcess _ EditSettingsDone, Exit e load => Some (editSettingsDone e load u)
  | _, NoAnswer => if inert c then Some (Done (u, None)) else None
  | _, _ => None
  end.

Definition sched (e : Event) (w : World) : option World :=
  match e with
  | Arrive m =>
      if fromTerminal m then
        Some {| ui := ui w; pending := pending w; inbox := (inbox w ++ [m])%list;
                quitting := quitting w |}
      else None
  | Handle =>
      match inbox w with
      | m :: rest =>
          match Update (ui w) m with
          | Done (u', c) =>
              Some {| ui := u'; pending := (pending w ++ [Waiting c])%list;
                      inbox := rest; quitting := quitting w || hasQuit c |}
          | Panic => None
          end
      | [] => None
      end
  | Expand i =>
      match pick i (pending w) with
      | Some (l1, Waiting (Batch cs), l2) =>
          Some {| ui := ui w; pending := (l1 ++ map Waiting cs ++ l2)%list;
                  inbox := inbox w; quitting := quitting w |}
      | _ => None
      end
  | Next i a =>
      match pick i (pending w) with
      | Some (l1, Waiting (Sequence (c :: cs)), l2) =>
          match fire c a (ui w) with
          | Some (Done (u', om)) =>
              Some {| ui := u'; pending := (l1 ++ Waiting (Sequence cs) :: l2)%list;
                      inbox := post om (inbox w); quitting := quitting w |}
          | _ => None
          end
      | _ => None
      end
  | Run i a =>
      match pick i (pending w) with
      | Some (l1, Waiting c, l2) =>
          match fire c a (ui w) with
          | Some (Done (u', om)) =>
              Some {| ui := u'; pending := (l1 ++ l2)%list;
                      inbox := post om (inbox w); quitting := quitting w |}
          | _ => None
          end
      | _ => None
      end
  | Enter i =>
      match pick i (pending w) with
      | Some (l1, Waiting (StartExecFn input), l2) =>
          match startExecEnter input (ui w) with
          | Done u' =>
              Some {| ui := u'; pending := (l1 ++ InExecCompletion :: l2)%list;
                      inbox := inbox w; quitting := quitting w |}
          | Panic => None
          end
      | Some (l1, Waiting (StartChatStreamFn input), l2) =>
          match startChatStreamEnter input (ui w) with
          | Done u' =>
              Some {| ui := u'; pending := (l1 ++ InChatStreamCompletion :: l2)%list;
                      inbox := inbox w; quitting := quitting w |}
          | Panic => None
          end
      | _ => None
      end
  | ExecReturns i r =>
      match pick i (pending w) with
      | Some (l1, InExecCompletion, l2) =>
          Some {| ui := fst (startExecReturn r (ui w)); pending := (l1 ++ l2)%list;
                  inbox := post (snd (startExecReturn r (ui w))) (inbox w);
                  quitting := quitting w |}
      | _ => None
      end
  | ChatReturns i r =>
      match pick i (pending w) with
      | Some (l1, InChatStreamCompletion, l2) =>
          Some {| ui := fst (startChatStreamReturn r (ui w)); pending := (l1 ++ l2)%list;
                  inbox := post (snd (startChatStreamReturn r (ui w))) (inbox w);
                  quitting := quitting w |}
      | _ => None
      end
  end.

Fixpoint run (es : list Event) (w : World) : option World :=
  match es with
  | [] => Some w
  | e :: rest =>
      match sched e w with
      | Some w' => run rest w'
      | None => None
      end
  end.

(** The session booted on [input] and [load], then run on [es]. *)
Definition play (input : UiInput) (load : ConfigLoad) (es : list Event) : option World :=
  match boot input load with
  | Done w => run es w
  | Panic => None
  end.

End Schedule.

(** ** A plain terminal, to run sessions on *)

(** Typed characters are added to the text of a prompt that has the
    focus; the renderer adds nothing to the text; configurations can be
    written and engines can be built. *)
Definition typing (p : Prompt) (msg : Msg) : Prompt :=
  match msg with
  | KeyMsg k =>
      match keyType k with
      | KeyRunes => if focused p then SetValue (value p ++ keyString k) p else p
      | _ => p
      end
  | _ => p
  end.

Definition writtenConfig : Config :=
  {| editor := "vi"; configFile := "config.json"; defaultPromptMode := "exec" |}.

Definition modeOfString (s : string) : PromptMode :=
  if String.eqb s "exec" then ExecPromptMode
  else if String.eqb s "config" then ConfigPromptMode
  else if String.eqb s "chat" then ChatPromptMode
  else DefaultPromptMode.

Definition freshEngine (m : EngineMode) : Engine :=
  {| eMode := m; ePipe := ""; eMemory := [] |}.

Definition freshEngine_mode (m : EngineMode) (cfg : Config) (e : Engine)
    (H : fst (Some (freshEngine m), @None Error) = Some e) : eMode e = m :=
  match H in (_ = o)
        return (match o with Some e' => eMode e' = m | None => True end) with
  | eq_refl => eq_refl
  end.

Definition plain : Collaborators :=
  {| promptUpdate := typing;
     promptAsString := fun p => "> " ++ value p;
     promptView := fun p => "> " ++ value p;
     spinnerUpdate := fun s => {| frame := S (frame s) |};
     spinnerView := fun _ => "...";
     RenderContent := fun _ s => s;
     RenderError := fun _ s => s;
     RenderWarning := fun _ s => s;
     RenderHelp := fun _ s => s;
     RenderSuccess := fun _ s => s;
     RenderHelpMessage := fun _ => "help";
     RenderConfigMessage := fun _ => "configure";
     GetPromptModeFromString := modeOfString;
     WriteConfig := fun _ => inr writtenConfig;
     NewEngine := fun m _ => (Some (freshEngine m), None);
     NewEngine_mode := freshEngine_mode |}.

(** A backend that is out of reach: no engine can be built. *)
Definition noEngine_mode (m : EngineMode) (cfg : Config) (e : Engine)
    (H : fst (@None Engine, Some "no backend") = Some e) : eMode e = m :=
  match H in (_ = o)
        return (match o with Some e' => eMode e' = m | None => True end) with
  | eq_refl => I
  end.

Definition offline : Collaborators :=
  {| promptUpdate := typing;
     promptAsString := fun p => "> " ++ value p;
     promptView := fun p => "> " ++ value p;
     spinnerUpdate := fun s => {| frame := S (frame s) |};
     spinnerView := fun _ => "...";
     RenderContent := fun _ s => s;
     RenderError := fun _ s => s;
     RenderWarning := fun _ s => s;
     RenderHelp := fun _ s => s;
     RenderSuccess := fun _ s => s;
     RenderHelpMessage := fun _ => "help";
     RenderConfigMessage := fun _ => "configure";
     GetPromptModeFromString := modeOfString;
     WriteConfig := fun _ => inr writtenConfig;
     NewEngine := fun _ _ => (None, Some "no backend");
     NewEngine_mode := noEngine_mode |}.

(** Keys. *)
Definition typed (s : string) : Key := {| keyType := KeyRunes; keyString := s |}.
Definition enterKey : Key := {| keyType := KeyEnter; keyString := "enter" |}.
Definition tabKey : Key := {| keyType := KeyTab; keyString := "tab" |}.

(** A REPL session in exec mode with no piped input. *)
Definition replExec : UiInput :=
  {| inRunMode := ReplMode; inPromptMode := ExecPromptMode;
     inArgs := ""; inPipe := "" |}.

Definition lsOutput : EngineExecOutput :=
  {| Command := "ls -la"; Explanation := "lists files"; Executable := true |}.

(** The user types [ls], presses Enter, and the backend answers with
    the command [ls -la]: the session asks for a confirmation. *)
Definition toConfirming : list Event :=
  [ Next 0 NoAnswer; Next 0 NoAnswer; Next 0 NoAnswer; Next 0 NoAnswer;
    Arrive (KeyMsg (typed "l")); Handle;
    Arrive (KeyMsg (typed "s")); Handle;
    Arrive (KeyMsg enterKey); Handle;
    Expand 3; Enter 5; ExecReturns 5 (inr lsOutput); Handle ].

(** Then the user answers [y]. *)
Definition toExecuting : list Event :=
  (toConfirming ++ [ Arrive (KeyMsg (typed "y")); Handle ])%list.

(** ** Notions for the statements *)

(** The command is stored only while the session is confirming or
    executing. *)
Definition commandHeld (u : Ui) : bool :=
  isEmpty (command (state u)) || confirming (state u) || executing (state u).

(** The invariant of the runtime: until [Update] has returned
    [tea.Quit], the command is held only while confirming or
    executing. *)
Definition heldUntilQuit (w : World) : Prop :=
  quitting w = false -> commandHeld (ui w) = true.

(** A key of the default branch of [Update]: a typed character, or a
    key that [Update] does not name. *)
Definition unnamedKey (k : Key) : Prop :=
  keyType k = KeyRunes \/ keyType k = KeyOther.

(** The keys that [Update] names and guards with [!u.state.confirming]. *)
Definition guardedKey (k : Key) : Prop :=
  keyType k = KeyUp \/ keyType k = KeyDown \/ keyType k = KeyTab
  \/ keyType k = KeyCtrlH \/ keyType k = KeyCtrlL \/ keyType k = KeyCtrlR
  \/ keyType k = KeyCtrlS.

(** The prompt mode after Tab. *)
Definition toggled (m : PromptMode) : PromptMode :=
  if PromptMode_eqb m ChatPromptMode then ExecPromptMode else ChatPromptMode.

Definition engineModeOf (m : PromptMode) : EngineMode :=
  match m with
  | ChatPromptMode => ChatEngineMode
  | _ => ExecEngineMode
  end.

(** The text of the fragments, in their order. *)
Fixpoint fragments (chunks : list EngineChatStreamOutput) : string :=
  match chunks with
  | [] => ""
  | o :: rest => GetContent o ++ fragments rest
  end.

Definition chunk (text : string) (isLast : bool) : EngineChatStreamOutput :=
  {| content := text; last := isLast; interrupt := false; executable := false |}.

(** The channel delivers [o] to the closure of [awaitChatStream], the
    one job of the runtime, and [Update] gets the chunk. *)
Definition deliver (o : EngineChatStreamOutput) : list Event :=
  [Run 0 (Chunk o); Handle].

(** The session [u] with one await under way and no message yet. *)
Definition awaiting (u : Ui) (q : bool) : World :=
  {| ui := u; pending := [Waiting AwaitChatStreamFn]; inbox := [];
     quitting := q |}.

(** The session after the chunks [pre], none of them the last. *)
Definition streamed (pre : list EngineChatStreamOutput) (u : Ui) : Ui :=
  st (set_querying (match pre with [] => querying (state u) | _ => true end))
     (st (set_buffer (buffer (state u) ++ fragments pre)) u).

(** No phase flag is set. *)
Definition isIdle (u : Ui) : bool :=
  negb (configuring (state u)) && negb (querying (state u))
  && negb (confirming (state u)) && negb (executing (state u)).

(** The messages that end a request/response cycle of the session [u]:
    the last chunk of a chat stream, an exec result that is not
    executable, a declined confirmation, the result of a subprocess. *)
Inductive cycleEnd (u : Ui) : Msg -> Prop :=
| end_stream o :
    IsLast o = true -> cycleEnd u (EngineChatStreamOutputMsg o)
| end_explained o :
    IsExecutable o = false -> cycleEnd u (EngineExecOutputMsg o)
| end_declined k :
    confirming (state u) = true -> unnamedKey k ->
    ToLower (keyString k) <> "y" -> cycleEnd u (KeyMsg k)
| end_run r :
    cycleEnd u (RunOutputMsg r).

Section Notions.

Context {ext : Collaborators}.

(** [Update] has started the pending command of [u]. *)
Definition confirmed (u : Ui) (r : outcome (Ui * Cmd)) : Prop :=
  exists u',
    r = Done (u', Sequence [CmdNil; ExecProcess (command (state u)) ExecCommandDone])
    /\ confirming (state u') = false
    /\ executing (state u') = true.

(** [Update] has dropped the decision: the notice is printed, no
    subprocess is started, the session is neither confirming nor
    executing. *)
Definition cancelled (u : Ui) (r : outcome (Ui * Cmd)) : Prop :=
  exists u' c,
    r = Done (u', c)
    /\ printed c = [cancelNotice u]
    /\ hasExecProcess c = false
    /\ confirming (state u') = false
    /\ executing (state u') = false.

(** What ends the rendering of a stream: [tea.Quit] in CLI mode, the
    blinking cursor of the prompt in REPL mode. *)
Definition afterStream (u : Ui) : Cmd :=
  if RunMode_eqb (runMode (state u)) CliMode then Quit else Blink.

End Notions.

(** ** Sessions to run the statements on *)

Definition orElse (o : option World) (w : World) : World :=
  match o with
  | Some w' => w'
  | None => w
  end.

Definition stopped : World :=
  {| ui := NewUi replExec; pending := []; inbox := []; quitting := true |}.

(** The session that asks whether to run [ls -la]. *)
Definition worldConfirming : World :=
  Eval vm_compute in
    orElse (play (ext := plain) replExec (ConfigLoaded writtenConfig) toConfirming) stopped.

(** The same session after the answer [y]. *)
Definition worldExecuting : World :=
  Eval vm_compute in
    orElse (play (ext := plain) replExec (ConfigLoaded writtenConfig) toExecuting) stopped.

(** A CLI invocation in exec mode. *)
Definition cliExec : UiInput :=
  {| inRunMode := CliMode; inPromptMode := ExecPromptMode;
     inArgs := "list files"; inPipe := "" |}.

(** The completion of the CLI invocation fails. *)
Definition toCliFailure : list Event :=
  [ Expand 0; Run 1 (Completion (inl "timeout")) ].

Definition worldCliFailure : World :=
  Eval vm_compute in
    orElse (play (ext := plain) cliExec (ConfigLoaded writtenConfig) toCliFailure) stopped.

(** A CLI invocation in chat mode with piped input. *)
Definition cliPiped : UiInput :=
  {| inRunMode := CliMode; inPromptMode := ChatPromptMode;
     inArgs := "summarize"; inPipe := "notes" |}.

(** An idle session in chat mode whose engine remembers two turns. *)
Definition chatting : Ui :=
  with_engine
    (Some {| eMode := ChatEngineMode; ePipe := "";
             eMemory := ["hello"; "hi, how can I help?"] |})
    (NewUi {| inRunMode := ReplMode; inPromptMode := ChatPromptMode;
              inArgs := ""; inPipe := "" |}).

(** The CLI invocation while its command runs. *)
Definition cliRunning : Ui :=
  st (set_executing true) (NewUi cliExec).

(** ** Notions for further statements *)

(** Does the command ask the engine for a completion? *)
Fixpoint hasRequest (c : Cmd) : bool :=
  match c with
  | StartExecFn _ | StartChatStreamFn _ | CliExecFn => true
  | Sequence cs | Batch cs => existsb hasRequest cs
  | _ => false
  end.

(** What the process was invoked with, as the session holds it. *)
Definition invocation (u : Ui) : RunMode * string * string :=
  (runMode (state u), args (state u), pipe (state u)).

(** The renderer wraps at the width of the window. *)
Definition wrapsAtWidth (u : Ui) : Prop :=
  wordWrap (renderer (components u)) = width (dimensions u).

(** A session that has an engine has a configuration. *)
Definition engineHasConfig (u : Ui) : Prop :=
  engine u <> None -> config u <> None.

(** The engine of the session has been given the piped input. *)
Definition enginePiped (u : Ui) : Prop :=
  forall e, engine u = Some e ->
            isEmpty (pipe (state u)) = false -> ePipe e = pipe (state u).

(** The session holds an error. *)
Definition failed (u : Ui) : Prop := error (state u) <> None.

(** The three flags that the end of a cycle clears. *)
Definition busy (u : Ui) : bool :=
  querying (state u) || confirming (state u) || executing (state u).

(** The commands that Enter batches for the input [v] of the prompt
    [p] in the prompt mode [m]. *)
Definition submission (m : PromptMode) (p : Prompt) (line : string) : list Cmd :=
  PromptCmd :: Println line ::
    (if PromptMode_eqb m ChatPromptMode
     then [StartChatStreamFn (GetValue p); AwaitChatStreamFn]
     else [StartExecFn (GetValue p); SpinnerTick]).

Definition ctrlR : Key := {| keyType := KeyCtrlR; keyString := "ctrl+r" |}.
Definition ctrlS : Key := {| keyType := KeyCtrlS; keyString := "ctrl+s" |}.

Section Runs.

Context {ext : Collaborators}.

(** The prompt mode of a session that starts with a configuration:
    the one asked for, or, when none was, the default of the
    configuration. *)
Definition resolved (input : UiInput) (cfg : Config) : PromptMode :=
  if PromptMode_eqb (inPromptMode input) DefaultPromptMode
  then GetPromptModeFromString (defaultPromptMode cfg)
  else inPromptMode input.

(** Any number of moves of the runtime. *)
Inductive steps : World -> World -> Prop :=
| steps_none w : steps w w
| steps_more w w' w'' : steps w w' -> step w' w'' -> steps w w''.

(** [P] is kept by [Update] and by every closure of [ui.go]. *)
Definition keptBy (P : Ui -> Prop) : Prop :=
  (forall u m u' c, P u -> Update u m = Done (u', c) -> P u')
  /\ (forall c u u' om, P u -> fires c u (Done (u', om)) -> P u')
  /\ (forall input u u', P u -> startExecEnter input u = Done u' -> P u')
  /\ (forall r u, P u -> P (fst (startExecReturn r u)))
  /\ (forall input u u', P u -> startChatStreamEnter input u = Done u' -> P u')
  /\ (forall r u, P u -> P (fst (startChatStreamReturn r u))).

End Runs.

(** The REPL session as it waits for its first input. *)
Definition toIdle : list Event :=
  [ Next 0 NoAnswer; Next 0 NoAnswer; Next 0 NoAnswer; Next 0 NoAnswer ].

Definition worldIdle : World :=
  Eval vm_compute in
    orElse (play (ext := plain) replExec (ConfigLoaded writtenConfig) toIdle) stopped.

(** The REPL session of a first start, with no configuration file: it
    asks for the configuration and has no engine yet. *)
Definition toBootstrap : list Event :=
  [ Next 0 NoAnswer; Next 0 NoAnswer ].

Definition worldBootstrap : World :=
  Eval vm_compute in
    orElse (play (ext := plain) replExec (ConfigFileNotFound "no file") toBootstrap)
           stopped.

(** The CLI invocation whose completion has failed, once [Update] has
    the error, and the same after a key and a resize. *)
Definition worldCliFailed : World :=
  Eval vm_compute in
    orElse (play (ext := plain) cliExec (ConfigLoaded writtenConfig)
              (toCliFailure ++ [Handle])%list) stopped.

Definition afterFailure : list Event :=
  [ Arrive (KeyMsg (typed "q")); Handle; Arrive (WindowSizeMsg 80 24); Handle ].

Definition worldCliFailedLater : World :=
  Eval vm_compute in orElse (run (ext := plain) afterFailure worldCliFailed) stopped.

(** The idle REPL session after the window has been resized. *)
Definition toResized : list Event :=
  (toIdle ++ [ Arrive (WindowSizeMsg 80 24); Handle ])%list.

Definition worldResized : World :=
  Eval vm_compute in
    orElse (play (ext := plain) replExec (ConfigLoaded writtenConfig) toResized) stopped.

(** The CLI invocation with piped input, as it starts. *)
Definition worldPiped : World :=
  Eval vm_compute in
    orElse (play (ext := plain) cliPiped (ConfigLoaded writtenConfig) []) stopped.

(** The idle REPL session after [ls] has been typed. *)
Definition toTyped : list Event :=
  (toIdle ++ [ Arrive (KeyMsg (typed "l")); Handle;
               Arrive (KeyMsg (typed "s")); Handle ])%list.

Definition worldTyped : World :=
  Eval vm_compute in
    orElse (play (ext := plain) replExec (ConfigLoaded writtenConfig) toTyped) stopped.

(** A CLI invocation that asks for the Config prompt mode. *)
Definition cliOdd : UiInput :=
  {| inRunMode := CliMode; inPromptMode := ConfigPromptMode;
     inArgs := "explain"; inPipe := "" |}.

(** The configuration after the editor. *)
Definition editedConfig : Config :=
  {| editor := "nano"; configFile := "config.json"; defaultPromptMode := "chat" |}.

(** ** Sessions in which requests and keys cross *)

(** A REPL session in chat mode. *)
Definition replChat : UiInput :=
  {| inRunMode := ReplMode; inPromptMode := ChatPromptMode;
     inArgs := ""; inPipe := "" |}.

(** The user types [hi] and presses Enter; the closure of
    [startChatStream] has called the engine and the first await is
    under way. *)
Definition toStreaming : list Event :=
  (toIdle ++ [ Arrive (KeyMsg (typed "h")); Handle;
               Arrive (KeyMsg (typed "i")); Handle;
               Arrive (KeyMsg enterKey); Handle;
               Expand 3; Enter 5 ])%list.

Definition worldStreaming : World :=
  Eval vm_compute in
    orElse (play (ext := plain) replChat (ConfigLoaded writtenConfig) toStreaming) stopped.

(** The call of the engine fails, and [Update] has the error. *)
Definition toChatFailed : list Event :=
  (toStreaming ++ [ ChatReturns 5 (Some "timeout"); Handle ])%list.

Definition worldChatFailed : World :=
  Eval vm_compute in
    orElse (play (ext := plain) replChat (ConfigLoaded writtenConfig) toChatFailed) stopped.

(** Ctrl-S is pressed, and the await receives the one and last chunk
    [Hello] before [Update] has had the key. *)
Definition toStreamReceived : list Event :=
  (toStreaming ++ [ Arrive (KeyMsg ctrlS); Run 6 (Chunk (chunk "Hello" true)) ])%list.

Definition worldStreamReceived : World :=
  Eval vm_compute in
    orElse (play (ext := plain) replChat (ConfigLoaded writtenConfig) toStreamReceived)
           stopped.

(** [Update] gets the key, then the chunk. *)
Definition worldStreamLost : World :=
  Eval vm_compute in
    orElse (run (ext := plain) [Handle; Handle] worldStreamReceived) stopped.

(** The user submits [a] and then [b] before the closure of the first
    request has run: both batches are started. *)
Definition toTwoStreams : list Event :=
  (toIdle ++ [ Arrive (KeyMsg (typed "a")); Handle; Arrive (KeyMsg enterKey); Handle;
               Arrive (KeyMsg (typed "b")); Handle; Arrive (KeyMsg enterKey); Handle;
               Expand 2; Expand 7 ])%list.

Definition worldTwoStreams : World :=
  Eval vm_compute in
    orElse (play (ext := plain) replChat (ConfigLoaded writtenConfig) toTwoStreams) stopped.

(** The CLI invocation whose completion has failed: [Update] has the
    error, then the user types [ls] and presses Enter. *)
Definition toCliSecond : list Event :=
  (toCliFailure ++ [ Handle;
                     Arrive (KeyMsg (typed "l")); Handle;
                     Arrive (KeyMsg (typed "s")); Handle;
                     Arrive (KeyMsg enterKey); Handle ])%list.

Definition worldCliSecond : World :=
  Eval vm_compute in
    orElse (play (ext := plain) cliExec (ConfigLoaded writtenConfig) toCliSecond) stopped.

(** In exec mode the user submits [a] and then [b] before the closure
    of the first request has run; the first completion returns the
    command [ls -la], the closure of the second request calls the
    engine, and [Update] gets the result of the first: the session is
    confirming and querying. *)
Definition toBothFlags : list Event :=
  (toIdle ++ [ Arrive (KeyMsg (typed "a")); Handle; Arrive (KeyMsg enterKey); Handle;
               Arrive (KeyMsg (typed "b")); Handle; Arrive (KeyMsg enterKey); Handle;
               Expand 2; Expand 7;
               Enter 4; ExecReturns 4 (inr lsOutput); Enter 8; Handle ])%list.

Definition worldBothFlags : World :=
  Eval vm_compute in
    orElse (play (ext := plain) replExec (ConfigLoaded writtenConfig) toBothFlags) stopped.

(** The awaits under way. *)
Definition isAwait (j : Job) : bool :=
  match j with
  | Waiting AwaitChatStreamFn => true
  | _ => false
  end.

Definition awaitsIn (js : list Job) : nat := length (filter isAwait js).

Section CycleText.

Context {ext : Collaborators}.

(** What [Update] prints at the end of a cycle: the rendering of the
    buffer for the last chunk, of the explanation for an exec result,
    the notice for a decline, the message of the subprocess. *)
Definition cycleText (u : Ui) (m : Msg) : string :=
  match m with
  | EngineChatStreamOutputMsg _ => RenderContent (rd u) (buffer (state u))
  | EngineExecOutputMsg o => RenderContent (rd u) (GetExplanation o)
  | KeyMsg _ => nl ++ RenderWarning (rd u) "[cancel]" ++ nl
  | RunOutputMsg r =>
      if HasError r
      then RenderError (rd u) (nl ++ errorMessage r ++ nl)
      else RenderSuccess (rd u) (nl ++ successMessage r ++ nl)
  | _ => ""
  end.

(** The command of the prompt, which comes first for a key. *)
Definition promptPart (m : Msg) : list Cmd :=
  match m with
  | KeyMsg _ => [PromptCmd]
  | _ => []
  end.

(** What [Update] returns at the end of a cycle in REPL mode. *)
Definition replEnd (u : Ui) (m : Msg) : Cmd :=
  match m with
  | EngineChatStreamOutputMsg _ => Sequence [Println (cycleText u m); Blink]
  | EngineExecOutputMsg _ => Sequence [PromptCmd; Blink; Println (cycleText u m)]
  | KeyMsg _ => Batch [PromptCmd; Println (cycleText u m); Blink]
  | _ => Sequence [Println (cycleText u m); PromptCmd; Blink]
  end.

End CycleText.

(** ** A chat stream among the other moves of the runtime *)

(** A command that does nothing to the session however the runtime
    runs it: a library command, or a combination of such. *)
Fixpoint quietCmd (c : Cmd) : bool :=
  match c with
  | Sequence cs | Batch cs => forallb quietCmd cs
  | _ => inert c
  end.

(** The jobs of a runtime whose one request is a chat stream: an
    await, quiet commands, and the call of the engine by
    [startChatStream]. *)
Definition streamJob (j : Job) : bool :=
  match j with
  | Waiting AwaitChatStreamFn => true
  | Waiting c => quietCmd c
  | InChatStreamCompletion => true
  | InExecCompletion => false
  end.

Definition isChunk (m : Msg) : bool :=
  match m with
  | EngineChatStreamOutputMsg _ => true
  | _ => false
  end.

(** The messages that wait meanwhile: those of the terminal, an error,
    and the chunks before the last. *)
Definition streamMsg (m : Msg) : bool :=
  match m with
  | EngineChatStreamOutputMsg o => negb (IsLast o)
  | ErrorMsg _ => true
  | _ => fromTerminal m
  end.

Definition chunksIn (ms : list Msg) : nat := length (filter isChunk ms).

(** One move of the runtime: a move of a schedule, or the start of
    the first command of a sequence beside it, when that command does
    not run in one piece ([step_spawn]). *)
Inductive Move : Type :=
| Sched (e : Event)
| Spawn (i : nat).

Section Moves.

Context {ext : Collaborators}.

Definition move (m : Move) (w : World) : option World :=
  match m with
  | Sched e => sched e w
  | Spawn i =>
      match pick i (pending w) with
      | Some (l1, Waiting (Sequence (c :: cs)), l2) =>
          if runsInOnePiece c then None
          else Some {| ui := ui w;
                       pending := (l1 ++ Waiting c :: Waiting (Sequence cs) :: l2)%list;
                       inbox := inbox w; quitting := quitting w |}
      | _ => None
      end
  end.

Fixpoint moves (ms : list Move) (w : World) : option World :=
  match ms with
  | [] => Some w
  | m :: rest =>
      match move m w with
      | Some w' => moves rest w'
      | None => None
      end
  end.

End Moves.

(** The chunks that a closure is given in a list of moves, in their
    order. *)
Definition chunksOf (ms : list Move) : list EngineChatStreamOutput :=
  flat_map (fun m => match m with
                     | Sched (Run _ (Chunk o)) | Sched (Next _ (Chunk o)) => [o]
                     | _ => []
                     end) ms.

(** Moves in which [Update] gets no message. *)
Definition noHandle (ms : list Move) : bool :=
  forallb (fun m => match m with Sched Handle => false | _ => true end) ms.

(** A chat stream is under way and is the one request of the session:
    the buffer is [b]; the session has an engine, is querying, and is
    neither confirming nor configuring; the jobs and the waiting
    messages are those of a stream; and there is one await under way
    or one chunk waiting for [Update], not both and not two. *)
Definition streamInv (b : string) (w : World) : Prop :=
  buffer (state (ui w)) = b
  /\ engine (ui w) <> None
  /\ querying (state (ui w)) = true
  /\ confirming (state (ui w)) = false
  /\ configuring (state (ui w)) = false
  /\ forallb streamJob (pending w) = true
  /\ forallb streamMsg (inbox w) = true
  /\ awaitsIn (pending w) + chunksIn (inbox w) = 1.

(** The last chunk [o] has been received and waits for [Update]: the
    session is [u], [o] is the first message that waits, no other
    chunk waits, and no await is under way. *)
Definition streamEnds (u : Ui) (o : EngineChatStreamOutput) (w : World) : Prop :=
  ui w = u
  /\ (exists rest, inbox w = EngineChatStreamOutputMsg o :: rest /\ chunksIn rest = 0)
  /\ forallb streamJob (pending w) = true
  /\ awaitsIn (pending w) = 0.

(** The stream of [hi] while it arrives: a key is typed, the chunk
    [Hel] is received, [Update] gets the key, the window is resized,
    [Update] gets the chunk and the new size, and the chunk [lo] is
    received and given to [Update]. *)
Definition whileStreaming : list Event :=
  [ Arrive (KeyMsg (typed "x")); Run 6 (Chunk (chunk "Hel" false)); Handle;
    Arrive (WindowSizeMsg 80 24); Handle; Handle;
    Run 7 (Chunk (chunk "lo" false)); Handle ].

Definition worldStreamingOn : World :=
  Eval vm_compute in orElse (run (ext := plain) whileStreaming worldStreaming) stopped.

(** Then the chunk [!], the last, is received, and Ctrl-S is pressed. *)
Definition worldStreamingLast : World :=
  Eval vm_compute in
    orElse (run (ext := plain)
              [Run 8 (Chunk (chunk "!" true)); Arrive (KeyMsg ctrlS)] worldStreamingOn)
           stopped.

(** ** Lemmas on strings *)

Lemma toLowerAscii_y (c : ascii) :
  toLowerAscii c = "y"%char <-> c = "y"%char \/ c = "Y"%char.
Proof.
  destruct c as [[] [] [] [] [] [] [] []]; vm_compute; split; intros H;
    try discriminate H; try (destruct H as [H | H]; discriminate H); auto.
Qed.

Lemma ToLower_y (s : string) :
  ToLower s = "y" <-> s = "y" \/ s = "Y".
Proof.
  destruct s as [| c [| c' s']]; simpl.
  - split; [discriminate | intros [H | H]; discriminate H].
  - split.
    + intros H. injection H as H. apply toLowerAscii_y in H.
      destruct H as [-> | ->]; auto.
    + intros [H | H]; injection H as ->; reflexivity.
  - split; [discriminate | intros [H | H]; discriminate H].
Qed.

Lemma isEmpty_true (s : string) : isEmpty s = true <-> s = "".
Proof. destruct s; simpl; split; congruence. Qed.

Lemma isEmpty_false (s : string) : isEmpty s = false <-> s <> "".
Proof. destruct s; simpl; split; congruence. Qed.

Lemma append_empty_r (s : string) : s ++ "" = s.
Proof. induction s as [| c s IH]; simpl; [reflexivity | now rewrite IH]. Qed.

Lemma append_assoc' (a b c : string) : (a ++ b) ++ c = a ++ (b ++ c).
Proof. induction a as [| x a IH]; simpl; [reflexivity | now rewrite IH]. Qed.

(** ** The schedule follows the runtime *)

Lemma pick_split {A : Type} (i : nat) (l l1 l2 : list A) (x : A) :
  pick i l = Some (l1, x, l2) -> l = (l1 ++ x :: l2)%list.
Proof.
  revert i l1. induction l as [| y l IH]; intros [| j] l1 H; simpl in H;
    try discriminate H.
  - injection H as <- <- <-. reflexivity.
  - destruct (pick j l) as [[[k1 z] k2] |] eqn:E; [| discriminate H].
    injection H as <- <- <-. simpl. f_equal. now apply IH with (i := j).
Qed.

Section ScheduleSound.

Context {ext : Collaborators}.

Lemma fire_fires (c : Cmd) (a : Answer) (u : Ui) (r : outcome (Ui * option Msg)) :
  fire c a u = Some r -> fires c u r.
Proof.
  intros H.
  destruct c; destruct a; simpl in H; try discriminate H;
    try (injection H as <-; (constructor; reflexivity) || constructor).
  all: destruct cb; try discriminate H; injection H as <-; constructor.
Qed.

Lemma sched_step (e : Event) (w w' : World) :
  sched e w = Some w' -> step w w'.
Proof.
  destruct e; simpl; intros H.
  - destruct (fromTerminal m) eqn:E; [| discriminate H].
    injection H as <-. now apply step_arrive.
  - destruct (inbox w) as [| m rest] eqn:E; [discriminate H |].
    destruct (Update (ui w) m) as [[u' c] |] eqn:EU; [| discriminate H].
    injection H as <-. now apply step_update with (m := m).
  - destruct (pick i (pending w)) as [[[l1 t] l2] |] eqn:E; [| discriminate H].
    apply pick_split in E.
    destruct t as [c | |]; try discriminate H.
    destruct c; try discriminate H.
    injection H as <-. now apply step_batch.
  - destruct (pick i (pending w)) as [[[l1 t] l2] |] eqn:E; [| discriminate H].
    apply pick_split in E.
    destruct t as [c | |]; try discriminate H.
    destruct c as [ | | | | | | | | | | | | | | | | cs | ]; try discriminate H.
    destruct cs as [| c cs]; [discriminate H |].
    destruct (fire c a (ui w)) as [[[u' om] |] |] eqn:EF; try discriminate H.
    injection H as <-. apply step_sequence with (c := c); [exact E |].
    now apply fire_fires with (a := a).
  - destruct (pick i (pending w)) as [[[l1 t] l2] |] eqn:E; [| discriminate H].
    apply pick_split in E.
    destruct t as [c | |]; try discriminate H.
    destruct (fire c a (ui w)) as [[[u' om] |] |] eqn:EF; try discriminate H.
    injection H as <-. apply step_fire with (c := c); [exact E |].
    now apply fire_fires with (a := a).
  - destruct (pick i (pending w)) as [[[l1 t] l2] |] eqn:E; [| discriminate H].
    apply pick_split in E.
    destruct t as [c | |]; try discriminate H.
    destruct c; try discriminate H.
    + destruct (startExecEnter input (ui w)) as [u' |] eqn:EE; [| discriminate H].
      injection H as <-. now apply step_startExec with (input := input).
    + destruct (startChatStreamEnter input (ui w)) as [u' |] eqn:EE; [| discriminate H].
      injection H as <-. now apply step_startChatStream with (input := input).
  - destruct (pick i (pending w)) as [[[l1 t] l2] |] eqn:E; [| discriminate H].
    apply pick_split in E.
    destruct t as [c | |]; try discriminate H.
    injection H as <-. now apply step_execReturn.
  - destruct (pick i (pending w)) as [[[l1 t] l2] |] eqn:E; [| discriminate H].
    apply pick_split in E.
    destruct t as [c | |]; try discriminate H.
    injection H as <-. now apply step_chatStreamReturn.
Qed.

Lemma run_reachable (es : list Event) (w w' : World) :
  reachable w -> run es w = Some w' -> reachable w'.
Proof.
  revert w. induction es as [| e es IH]; simpl; intros w R H.
  - injection H as <-. exact R.
  - destruct (sched e w) as [w1 |] eqn:E; [| discriminate H].
    apply IH with (w := w1); [| exact H].
    apply reachable_step with (w := w); [exact R | now apply sched_step with (e := e)].
Qed.

Lemma play_reachable (input : UiInput) (load : ConfigLoad) (es : list Event) (w : World) :
  play input load es = Some w -> reachable w.
Proof.
  unfold play. destruct (boot input load) as [w0 |] eqn:E; [| discriminate].
  apply run_reachable. now apply reachable_boot with (input := input) (load := load).
Qed.

End ScheduleSound.

(** ** The pending command *)

(** Opens the conditionals of an equation [H] between outcomes, the
    innermost first. *)
Ltac open_branch H :=
  match type of H with
  | context [match ?x with _ => _ end] =>
      lazymatch x with
      | context [match _ with _ => _ end] => fail
      | _ => destruct x eqn:?
      end
  end.

Ltac open_branches H :=
  repeat (open_branch H; simpl in H; try discriminate H).

Ltac unfold_model H :=
  unfold Update, updateKey, finishConfig, editSettings, execCommand, pipeInto,
    onEngine, deref, bind, free, updatePrompt, resolvePromptMode in H.

Ltac flags u :=
  destruct (isEmpty (command (state u))), (confirming (state u)),
    (executing (state u)); simpl in *; try congruence.

Section Invariant.

Context {ext : Collaborators}.

Lemma Update_commandHeld (u u' : Ui) (m : Msg) (c : Cmd) :
  commandHeld u = true ->
  Update u m = Done (u', c) ->
  hasQuit c = false ->
  commandHeld u' = true.
Proof.
  intros I H Q. unfold commandHeld in *.
  destruct m as [| w h | k | o | o | r | e |]; unfold_model H; simpl in H.
  3: destruct k as [kt ks]; destruct kt; simpl in H.
  all: open_branches H; try discriminate H.
  all: injection H as <- <-; simpl in *; try discriminate Q; try assumption.
  all: try (rewrite ?orb_true_r; reflexivity).
  all: flags u.
Qed.

Lemma fires_commandHeld (c : Cmd) (u u' : Ui) (om : option Msg) :
  commandHeld u = true ->
  fires c u (Done (u', om)) ->
  commandHeld u' = true.
Proof.
  intros I F. unfold commandHeld in *.
  inversion F as [c0 u0 In | cfg u0 | r u0 | u0 | u0 | o u0 | c0 e u0 | c0 e l u0];
    subst; try assumption.
  all: try match goal with
       | H : _ = Done _ |- _ =>
           unfold startReplFn, cliExecFn, awaitChatStreamFn, editSettingsDone in H;
           unfold_model H; simpl in H; open_branches H;
           injection H as <- <-
       end.
  all: unfold startConfigFn, finishConfigReplFn, execCommandDone in *; simpl in *.
  all: try reflexivity; try assumption.
  all: flags u.
Qed.

Lemma Init_commandHeld (input : UiInput) (load : ConfigLoad) (u : Ui) (c : Cmd) :
  Init (NewUi input) load = Done (u, c) -> commandHeld u = true.
Proof.
  intros H. unfold Init, startCli, startRepl, startConfig in H.
  unfold_model H. simpl in H. open_branches H.
  all: injection H as <- <-; reflexivity.
Qed.

Lemma boot_heldUntilQuit (input : UiInput) (load : ConfigLoad) (w : World) :
  boot input load = Done w -> heldUntilQuit w.
Proof.
  unfold boot, bind. destruct (Init (NewUi input) load) as [[u c] |] eqn:E;
    [| discriminate].
  intros H _. injection H as <-. simpl. now apply Init_commandHeld in E.
Qed.

Lemma step_heldUntilQuit (w w' : World) :
  heldUntilQuit w -> step w w' -> heldUntilQuit w'.
Proof.
  unfold heldUntilQuit. intros I S.
  destruct S; simpl; intros Q; try (now apply I).
  - apply orb_false_iff in Q. destruct Q as [Q1 Q2].
    eapply Update_commandHeld; eauto.
  - eapply fires_commandHeld; eauto.
  - eapply fires_commandHeld; eauto.
  - specialize (I Q). unfold startExecEnter in *. unfold_model H0.
    simpl in H0. open_branches H0. injection H0 as <-. reflexivity.
  - specialize (I Q). unfold startExecReturn. destruct r; simpl;
      unfold commandHeld in *; simpl; flags (ui w).
  - specialize (I Q). unfold startChatStreamEnter in *. unfold_model H0.
    simpl in H0. open_branches H0. injection H0 as <-. reflexivity.
  - specialize (I Q). unfold startChatStreamReturn. destruct r; simpl; exact I.
Qed.

Lemma reachable_heldUntilQuit (w : World) :
  reachable w -> heldUntilQuit w.
Proof.
  induction 1 as [input load w B | w w' R IH S].
  - now apply boot_heldUntilQuit with (input := input) (load := load).
  - now apply step_heldUntilQuit with (w := w).
Qed.

End Invariant.

Lemma worldConfirming_played :
  play (ext := plain) replExec (ConfigLoaded writtenConfig) toConfirming
  = Some worldConfirming.
Proof. vm_compute. reflexivity. Qed.

Lemma worldExecuting_played :
  play (ext := plain) replExec (ConfigLoaded writtenConfig) toExecuting
  = Some worldExecuting.
Proof. vm_compute. reflexivity. Qed.

Section Confirmation.

Context {ext : Collaborators}.

(** C1, as amended. In every reachable state of a session in which
    [Update] has not returned [tea.Quit], a non-empty pending command
    means that the session is confirming or executing: the command
    stays stored while the subprocess runs. *)
Theorem C1_command_only_while_confirming_or_executing (w : World) :
  reachable w ->
  quitting w = false ->
  command (state (ui w)) <> "" ->
  confirming (state (ui w)) = true \/ executing (state (ui w)) = true.
Proof.
  intros R Q N. pose proof (reachable_heldUntilQuit w R Q) as I.
  unfold commandHeld in I. apply isEmpty_false in N. rewrite N in I. simpl in I.
  now apply orb_true_iff in I.
Qed.

(** C2, as amended. On a confirming session, a key of the default
    branch whose text lowers to [y] makes [Update] clear [confirming],
    set [executing], leave the pending command stored and return the
    subprocess on that command; a further key of that branch starts no
    subprocess; the callback of the subprocess clears the command. *)
Theorem C2_confirm_clears_flag_and_keeps_command (u : Ui) (k : Key) :
  confirming (state u) = true ->
  unnamedKey k ->
  ToLower (keyString k) = "y" ->
  exists u',
    Update u (KeyMsg k)
    = Done (u', Sequence [CmdNil; ExecProcess (command (state u)) ExecCommandDone])
    /\ confirming (state u') = false
    /\ executing (state u') = true
    /\ command (state u') = command (state u)
    /\ (forall k', unnamedKey k' ->
          exists u'' c, Update u' (KeyMsg k') = Done (u'', c)
                        /\ hasExecProcess c = false)
    /\ (forall exit, command (state (fst (execCommandDone exit u'))) = "").
Proof.
  intros C K Y. destruct k as [kt ks]. unfold unnamedKey in *. simpl in *.
  unfold Update, updateKey. simpl.
  assert (E : String.eqb (ToLower ks) "y" = true) by (rewrite Y; reflexivity).
  destruct K as [K | K]; subst kt; simpl; rewrite C, E; simpl.
  all: eexists; split; [reflexivity |]; simpl.
  all: repeat split; try reflexivity.
  all: intros [kt' ks'] [K' | K']; simpl in K'; subst kt'; simpl;
    do 2 eexists; split; reflexivity.
Qed.

End Confirmation.

(** C1, counterexample. After the answer [y] the session is not
    confirming and still stores [ls -la]. *)
Lemma C1_command_kept_while_executing :
  reachable (ext := plain) worldExecuting
  /\ quitting worldExecuting = false
  /\ confirming (state (ui worldExecuting)) = false
  /\ executing (state (ui worldExecuting)) = true
  /\ command (state (ui worldExecuting)) = "ls -la".
Proof.
  split; [| repeat split].
  exact (play_reachable _ _ _ _ worldExecuting_played).
Qed.

Lemma C1_command_only_while_confirming_or_executing_witness :
  confirming (state (ui worldConfirming)) = true
  \/ executing (state (ui worldConfirming)) = true.
Proof.
  apply (C1_command_only_while_confirming_or_executing (ext := plain)
           worldConfirming).
  - exact (play_reachable _ _ _ _ worldConfirming_played).
  - reflexivity.
  - discriminate.
Defined.

(** C2, counterexample. [Update] returns the subprocess on [ls -la]
    and the session it leaves still stores [ls -la]. *)
Lemma C2_command_not_cleared_before_runner :
  Update (ext := plain) (ui worldConfirming) (KeyMsg (typed "y"))
  = Done (ui worldExecuting, Sequence [CmdNil; ExecProcess "ls -la" ExecCommandDone])
  /\ command (state (ui worldExecuting)) = "ls -la".
Proof. split; reflexivity. Qed.

Lemma C2_confirm_clears_flag_and_keeps_command_witness :
  exists u',
    Update (ext := plain) (ui worldConfirming) (KeyMsg (typed "y"))
    = Done (u', Sequence [CmdNil;
                          ExecProcess (command (state (ui worldConfirming)))
                                      ExecCommandDone])
    /\ confirming (state u') = false
    /\ executing (state u') = true
    /\ command (state u') = command (state (ui worldConfirming))
    /\ (forall k', unnamedKey k' ->
          exists u'' c, Update (ext := plain) u' (KeyMsg k') = Done (u'', c)
                        /\ hasExecProcess c = false)
    /\ (forall exit, command (state (fst (execCommandDone exit u'))) = "").
Proof.
  apply (C2_confirm_clears_flag_and_keeps_command (ext := plain)
           (ui worldConfirming) (typed "y")).
  - reflexivity.
  - left. reflexivity.
  - reflexivity.
Defined.

(** ** The decision on a pending command *)

Lemma worldCliFailure_played :
  play (ext := plain) cliExec (ConfigLoaded writtenConfig) toCliFailure
  = Some worldCliFailure.
Proof. vm_compute. reflexivity. Qed.

Section Decision.

Context {ext : Collaborators}.

(** C3, as amended. While the session is confirming, the decision is
    taken on the keys of the default branch of [Update]: the texts [y]
    and [Y], and no other, confirm; every other text, the empty one
    too, cancels. The keys that [Update] names decide nothing: Up,
    Down, Tab, Ctrl-H, Ctrl-L, Ctrl-R, Ctrl-S, and Enter outside the
    configuration, leave the session as it is, still confirming, and
    Ctrl-C quits. *)
Theorem C3_decision_on_unnamed_keys (u : Ui) (k : Key) :
  confirming (state u) = true ->
  (unnamedKey k ->
     (ToLower (keyString k) = "y" <-> keyString k = "y" \/ keyString k = "Y")
     /\ (keyString k = "y" \/ keyString k = "Y" -> confirmed u (Update u (KeyMsg k)))
     /\ (keyString k <> "y" -> keyString k <> "Y" -> cancelled u (Update u (KeyMsg k))))
  /\ (guardedKey k -> Update u (KeyMsg k) = Done (u, Batch []))
  /\ (keyType k = KeyEnter -> configuring (state u) = false ->
        Update u (KeyMsg k) = Done (u, Batch []))
  /\ (keyType k = KeyCtrlC -> Update u (KeyMsg k) = Done (u, Quit)).
Proof.
  intros C. destruct k as [kt ks]. unfold unnamedKey, guardedKey. simpl.
  repeat split.
  - apply ToLower_y.
  - apply ToLower_y.
  - intros Y. apply ToLower_y in Y.
    assert (E : String.eqb (ToLower ks) "y" = true) by (rewrite Y; reflexivity).
    unfold confirmed, Update, updateKey. simpl.
    destruct H as [K | K]; subst kt; simpl; rewrite C, E; simpl;
      eexists; repeat split.
  - intros N1 N2.
    assert (E : String.eqb (ToLower ks) "y" = false).
    { apply String.eqb_neq. intros Y. apply ToLower_y in Y. tauto. }
    unfold cancelled, Update, updateKey. simpl.
    destruct H as [K | K]; subst kt; simpl; rewrite C, E; simpl;
      destruct (runMode (state u)); simpl; do 2 eexists; repeat split.
  - intros K. unfold Update, updateKey, free. simpl.
    decompose [or] K; subst kt; simpl; rewrite C;
      rewrite ?andb_false_r; reflexivity.
  - intros K F. subst kt. unfold Update, updateKey, free. simpl.
    rewrite F, C. rewrite andb_false_r. reflexivity.
  - intros K. subst kt. reflexivity.
Qed.

(** C5, as amended. Tab is guarded by [querying] and [confirming]
    alone. While the session is querying or confirming, Tab leaves it
    as it is. Otherwise, also while executing or configuring, Tab on a
    session that has an engine toggles the prompt mode (Chat becomes
    Exec, every other mode becomes Chat), sets the mode of the prompt
    and of the engine with it, empties the memory of the engine and
    leaves the phase flags as they are. *)
Theorem C5_tab_guarded_by_querying_and_confirming (u : Ui) (k : Key) :
  keyType k = KeyTab ->
  (querying (state u) = true \/ confirming (state u) = true ->
     Update u (KeyMsg k) = Done (u, Batch []))
  /\ (querying (state u) = false -> confirming (state u) = false ->
      forall e, engine u = Some e ->
      exists u',
        Update u (KeyMsg k) = Done (u', Batch [PromptCmd; Blink])
        /\ promptMode (state u') = toggled (promptMode (state u))
        /\ engine u'
           = Some {| eMode := engineModeOf (toggled (promptMode (state u)));
                     ePipe := ePipe e; eMemory := [] |}
        /\ (configuring (state u'), querying (state u'),
            confirming (state u'), executing (state u'))
           = (configuring (state u), querying (state u),
              confirming (state u), executing (state u))).
Proof.
  intros K. destruct k as [kt ks]. simpl in K. subst kt.
  unfold Update, updateKey, free. simpl. split.
  - intros [Q | C]; [rewrite Q | rewrite C; rewrite andb_false_r]; reflexivity.
  - intros Q C e E. rewrite Q, C. simpl.
    unfold onEngine, toggled. simpl.
    destruct (PromptMode_eqb (promptMode (state u)) ChatPromptMode) eqn:M;
      simpl; rewrite E; simpl; eexists; split; try reflexivity; simpl;
      rewrite Q, C; repeat split.
Qed.

End Decision.

(** C3, counterexample. Enter on the confirming session: [Update]
    returns the session as it was, still confirming, and prints
    nothing. *)
Lemma C3_enter_does_not_cancel :
  confirming (state (ui worldConfirming)) = true
  /\ Update (ext := plain) (ui worldConfirming) (KeyMsg enterKey)
     = Done (ui worldConfirming, Batch [])
  /\ ~ cancelled (ext := plain) (ui worldConfirming)
         (Update (ext := plain) (ui worldConfirming) (KeyMsg enterKey)).
Proof.
  split; [reflexivity |]. split; [reflexivity |].
  intros (u' & c & H & P & _). injection H as <- <-. discriminate P.
Qed.

Lemma C3_decision_on_unnamed_keys_witness :
  confirmed (ui worldConfirming)
    (Update (ext := plain) (ui worldConfirming) (KeyMsg (typed "Y")))
  /\ cancelled (ext := plain) (ui worldConfirming)
       (Update (ext := plain) (ui worldConfirming) (KeyMsg (typed "")))
  /\ Update (ext := plain) (ui worldConfirming) (KeyMsg tabKey)
     = Done (ui worldConfirming, Batch []).
Proof.
  pose proof (C3_decision_on_unnamed_keys (ext := plain) (ui worldConfirming)
                (typed "Y") eq_refl) as (A & _).
  pose proof (C3_decision_on_unnamed_keys (ext := plain) (ui worldConfirming)
                (typed "") eq_refl) as (B & _).
  pose proof (C3_decision_on_unnamed_keys (ext := plain) (ui worldConfirming)
                tabKey eq_refl) as (_ & G & _).
  destruct (A (or_introl eq_refl)) as (_ & A' & _).
  destruct (B (or_introl eq_refl)) as (_ & _ & B').
  split; [| split].
  - apply A'. right. reflexivity.
  - apply B'; discriminate.
  - apply G. right. right. left. reflexivity.
Defined.

(** C5, counterexample. Tab on the executing session, the one that
    the answer [y] has left: the prompt mode moves from Exec to Chat. *)
Lemma C5_tab_toggles_while_executing :
  reachable (ext := plain) worldExecuting
  /\ executing (state (ui worldExecuting)) = true
  /\ promptMode (state (ui worldExecuting)) = ExecPromptMode
  /\ exists u',
       Update (ext := plain) (ui worldExecuting) (KeyMsg tabKey)
       = Done (u', Batch [PromptCmd; Blink])
       /\ promptMode (state u') = ChatPromptMode
       /\ executing (state u') = true.
Proof.
  split; [exact (play_reachable _ _ _ _ worldExecuting_played) |].
  repeat split. eexists. repeat split.
Qed.

(** C5 on the confirming session, where Tab changes nothing, and on
    the session as it starts in chat mode with an engine, where Tab
    moves it to Exec and empties the memory of the engine. *)
Lemma C5_tab_guarded_by_querying_and_confirming_witness :
  Update (ext := plain) (ui worldConfirming) (KeyMsg tabKey)
  = Done (ui worldConfirming, Batch [])
  /\ exists u',
       Update (ext := plain) chatting (KeyMsg tabKey)
       = Done (u', Batch [PromptCmd; Blink])
       /\ promptMode (state u') = ExecPromptMode
       /\ engine u'
          = Some {| eMode := ExecEngineMode; ePipe := ""; eMemory := [] |}.
Proof.
  pose proof (C5_tab_guarded_by_querying_and_confirming (ext := plain)
                (ui worldConfirming) tabKey eq_refl) as (G & _).
  pose proof (C5_tab_guarded_by_querying_and_confirming (ext := plain)
                chatting tabKey eq_refl) as (_ & T).
  split.
  - apply G. right. reflexivity.
  - destruct (T eq_refl eq_refl _ eq_refl) as (u' & U & M & E & _).
    exists u'. repeat split; assumption.
Defined.

(** ** The chat stream *)

Section ChatStream.

Context {ext : Collaborators}.

(** The await loop as moves of the runtime: with one await under way,
    each chunk before the last is received, given to [Update], and
    leaves one await under way again. *)
Lemma stream_on_schedule (pre : list EngineChatStreamOutput) :
  Forall (fun o => IsLast o = false) pre ->
  forall (u : Ui) (e : Engine) (q : bool),
    engine u = Some e ->
    run (flat_map deliver pre) (awaiting u q) = Some (awaiting (streamed pre u) q).
Proof.
  unfold streamed.
  induction 1 as [| o pre L F IH]; intros u e q E.
  - simpl. rewrite append_empty_r.
    replace (st (set_querying (querying (state u))) (st (set_buffer (buffer (state u))) u))
      with u by (destruct u as [[] ? ? ? ? ?]; reflexivity).
    reflexivity.
  - simpl. unfold awaitChatStreamFn. rewrite E. simpl.
    unfold IsLast in *. rewrite L. simpl. rewrite orb_false_r.
    unfold awaiting in IH. rewrite (IH _ e q) by exact E. simpl.
    rewrite append_assoc'. unfold GetContent, awaiting.
    destruct pre; reflexivity.
Qed.

Lemma stream_reachable (pre : list EngineChatStreamOutput) (u : Ui) (e : Engine) (q : bool) :
  Forall (fun o => IsLast o = false) pre ->
  engine u = Some e ->
  reachable (awaiting u q) ->
  reachable (awaiting (streamed pre u) q).
Proof.
  intros F E R. apply run_reachable with (es := flat_map deliver pre) (w := awaiting u q).
  - exact R.
  - now apply stream_on_schedule with (e := e).
Qed.

End ChatStream.

(** ** The end of a cycle *)

Section Cycle.

Context {ext : Collaborators}.


(** C10. In the callback of [editSettings], [SetPipe] is called on
    what [ai.NewEngine] returned before its error is looked at: with a
    non-empty piped input and a failed construction that returned no
    engine the callback panics, and whenever the callback does return
    after a failed construction, the piped input was empty or an
    engine had been returned and [SetPipe] was called on it. *)
Theorem C10_setpipe_before_error_check (u : Ui) (cfg : Config) (e : Error) :
  isEmpty (pipe (state u)) = false ->
  (NewEngine ExecEngineMode cfg = (None, Some e) ->
     editSettingsDone None (ConfigLoaded cfg) u = Panic)
  /\ (forall eng u' m,
        NewEngine ExecEngineMode cfg = (eng, Some e) ->
        editSettingsDone None (ConfigLoaded cfg) u = Done (u', m) ->
        eng <> None
        /\ pipeInto u eng
           = Done (option_map (SetPipe (pipe (state u))) eng)
        /\ m = Some (RunOutputMsg (NewRunOutput (Some e) "[settings error]" ""))
        /\ engine u' = engine u).
Proof.
  intros P. split.
  - intros B. unfold editSettingsDone, pipeInto. rewrite B. simpl.
    rewrite P. reflexivity.
  - intros eng u' m B H. unfold editSettingsDone, pipeInto in *.
    rewrite B in H. simpl in H. rewrite P in *.
    destruct eng as [e1 |]; simpl in *; [| discriminate H].
    injection H as <- <-. repeat split. discriminate.
Qed.

(** [finishConfig] and [startCli] look at the error first: a failed
    construction is stored as the error of the session, with or without
    piped input. *)
Remark finishConfig_checks_error_first
    (u : Ui) (key : string) (cfg : Config) (eng : option Engine) (e : Error) :
  WriteConfig key = inr cfg ->
  NewEngine ExecEngineMode cfg = (eng, Some e) ->
  exists u', finishConfig u key = Done (u', CmdNil)
             /\ error (state u') = Some e.
Proof.
  intros W B. unfold finishConfig. rewrite W, B. eexists. split; reflexivity.
Qed.

End Cycle.


Lemma C10_setpipe_before_error_check_witness :
  editSettingsDone (ext := offline) None (ConfigLoaded writtenConfig) (NewUi cliPiped)
  = Panic.
Proof.
  apply (C10_setpipe_before_error_check (ext := offline) (NewUi cliPiped)
           writtenConfig "no backend").
  - reflexivity.
  - reflexivity.
Defined.

(** ** What every move of the runtime keeps *)

Lemma worldIdle_played :
  play (ext := plain) replExec (ConfigLoaded writtenConfig) toIdle = Some worldIdle.
Proof. vm_compute. reflexivity. Qed.

Lemma worldBootstrap_played :
  play (ext := plain) replExec (ConfigFileNotFound "no file") toBootstrap
  = Some worldBootstrap.
Proof. vm_compute. reflexivity. Qed.

(** The cases of [Update], from an equation [H] on its result. *)
Ltac update_cases H m :=
  let k := fresh "k" in
  let kt := fresh "kt" in
  let ks := fresh "ks" in
  destruct m as [| ? ? | k | ? | ? | ? | ? |];
  [ | | destruct k as [kt ks]; destruct kt | | | | | ];
  unfold_model H; simpl in H; open_branches H; try discriminate H;
  injection H as <- <-; simpl in *.

(** The cases of a closure that runs in one piece, from [F : fires _ _ _]. *)
Ltac fires_cases F :=
  inversion F; subst;
  try match goal with
    | H : _ = Done _ |- _ =>
        unfold startReplFn, cliExecFn, awaitChatStreamFn, editSettingsDone in H;
        unfold_model H; simpl in H; open_branches H; try discriminate H;
        injection H as <- <-
    end;
  unfold startConfigFn, finishConfigReplFn, execCommandDone in *; simpl in *.

Ltac enter_cases H :=
  unfold startExecEnter, startChatStreamEnter in H; unfold_model H; simpl in H;
  open_branches H; try discriminate H; injection H as <-; simpl in *.

Section Kept.

Context {ext : Collaborators}.

Lemma keptBy_step (P : Ui -> Prop) (w w' : World) :
  keptBy P -> step w w' -> P (ui w) -> P (ui w').
Proof.
  intros (KU & KF & KE & KR & KC & KD) S I.
  destruct S; simpl; try exact I; eauto.
Qed.

Lemma keptBy_steps (P : Ui -> Prop) (w w' : World) :
  keptBy P -> steps w w' -> P (ui w) -> P (ui w').
Proof.
  intros K S I. induction S as [| w w' w'' S IH T]; [exact I |].
  apply keptBy_step with (w := w'); auto.
Qed.

Lemma keptBy_reachable (P : Ui -> Prop) (w : World) :
  keptBy P ->
  (forall input load u c, Init (NewUi input) load = Done (u, c) -> P u) ->
  reachable w -> P (ui w).
Proof.
  intros K B R. induction R as [input load w E | w w' R IH S].
  - unfold boot, bind in E.
    destruct (Init (NewUi input) load) as [[u c] |] eqn:EI; [| discriminate E].
    injection E as <-. simpl. now apply B with (input := input) (load := load) (c := c).
  - now apply keptBy_step with (w := w).
Qed.

Lemma steps_reachable (w w' : World) :
  reachable w -> steps w w' -> reachable w'.
Proof.
  intros R S. induction S as [| w w' w'' S IH T]; [exact R |].
  apply reachable_step with (w := w'); auto.
Qed.

Lemma run_steps (es : list Event) (w w' : World) :
  run es w = Some w' -> steps w w'.
Proof.
  revert w'. induction es as [| e es IH] using rev_ind; intros w' H.
  - simpl in H. injection H as <-. constructor.
  - assert (G : forall l1 l2 w0, run (l1 ++ l2)%list w0
                  = match run l1 w0 with Some w1 => run l2 w1 | None => None end).
    { clear. induction l1 as [| a l1 IHl]; intros l2 w0; simpl; [reflexivity |].
      destruct (sched a w0); [apply IHl | reflexivity]. }
    rewrite G in H. destruct (run es w) as [w1 |] eqn:E; [| discriminate H].
    simpl in H. destruct (sched e w1) as [w2 |] eqn:E2; [| discriminate H].
    injection H as <-. apply steps_more with (w' := w1); [now apply IH |].
    now apply sched_step with (e := e).
Qed.

Lemma invocation_kept (i : RunMode * string * string) :
  keptBy (fun u => invocation u = i).
Proof.
  unfold keptBy, invocation. repeat split.
  - intros u m u' c I H. update_cases H m; exact I.
  - intros c u u' om I F. revert I. fires_cases F; intros I; exact I.
  - intros input u u' I H. enter_cases H. exact I.
  - intros r u I. destruct r; exact I.
  - intros input u u' I H. enter_cases H. exact I.
  - intros r u I. destruct r; exact I.
Qed.

Lemma failed_kept : keptBy failed.
Proof.
  unfold keptBy, failed. repeat split.
  - intros u m u' c I H. update_cases H m; try exact I; discriminate.
  - intros c u u' om I F. fires_cases F; exact I.
  - intros input u u' I H. enter_cases H. exact I.
  - intros r u I. destruct r; exact I.
  - intros input u u' I H. enter_cases H. exact I.
  - intros r u I. destruct r; exact I.
Qed.

Lemma wrapsAtWidth_kept : keptBy wrapsAtWidth.
Proof.
  unfold keptBy, wrapsAtWidth. repeat split.
  - intros u m u' c I H. update_cases H m; try exact I; reflexivity.
  - intros c u u' om I F. fires_cases F; exact I.
  - intros input u u' I H. enter_cases H. exact I.
  - intros r u I. destruct r; exact I.
  - intros input u u' I H. enter_cases H. exact I.
  - intros r u I. destruct r; exact I.
Qed.

Lemma engineHasConfig_kept : keptBy engineHasConfig.
Proof.
  unfold keptBy, engineHasConfig. repeat split.
  - intros u m u' c I H. update_cases H m; intros E; try congruence;
      apply I; congruence.
  - intros c u u' om I F. fires_cases F; intros E; try congruence;
      apply I; congruence.
  - intros input u u' I H. enter_cases H. intros _. apply I. congruence.
  - intros r u I. destruct r; exact I.
  - intros input u u' I H. enter_cases H. intros _. apply I. congruence.
  - intros r u I. destruct r; exact I.
Qed.

Ltac piped_done I :=
  let e0 := fresh "e" in
  let E := fresh "E" in
  let N := fresh "N" in
  intros e0 E N;
  first [ congruence
        | apply I; congruence
        | injection E as <-; simpl;
          first [ reflexivity | congruence | apply I; congruence ] ].

Lemma enginePiped_kept : keptBy enginePiped.
Proof.
  unfold keptBy, enginePiped. repeat split.
  - intros u m u' c I H. update_cases H m; piped_done I.
  - intros c u u' om I F. fires_cases F; piped_done I.
  - intros input u u' I H. enter_cases H. piped_done I.
  - intros r u I. destruct r; exact I.
  - intros input u u' I H. enter_cases H. piped_done I.
  - intros r u I. destruct r; exact I.
Qed.

Lemma Init_invocation (input : UiInput) (load : ConfigLoad) (u : Ui) (c : Cmd) :
  Init (NewUi input) load = Done (u, c) ->
  invocation u = (inRunMode input, inArgs input, inPipe input).
Proof.
  intros H. unfold Init, startCli, startRepl, startConfig in H.
  unfold_model H. simpl in H. open_branches H.
  all: injection H as <- <-; reflexivity.
Qed.

(** X1. The run mode, the arguments and the piped input that the
    process was invoked with stay in the session as they are, through
    [Init], [Update] and every closure. *)
Theorem invocation_never_changes
    (input : UiInput) (load : ConfigLoad) (w0 w : World) :
  boot input load = Done w0 ->
  steps w0 w ->
  runMode (state (ui w)) = inRunMode input
  /\ args (state (ui w)) = inArgs input
  /\ pipe (state (ui w)) = inPipe input.
Proof.
  intros B S.
  assert (I : invocation (ui w) = (inRunMode input, inArgs input, inPipe input)).
  { apply (keptBy_steps _ w0 w (invocation_kept _) S).
    unfold boot, bind in B.
    destruct (Init (NewUi input) load) as [[u c] |] eqn:E; [| discriminate B].
    injection B as <-. simpl. now apply Init_invocation with (load := load) (c := c). }
  unfold invocation in I. injection I as -> -> ->. repeat split.
Qed.

(** X2. An error that the session holds is never cleared: after any
    number of moves of the runtime the session still holds an error,
    and [View] shows an error and nothing else. *)
Theorem error_is_never_cleared (w w' : World) :
  failed (ui w) ->
  steps w w' ->
  exists e, error (state (ui w')) = Some e
            /\ View (ui w') = RenderError (rd (ui w')) ("[error] " ++ e).
Proof.
  intros F S. pose proof (keptBy_steps _ w w' failed_kept S F) as G.
  unfold failed in G. destruct (error (state (ui w'))) as [e |] eqn:E; [| congruence].
  exists e. split; [reflexivity |]. unfold View. now rewrite E.
Qed.

(** X3. In every reachable session the renderer wraps at the width of
    the window: 150 columns at first, then the width of the last
    window-size message. *)
Theorem renderer_wraps_at_window_width (w : World) :
  reachable w ->
  wordWrap (renderer (components (ui w))) = width (dimensions (ui w)).
Proof.
  intros R. apply (keptBy_reachable wrapsAtWidth w wrapsAtWidth_kept); [| exact R].
  intros input load u c H. unfold wrapsAtWidth.
  unfold Init, startCli, startRepl, startConfig in H.
  unfold_model H. simpl in H. open_branches H.
  all: injection H as <- <-; reflexivity.
Qed.

(** X4. In every reachable session that has an engine, there is a
    configuration, so that Ctrl-S finds the editor to start. *)
Theorem engine_comes_with_config (w : World) (e : Engine) :
  reachable w ->
  engine (ui w) = Some e ->
  exists cfg, config (ui w) = Some cfg.
Proof.
  intros R E.
  assert (I : engineHasConfig (ui w)).
  { apply (keptBy_reachable engineHasConfig w engineHasConfig_kept); [| exact R].
    intros input load u c H. unfold engineHasConfig.
    unfold Init, startCli, startRepl, startConfig in H.
    unfold_model H. simpl in H. open_branches H.
    all: injection H as <- <-; simpl; congruence. }
  unfold engineHasConfig in I. destruct (config (ui w)) as [cfg |]; [eauto |].
  exfalso. apply I; congruence.
Qed.

(** X5. In every reachable session whose piped input is not empty,
    the engine of the session, if there is one, has been given the
    piped input: every construction is followed by [SetPipe], and the
    changes of mode and the resets keep it. *)
Theorem engine_holds_piped_input (w : World) (e : Engine) :
  reachable w ->
  engine (ui w) = Some e ->
  pipe (state (ui w)) <> "" ->
  ePipe e = pipe (state (ui w)).
Proof.
  intros R E N.
  assert (I : enginePiped (ui w)).
  { apply (keptBy_reachable enginePiped w enginePiped_kept); [| exact R].
    intros input load u c H. unfold enginePiped.
    unfold Init, startCli, startRepl, startConfig in H.
    unfold_model H. simpl in H. open_branches H.
    all: injection H as <- <-; simpl; piped_done I. }
  apply I; [exact E | now apply isEmpty_false].
Qed.

End Kept.

(** ** What [Update] starts, and when *)

Section Starts.

Context {ext : Collaborators}.

Lemma yes_text (s : string) :
  String.eqb (ToLower s) "y" = true -> s = "y" \/ s = "Y".
Proof. intros H. apply String.eqb_eq in H. now apply ToLower_y. Qed.

(** X6. [Update] returns a subprocess in two cases only: a key of the
    default branch with the text [y] or [Y] on a confirming session,
    and then the subprocess runs the stored command; Ctrl-S on a
    session that is neither querying, confirming, executing nor
    configuring, and then it runs the editor on the configuration
    file. No other message or key starts one. *)
Theorem subprocess_only_on_yes_or_settings (u u' : Ui) (m : Msg) (c : Cmd) :
  Update u m = Done (u', c) ->
  hasExecProcess c = true ->
  exists k,
    m = KeyMsg k
    /\ ((unnamedKey k
         /\ confirming (state u) = true
         /\ (keyString k = "y" \/ keyString k = "Y")
         /\ c = Sequence [CmdNil; ExecProcess (command (state u)) ExecCommandDone])
        \/ (keyType k = KeyCtrlS
            /\ busy u = false
            /\ configuring (state u) = false
            /\ exists cfg,
                 config u = Some cfg
                 /\ c = Batch [PromptCmd;
                               ExecProcess (editor cfg ++ " " ++ configFile cfg)
                                           EditSettingsDone])).
Proof.
  intros H X. unfold unnamedKey, busy.
  update_cases H m; try discriminate X.
  - eexists. split; [reflexivity |]. right. simpl.
    destruct (querying (state u)), (confirming (state u)),
      (configuring (state u)), (executing (state u)); try discriminate.
    repeat split. eexists. split; reflexivity.
  - eexists. split; [reflexivity |]. left. simpl.
    repeat split; auto using yes_text.
  - eexists. split; [reflexivity |]. left. simpl.
    repeat split; auto using yes_text.
Qed.

(** X7. [Update] returns a request for a completion for Enter only:
    in CLI mode at the end of the configuration, or on a session that
    is neither querying nor confirming and whose prompt is not empty,
    and then the request carries the text of the prompt, as a chat
    stream with its first await in chat mode and as a one-shot
    completion with the spinner otherwise. *)
Theorem completion_requested_only_by_enter (u u' : Ui) (m : Msg) (c : Cmd) :
  Update u m = Done (u', c) ->
  hasRequest c = true ->
  exists k,
    m = KeyMsg k
    /\ keyType k = KeyEnter
    /\ ((configuring (state u) = true /\ runMode (state u) = CliMode)
        \/ (configuring (state u) = false
            /\ querying (state u) = false
            /\ confirming (state u) = false
            /\ GetValue (prompt (components u)) <> ""
            /\ c = Batch (submission (promptMode (state u)) (prompt (components u))
                            (promptAsString (prompt (components u)))))).
Proof.
  intros H X. unfold submission.
  update_cases H m; try discriminate X.
  all: eexists; split; [reflexivity |]; split; [reflexivity |].
  all: try (left; split;
              [reflexivity
              | destruct (runMode (state u)); [discriminate | reflexivity]]).
  all: right; destruct (querying (state u)), (confirming (state u));
    try discriminate; repeat split;
    try (apply isEmpty_false; now apply negb_true_iff).
Qed.

(** X8. Outside the configuration, Enter on an empty prompt, and Enter
    while the session is querying or confirming, changes nothing and
    returns the empty batch: nothing is added to the history and
    nothing is asked. *)
Theorem enter_without_input_does_nothing (u : Ui) (k : Key) :
  keyType k = KeyEnter ->
  configuring (state u) = false ->
  querying (state u) = true \/ confirming (state u) = true
    \/ GetValue (prompt (components u)) = "" ->
  Update u (KeyMsg k) = Done (u, Batch []).
Proof.
  intros K F B. destruct k as [kt ks]. simpl in K. subst kt.
  unfold Update, updateKey, free. simpl. rewrite F.
  destruct B as [Q | [C | V]].
  - rewrite Q. reflexivity.
  - rewrite C, andb_false_r. reflexivity.
  - rewrite V. simpl. now destruct (negb (querying (state u)) && negb (confirming (state u))).
Qed.

(** X9. What is shown is what is run: for an executable exec result,
    [Update] stores the command of the result and prints it between
    backquotes, followed by the explanation and the question; the
    answer [y] then starts the subprocess on that same command. *)
Theorem confirmed_command_is_the_shown_command
    (u : Ui) (o : EngineExecOutput) (k : Key) :
  IsExecutable o = true ->
  unnamedKey k ->
  ToLower (keyString k) = "y" ->
  exists u1 u2,
    Update u (EngineExecOutputMsg o)
    = Done (u1, Sequence [PromptCmd; Blink;
                          Println (RenderContent (rd u) ("`" ++ GetCommand o ++ "`")
                                   ++ "  " ++ RenderHelp (rd u) (GetExplanation o)
                                   ++ nl ++ nl ++ "  confirm execution? [y/N]")])
    /\ confirming (state u1) = true
    /\ command (state u1) = GetCommand o
    /\ Update u1 (KeyMsg k)
       = Done (u2, Sequence [CmdNil; ExecProcess (GetCommand o) ExecCommandDone]).
Proof.
  intros X K Y. destruct k as [kt ks]. unfold unnamedKey in K. simpl in *.
  assert (E : String.eqb (ToLower ks) "y" = true) by (rewrite Y; reflexivity).
  do 2 eexists. split.
  { unfold Update. rewrite X. simpl. reflexivity. }
  simpl. repeat split.
  unfold Update, updateKey. simpl.
  destruct K as [K | K]; subst kt; simpl; rewrite E; reflexivity.
Qed.

(** X10. A whole confirmed cycle in REPL mode: from an executable exec
    result, through the answer [y], the end of the subprocess and the
    message of its callback, the session ends neither querying, nor
    confirming, nor executing, with no stored command and a prompt
    that has the focus, and [Update] has not asked to quit; the
    message says whether the subprocess failed. *)
Theorem confirmed_cycle_returns_to_idle
    (u : Ui) (o : EngineExecOutput) (k : Key) (exit : option Error) :
  runMode (state u) = ReplMode ->
  IsExecutable o = true ->
  unnamedKey k ->
  ToLower (keyString k) = "y" ->
  exists u1 c1 u2 c2 r u4 c4,
    Update u (EngineExecOutputMsg o) = Done (u1, c1)
    /\ Update u1 (KeyMsg k) = Done (u2, c2)
    /\ snd (execCommandDone exit u2) = Some (RunOutputMsg r)
    /\ (HasError r = true <-> exit <> None)
    /\ Update (fst (execCommandDone exit u2)) (RunOutputMsg r) = Done (u4, c4)
    /\ busy u4 = false
    /\ command (state u4) = ""
    /\ focused (prompt (components u4)) = true
    /\ hasQuit c1 = false /\ hasQuit c2 = false /\ hasQuit c4 = false.
Proof.
  intros R X K Y. destruct k as [kt ks]. unfold unnamedKey in K. simpl in *.
  assert (E : String.eqb (ToLower ks) "y" = true) by (rewrite Y; reflexivity).
  assert (U1 : exists c1,
             Update u (EngineExecOutputMsg o)
             = Done (updatePrompt (EngineExecOutputMsg o)
                       (pr Blur (st (set_command (GetCommand o))
                                     (st (set_confirming true) u))), c1)
             /\ hasQuit c1 = false).
  { unfold Update. rewrite X. eexists. split; reflexivity. }
  destruct U1 as (c1 & U1 & Q1).
  destruct K as [K | K]; subst kt.
  all: do 7 eexists.
  all: split; [exact U1 |].
  all: split; [unfold Update, updateKey; simpl; rewrite E; reflexivity |].
  all: split; [reflexivity |].
  all: split; [unfold HasError; simpl; destruct exit; split; congruence |].
  all: unfold Update; simpl; rewrite R; simpl.
  all: split; [reflexivity |]; unfold busy; simpl; repeat split; exact Q1.
Qed.

(** X11. Tab and Ctrl-R go through the engine of the session: on a
    session that has none, as during the configuration of a first
    start, and that is neither querying nor confirming, they panic. *)
Theorem tab_and_reset_need_an_engine (u : Ui) (k : Key) :
  engine u = None ->
  querying (state u) = false ->
  confirming (state u) = false ->
  keyType k = KeyTab \/ keyType k = KeyCtrlR ->
  Update u (KeyMsg k) = Panic.
Proof.
  intros E Q C K. destruct k as [kt ks]. simpl in K.
  unfold Update, updateKey, free, onEngine. simpl.
  destruct K as [K | K]; subst kt; simpl; rewrite Q, C; simpl.
  - destruct (PromptMode_eqb (promptMode (state u)) ChatPromptMode); simpl;
      rewrite E; reflexivity.
  - rewrite E. reflexivity.
Qed.

Lemma reachable_engineHasConfig (w : World) :
  reachable w -> engineHasConfig (ui w).
Proof.
  intros R. apply (keptBy_reachable engineHasConfig w engineHasConfig_kept); [| exact R].
  intros input load u c H. unfold engineHasConfig.
  unfold Init, startCli, startRepl, startConfig in H.
  unfold_model H. simpl in H. open_branches H.
  all: injection H as <- <-; simpl; congruence.
Qed.

(** X12. On a reachable session that has an engine and is not
    configuring, [Update] returns for every message: no key and no
    message makes it panic. *)
Theorem update_returns_with_an_engine (w : World) (e : Engine) (m : Msg) :
  reachable w ->
  engine (ui w) = Some e ->
  configuring (state (ui w)) = false ->
  exists u' c, Update (ui w) m = Done (u', c).
Proof.
  intros R E F.
  pose proof (reachable_engineHasConfig w R) as G. unfold engineHasConfig in G.
  destruct (config (ui w)) as [cfg |] eqn:EC; [| exfalso; apply G; congruence].
  clear G R. generalize dependent (ui w). intros u E F EC.
  destruct (Update u m) as [[u' c] |] eqn:H; [eauto |]. exfalso.
  destruct m as [| ? ? | k | ? | ? | ? | ? |];
    [ | | destruct k as [kt ks]; destruct kt | | | | | ];
    unfold_model H; simpl in H; open_branches H; congruence.
Qed.

End Starts.

(** ** Settings, start and reset *)

Section Settings.

Context {ext : Collaborators}.

(** X13. When the editor fails, or when the configuration cannot be
    read after it, the callback of [editSettings] returns a message
    that carries the error, clears [executing] and leaves the
    configuration and the engine of the session as they were. *)
Theorem settings_failure_keeps_config_and_engine
    (u : Ui) (exit : option Error) (load : ConfigLoad) (e : Error) :
  exit = Some e
  \/ (exit = None /\ (load = ConfigFileNotFound e \/ load = ConfigFailed e)) ->
  exists u' r,
    editSettingsDone exit load u = Done (u', Some (RunOutputMsg r))
    /\ runError r = Some e
    /\ HasError r = true
    /\ config u' = config u
    /\ engine u' = engine u
    /\ executing (state u') = false.
Proof.
  intros [-> | [-> [-> | ->]]]; unfold editSettingsDone; simpl;
    do 2 eexists; repeat split.
Qed.

(** X14. When the configuration is read again but no engine can be
    built from it, and the piped input is empty, the callback of
    [editSettings] returns a message that carries the error; the
    session then holds the new configuration and its old engine. *)
Theorem settings_engine_failure_keeps_old_engine
    (u : Ui) (cfg : Config) (eng : option Engine) (e : Error) :
  isEmpty (pipe (state u)) = true ->
  NewEngine ExecEngineMode cfg = (eng, Some e) ->
  exists u' r,
    editSettingsDone None (ConfigLoaded cfg) u = Done (u', Some (RunOutputMsg r))
    /\ runError r = Some e
    /\ config u' = Some cfg
    /\ engine u' = engine u.
Proof.
  intros P B. unfold editSettingsDone, pipeInto. rewrite B. simpl. rewrite P. simpl.
  do 2 eexists. repeat split.
Qed.

(** X15. The round trip of the settings in REPL mode: Ctrl-S on a
    session that is neither busy nor configuring starts the editor on
    the configuration file and sets [executing]; when the editor has
    ended, the configuration has been read and an engine built, the
    message of the callback leaves the session not busy, with the new
    configuration, the new engine with the piped input, and a prompt
    that has the focus. *)
Theorem settings_round_trip
    (u : Ui) (k : Key) (cfg0 cfg : Config) (e0 : Engine) :
  keyType k = KeyCtrlS ->
  busy u = false ->
  configuring (state u) = false ->
  runMode (state u) = ReplMode ->
  config u = Some cfg0 ->
  NewEngine ExecEngineMode cfg = (Some e0, None) ->
  exists u1 u2 r u3 c3,
    Update u (KeyMsg k)
    = Done (u1, Batch [PromptCmd;
                       ExecProcess (editor cfg0 ++ " " ++ configFile cfg0)
                                   EditSettingsDone])
    /\ executing (state u1) = true
    /\ editSettingsDone None (ConfigLoaded cfg) u1 = Done (u2, Some (RunOutputMsg r))
    /\ HasError r = false
    /\ Update u2 (RunOutputMsg r) = Done (u3, c3)
    /\ busy u3 = false
    /\ config u3 = Some cfg
    /\ engine u3
       = Some (if isEmpty (pipe (state u)) then e0 else SetPipe (pipe (state u)) e0)
    /\ focused (prompt (components u3)) = true
    /\ hasQuit c3 = false.
Proof.
  intros K B F R C N. destruct k as [kt ks]. simpl in K. subst kt.
  unfold busy in B. apply orb_false_iff in B. destruct B as [B X].
  apply orb_false_iff in B. destruct B as [Q Cf].
  destruct (isEmpty (pipe (state u))) eqn:P.
  all: do 5 eexists.
  all: split;
    [unfold Update, updateKey, free, editSettings, bind, deref; simpl;
     rewrite Q, Cf, F, X, C; simpl; reflexivity |].
  all: split; [reflexivity |].
  all: split;
    [unfold editSettingsDone, pipeInto, bind, deref; rewrite N; simpl;
     rewrite P; simpl; reflexivity |].
  all: split; [reflexivity |].
  all: split; [unfold Update; simpl; rewrite R; simpl; reflexivity |].
  all: unfold busy; simpl; repeat split.
Qed.

(** X16. The start of a CLI invocation whose configuration is read and
    whose engine is built: the prompt mode is the one asked for or the
    default of the configuration; the engine is asked for in Chat mode
    when that mode is Chat and in Exec mode otherwise; the one query,
    on the arguments, is a one-shot completion when that mode is Exec
    and a chat stream otherwise; the session is querying. So for a
    mode that is neither Exec nor Chat an engine asked for in Exec mode
    gets a chat stream. *)
Theorem cli_start_issues_one_query (input : UiInput) (cfg : Config) (e0 : Engine) :
  inRunMode input = CliMode ->
  NewEngine (if PromptMode_eqb (resolved input cfg) ChatPromptMode
             then ChatEngineMode else ExecEngineMode) cfg = (Some e0, None) ->
  exists u,
    Init (NewUi input) (ConfigLoaded cfg)
    = Done (u, if PromptMode_eqb (resolved input cfg) ExecPromptMode
               then Batch [SpinnerTick; CliExecFn]
               else Batch [StartChatStreamFn (inArgs input); AwaitChatStreamFn])
    /\ promptMode (state u) = resolved input cfg
    /\ querying (state u) = true
    /\ config u = Some cfg
    /\ engine u
       = Some (if isEmpty (inPipe input) then e0 else SetPipe (inPipe input) e0).
Proof.
  intros R N. unfold Init, startCli, resolvePromptMode, engineModeFor, pipeInto.
  unfold resolved in *. simpl. rewrite R. simpl.
  destruct (PromptMode_eqb (inPromptMode input) DefaultPromptMode); simpl;
    rewrite N; simpl;
    destruct (isEmpty (inPipe input)); simpl;
    match goal with
    | |- context [PromptMode_eqb ?m ExecPromptMode] =>
        destruct (PromptMode_eqb m ExecPromptMode)
    end; eexists; repeat split.
Qed.

(** X17. The start of a CLI invocation whose engine cannot be built:
    [Init] stores the error and returns no command; the session is not
    querying, nothing quits the process, and [View] shows the error. *)
Theorem cli_start_failure_is_shown (input : UiInput) (cfg : Config)
    (eng : option Engine) (e : Error) :
  inRunMode input = CliMode ->
  NewEngine (if PromptMode_eqb (resolved input cfg) ChatPromptMode
             then ChatEngineMode else ExecEngineMode) cfg = (eng, Some e) ->
  exists u,
    Init (NewUi input) (ConfigLoaded cfg) = Done (u, CmdNil)
    /\ error (state u) = Some e
    /\ querying (state u) = false
    /\ engine u = None
    /\ View u = RenderError (rd u) ("[error] " ++ e).
Proof.
  intros R N. unfold Init, startCli, resolvePromptMode, engineModeFor, pipeInto.
  unfold resolved in *. simpl. rewrite R. simpl.
  destruct (PromptMode_eqb (inPromptMode input) DefaultPromptMode); simpl;
    rewrite N; simpl; eexists; repeat split.
Qed.

(** X18. Ctrl-R on a session that has an engine: while the session is
    querying or confirming it changes nothing; otherwise it empties the
    memory of the engine and keeps its mode and its piped input, and
    leaves the state of the session (phase, mode, buffer, command,
    error) as it is. *)
Theorem reset_empties_engine_memory (u : Ui) (k : Key) (e : Engine) :
  keyType k = KeyCtrlR ->
  engine u = Some e ->
  (querying (state u) = true \/ confirming (state u) = true ->
     Update u (KeyMsg k) = Done (u, Batch []))
  /\ (querying (state u) = false -> confirming (state u) = false ->
      exists u',
        Update u (KeyMsg k) = Done (u', Batch [PromptCmd; ClearScreen; Blink])
        /\ engine u' = Some {| eMode := eMode e; ePipe := ePipe e; eMemory := [] |}
        /\ state u' = state u
        /\ config u' = config u).
Proof.
  intros K E. destruct k as [kt ks]. simpl in K. subst kt.
  unfold Update, updateKey, free, onEngine, bind, deref. simpl. split.
  - intros [Q | C]; [rewrite Q | rewrite C, andb_false_r]; reflexivity.
  - intros Q C. rewrite Q, C, E. simpl. eexists. repeat split.
Qed.

(** X19. The end of the configuration of a first start in REPL mode:
    Enter writes the text of the prompt as the configuration; when that
    succeeds and an engine is built, [Update] clears [configuring],
    installs the configuration and the engine, and returns the
    sequence whose closure leaves an empty buffer, no command and a
    fresh prompt in Exec mode; the prompt mode of the session stays
    what it was. When the writing fails, [Update] stores the error,
    clears [configuring], returns no command and builds no engine. *)
Theorem first_configuration_ends_in_exec_prompt (u : Ui) (k : Key) :
  keyType k = KeyEnter ->
  configuring (state u) = true ->
  runMode (state u) = ReplMode ->
  (forall cfg e0,
     WriteConfig (GetValue (prompt (components u))) = inr cfg ->
     NewEngine ExecEngineMode cfg = (Some e0, None) ->
     exists u1,
       Update u (KeyMsg k)
       = Done (u1, Sequence [ClearScreen;
                             Println (RenderSuccess (rd u) (nl ++ "[settings ok]" ++ nl));
                             Blink;
                             FinishConfigReplFn])
       /\ configuring (state u1) = false
       /\ config u1 = Some cfg
       /\ engine u1
          = Some (if isEmpty (pipe (state u)) then e0 else SetPipe (pipe (state u)) e0)
       /\ prompt (components (fst (finishConfigReplFn u1))) = NewPrompt ExecPromptMode
       /\ buffer (state (fst (finishConfigReplFn u1))) = ""
       /\ command (state (fst (finishConfigReplFn u1))) = ""
       /\ promptMode (state (fst (finishConfigReplFn u1))) = promptMode (state u))
  /\ (forall e,
        WriteConfig (GetValue (prompt (components u))) = inl e ->
        exists u1,
          Update u (KeyMsg k) = Done (u1, CmdNil)
          /\ error (state u1) = Some e
          /\ configuring (state u1) = false
          /\ engine u1 = engine u
          /\ config u1 = config u).
Proof.
  intros K F R. destruct k as [kt ks]. simpl in K. subst kt.
  unfold Update, updateKey, finishConfig, pipeInto, bind, deref. simpl. rewrite F.
  split.
  - intros cfg e0 W N. rewrite W, N. simpl.
    destruct (isEmpty (pipe (state u))); simpl; rewrite R; simpl;
      eexists; repeat split.
  - intros e W. rewrite W. eexists. repeat split.
Qed.

(** X20. On a first start, with no configuration file, [Init] returns
    the closure of [startConfig], after a clearing of the screen in
    REPL mode, and leaves the session as [NewUi] made it; once the
    closure has run, the session is configuring and nothing else, has
    no engine, and [View] shows the configuration message above a
    fresh prompt in Config mode. *)
Theorem first_start_asks_for_configuration (input : UiInput) (e : Error) :
  exists c,
    Init (NewUi input) (ConfigFileNotFound e) = Done (NewUi input, c)
    /\ c = (if RunMode_eqb (inRunMode input) ReplMode
            then Sequence [ClearScreen; StartConfigFn] else StartConfigFn)
    /\ configuring (state (fst (startConfigFn (NewUi input)))) = true
    /\ busy (fst (startConfigFn (NewUi input))) = false
    /\ engine (fst (startConfigFn (NewUi input))) = None
    /\ prompt (components (fst (startConfigFn (NewUi input)))) = NewPrompt ConfigPromptMode
    /\ View (fst (startConfigFn (NewUi input)))
       = RenderContent (NewRenderer 150) (RenderConfigMessage (NewRenderer 150))
         ++ nl ++ promptView (NewPrompt ConfigPromptMode).
Proof.
  unfold Init, startConfig. simpl.
  destruct (RunMode_eqb (inRunMode input) ReplMode); eexists; repeat split.
Qed.

(** X21. While a chat stream arrives, [View] shows what has arrived:
    on a session in chat mode that holds no error and is not
    configuring, once the runtime has received one or more chunks, none
    of them the last, and given each to [Update], [View] is the
    rendering of the buffer followed by their fragments in their
    order. *)
Theorem view_shows_the_stream_so_far
    (u : Ui) (e : Engine) (q : bool)
    (o : EngineChatStreamOutput) (pre : list EngineChatStreamOutput) :
  engine u = Some e ->
  Forall (fun o => IsLast o = false) (o :: pre) ->
  error (state u) = None ->
  configuring (state u) = false ->
  promptMode (state u) = ChatPromptMode ->
  exists w,
    run (flat_map deliver (o :: pre)) (awaiting u q) = Some w
    /\ View (ui w)
       = RenderContent (rd u) (buffer (state u) ++ fragments (o :: pre)).
Proof.
  intros G L E F M. exists (awaiting (streamed (o :: pre) u) q). split.
  - now apply stream_on_schedule with (e := e).
  - unfold View, streamed. simpl. rewrite E, F, M. reflexivity.
Qed.

(** X22. The start of a REPL session whose configuration is read:
    [Init] changes nothing and returns the sequence that clears the
    screen, prints the help and runs the closure of [startRepl]. When
    the engine is built, the closure leaves an idle session in the
    prompt mode asked for, or the default of the configuration, with a
    fresh prompt in that mode, which is what [View] shows, and the
    engine with the piped input. When it is not, the closure returns
    the error, the session has no engine, and once [Update] has the
    error [View] shows it. *)
Theorem repl_start_builds_the_engine (input : UiInput) (cfg : Config) :
  inRunMode input = ReplMode ->
  Init (NewUi input) (ConfigLoaded cfg)
  = Done (NewUi input,
          Sequence [ClearScreen;
                    Println (RenderContent (NewRenderer 150)
                               (RenderHelpMessage (NewRenderer 150)));
                    Blink;
                    StartReplFn cfg])
  /\ (forall e0,
        NewEngine (if PromptMode_eqb (resolved input cfg) ChatPromptMode
                   then ChatEngineMode else ExecEngineMode) cfg = (Some e0, None) ->
        exists u,
          startReplFn cfg (NewUi input) = Done (u, None)
          /\ promptMode (state u) = resolved input cfg
          /\ prompt (components u) = NewPrompt (resolved input cfg)
          /\ isIdle u = true
          /\ config u = Some cfg
          /\ engine u
             = Some (if isEmpty (inPipe input) then e0 else SetPipe (inPipe input) e0)
          /\ View u = promptView (NewPrompt (resolved input cfg)))
  /\ (forall eng e,
        NewEngine (if PromptMode_eqb (resolved input cfg) ChatPromptMode
                   then ChatEngineMode else ExecEngineMode) cfg = (eng, Some e) ->
        exists u u',
          startReplFn cfg (NewUi input) = Done (u, Some (ErrorMsg e))
          /\ engine u = None
          /\ Update u (ErrorMsg e) = Done (u', CmdNil)
          /\ View u' = RenderError (rd u') ("[error] " ++ e)).
Proof.
  intros R. split; [| split].
  - unfold Init, startRepl. simpl. rewrite R. reflexivity.
  - intros e0 N. unfold startReplFn, resolvePromptMode, engineModeFor, pipeInto.
    unfold resolved in *. simpl.
    destruct (PromptMode_eqb (inPromptMode input) DefaultPromptMode); simpl;
      rewrite N; simpl;
      destruct (isEmpty (inPipe input)); simpl; eexists; repeat split.
  - intros eng e N. unfold startReplFn, resolvePromptMode, engineModeFor, pipeInto.
    unfold resolved in *. simpl.
    destruct (PromptMode_eqb (inPromptMode input) DefaultPromptMode); simpl;
      rewrite N; simpl; do 2 eexists; repeat split.
Qed.

End Settings.

(** ** The statements above on the sessions of this file *)

Lemma play_steps {ext : Collaborators}
    (input : UiInput) (load : ConfigLoad) (es : list Event) (w : World) :
  play input load es = Some w ->
  exists w0, boot input load = Done w0 /\ steps w0 w.
Proof.
  unfold play. destruct (boot input load) as [w0 |]; [| discriminate].
  intros H. exists w0. split; [reflexivity | now apply run_steps with (es := es)].
Qed.

Lemma worldCliFailed_played :
  play (ext := plain) cliExec (ConfigLoaded writtenConfig) (toCliFailure ++ [Handle])%list
  = Some worldCliFailed.
Proof. vm_compute. reflexivity. Qed.

Lemma worldCliFailedLater_run :
  run (ext := plain) afterFailure worldCliFailed = Some worldCliFailedLater.
Proof. vm_compute. reflexivity. Qed.

Lemma worldResized_played :
  play (ext := plain) replExec (ConfigLoaded writtenConfig) toResized = Some worldResized.
Proof. vm_compute. reflexivity. Qed.

Lemma worldPiped_played :
  play (ext := plain) cliPiped (ConfigLoaded writtenConfig) [] = Some worldPiped.
Proof. vm_compute. reflexivity. Qed.

Lemma worldTyped_played :
  play (ext := plain) replExec (ConfigLoaded writtenConfig) toTyped = Some worldTyped.
Proof. vm_compute. reflexivity. Qed.

Lemma invocation_never_changes_witness :
  runMode (state (ui worldExecuting)) = ReplMode
  /\ args (state (ui worldExecuting)) = ""
  /\ pipe (state (ui worldExecuting)) = "".
Proof.
  destruct (play_steps (ext := plain) _ _ _ _ worldExecuting_played) as (w0 & B & S).
  exact (invocation_never_changes (ext := plain) replExec _ w0 worldExecuting B S).
Defined.

Lemma error_is_never_cleared_witness :
  exists e, error (state (ui worldCliFailedLater)) = Some e
            /\ View (ext := plain) (ui worldCliFailedLater)
               = RenderError (Collaborators := plain)
                   (rd (ui worldCliFailedLater)) ("[error] " ++ e).
Proof.
  apply (error_is_never_cleared (ext := plain) worldCliFailed worldCliFailedLater).
  - discriminate.
  - exact (run_steps _ _ _ worldCliFailedLater_run).
Defined.

Lemma renderer_wraps_at_window_width_witness :
  wordWrap (renderer (components (ui worldResized))) = 80%Z
  /\ width (dimensions (ui worldResized)) = 80%Z.
Proof.
  pose proof (renderer_wraps_at_window_width (ext := plain) worldResized
                (play_reachable _ _ _ _ worldResized_played)) as H.
  split; [rewrite H |]; reflexivity.
Defined.

Lemma engine_comes_with_config_witness :
  exists cfg, config (ui worldIdle) = Some cfg.
Proof.
  apply (engine_comes_with_config (ext := plain) worldIdle (freshEngine ExecEngineMode)).
  - exact (play_reachable _ _ _ _ worldIdle_played).
  - reflexivity.
Defined.

Lemma engine_holds_piped_input_witness :
  ePipe {| eMode := ChatEngineMode; ePipe := "notes"; eMemory := [] |}
  = pipe (state (ui worldPiped)).
Proof.
  apply (engine_holds_piped_input (ext := plain) worldPiped).
  - exact (play_reachable _ _ _ _ worldPiped_played).
  - reflexivity.
  - discriminate.
Defined.

Lemma subprocess_only_on_yes_or_settings_witness :
  exists k,
    KeyMsg (typed "y") = KeyMsg k
    /\ ((unnamedKey k
         /\ confirming (state (ui worldConfirming)) = true
         /\ (keyString k = "y" \/ keyString k = "Y")
         /\ Sequence [CmdNil; ExecProcess "ls -la" ExecCommandDone]
            = Sequence [CmdNil;
                        ExecProcess (command (state (ui worldConfirming)))
                                    ExecCommandDone])
        \/ (keyType k = KeyCtrlS
            /\ busy (ui worldConfirming) = false
            /\ configuring (state (ui worldConfirming)) = false
            /\ exists cfg,
                 config (ui worldConfirming) = Some cfg
                 /\ Sequence [CmdNil; ExecProcess "ls -la" ExecCommandDone]
                    = Batch [PromptCmd;
                             ExecProcess (editor cfg ++ " " ++ configFile cfg)
                                         EditSettingsDone])).
Proof.
  apply (subprocess_only_on_yes_or_settings (ext := plain)
           (ui worldConfirming) (ui worldExecuting) (KeyMsg (typed "y"))
           (Sequence [CmdNil; ExecProcess "ls -la" ExecCommandDone])).
  - reflexivity.
  - reflexivity.
Defined.

Lemma completion_requested_only_by_enter_witness :
  exists u',
    Update (ext := plain) (ui worldTyped) (KeyMsg enterKey)
    = Done (u', Batch [PromptCmd; Println "> ls"; StartExecFn "ls"; SpinnerTick])
    /\ exists k, KeyMsg enterKey = KeyMsg k /\ keyType k = KeyEnter.
Proof.
  eexists. split; [reflexivity |].
  destruct (completion_requested_only_by_enter (ext := plain)
              (ui worldTyped) _ (KeyMsg enterKey) _ eq_refl eq_refl)
    as (k & M & K & _).
  exists k. split; assumption.
Defined.

Lemma enter_without_input_does_nothing_witness :
  Update (ext := plain) (ui worldIdle) (KeyMsg enterKey)
  = Done (ui worldIdle, Batch []).
Proof.
  apply (enter_without_input_does_nothing (ext := plain) (ui worldIdle) enterKey).
  - reflexivity.
  - reflexivity.
  - right. right. reflexivity.
Defined.

Lemma confirmed_command_is_the_shown_command_witness :
  exists u1 u2,
    Update (ext := plain) (ui worldIdle) (EngineExecOutputMsg lsOutput)
    = Done (u1, Sequence [PromptCmd; Blink;
                          Println ("`ls -la`  lists files" ++ nl ++ nl
                                   ++ "  confirm execution? [y/N]")])
    /\ confirming (state u1) = true
    /\ command (state u1) = "ls -la"
    /\ Update (ext := plain) u1 (KeyMsg (typed "Y"))
       = Done (u2, Sequence [CmdNil; ExecProcess "ls -la" ExecCommandDone]).
Proof.
  apply (confirmed_command_is_the_shown_command (ext := plain)
           (ui worldIdle) lsOutput (typed "Y")).
  - reflexivity.
  - left. reflexivity.
  - reflexivity.
Defined.

Lemma confirmed_cycle_returns_to_idle_witness :
  exists u4 c4,
    busy u4 = false /\ command (state u4) = ""
    /\ focused (prompt (components u4)) = true /\ hasQuit c4 = false.
Proof.
  destruct (confirmed_cycle_returns_to_idle (ext := plain)
              (ui worldIdle) lsOutput (typed "y") None)
    as (u1 & c1 & u2 & c2 & r & u4 & c4 & _ & _ & _ & _ & _ & B & C & F & _ & _ & Q).
  - reflexivity.
  - reflexivity.
  - left. reflexivity.
  - reflexivity.
  - exists u4, c4. repeat split; assumption.
Defined.

Lemma tab_and_reset_need_an_engine_witness :
  reachable (ext := plain) worldBootstrap
  /\ configuring (state (ui worldBootstrap)) = true
  /\ Update (ext := plain) (ui worldBootstrap) (KeyMsg tabKey) = Panic
  /\ Update (ext := plain) (ui worldBootstrap) (KeyMsg ctrlR) = Panic.
Proof.
  split; [exact (play_reachable _ _ _ _ worldBootstrap_played) |].
  split; [reflexivity |]. split.
  - apply (tab_and_reset_need_an_engine (ext := plain) (ui worldBootstrap) tabKey);
      [reflexivity | reflexivity | reflexivity | left; reflexivity].
  - apply (tab_and_reset_need_an_engine (ext := plain) (ui worldBootstrap) ctrlR);
      [reflexivity | reflexivity | reflexivity | right; reflexivity].
Defined.

Lemma update_returns_with_an_engine_witness :
  exists u' c, Update (ext := plain) (ui worldExecuting) (KeyMsg ctrlS) = Done (u', c).
Proof.
  apply (update_returns_with_an_engine (ext := plain) worldExecuting
           (freshEngine ExecEngineMode) (KeyMsg ctrlS)).
  - exact (play_reachable _ _ _ _ worldExecuting_played).
  - reflexivity.
  - reflexivity.
Defined.

Lemma settings_failure_keeps_config_and_engine_witness :
  exists u' r,
    editSettingsDone (ext := plain) (Some "exit status 1") (ConfigLoaded editedConfig)
      (ui worldExecuting)
    = Done (u', Some (RunOutputMsg r))
    /\ runError r = Some "exit status 1"
    /\ HasError r = true
    /\ config u' = config (ui worldExecuting)
    /\ engine u' = engine (ui worldExecuting)
    /\ executing (state u') = false.
Proof.
  apply (settings_failure_keeps_config_and_engine (ext := plain)).
  left. reflexivity.
Defined.

Lemma settings_engine_failure_keeps_old_engine_witness :
  exists u' r,
    editSettingsDone (ext := offline) None (ConfigLoaded editedConfig) (ui worldExecuting)
    = Done (u', Some (RunOutputMsg r))
    /\ runError r = Some "no backend"
    /\ config u' = Some editedConfig
    /\ engine u' = engine (ui worldExecuting).
Proof.
  apply (settings_engine_failure_keeps_old_engine (ext := offline)
           (ui worldExecuting) editedConfig None "no backend").
  - reflexivity.
  - reflexivity.
Defined.

Lemma settings_round_trip_witness :
  exists u3 c3,
    busy u3 = false
    /\ config u3 = Some editedConfig
    /\ engine u3 = Some (freshEngine ExecEngineMode)
    /\ focused (prompt (components u3)) = true
    /\ hasQuit c3 = false.
Proof.
  destruct (settings_round_trip (ext := plain) (ui worldIdle) ctrlS
              writtenConfig editedConfig (freshEngine ExecEngineMode))
    as (u1 & u2 & r & u3 & c3 & _ & _ & _ & _ & _ & B & C & E & F & Q).
  - reflexivity.
  - reflexivity.
  - reflexivity.
  - reflexivity.
  - reflexivity.
  - reflexivity.
  - exists u3, c3. repeat split; assumption.
Defined.

Lemma cli_start_issues_one_query_witness :
  exists u,
    Init (ext := plain) (NewUi cliOdd) (ConfigLoaded writtenConfig)
    = Done (u, Batch [StartChatStreamFn "explain"; AwaitChatStreamFn])
    /\ promptMode (state u) = ConfigPromptMode
    /\ querying (state u) = true
    /\ config u = Some writtenConfig
    /\ engine u = Some (freshEngine ExecEngineMode).
Proof.
  apply (cli_start_issues_one_query (ext := plain) cliOdd writtenConfig
           (freshEngine ExecEngineMode)).
  - reflexivity.
  - reflexivity.
Defined.

Lemma cli_start_failure_is_shown_witness :
  exists u,
    Init (ext := offline) (NewUi cliExec) (ConfigLoaded writtenConfig) = Done (u, CmdNil)
    /\ error (state u) = Some "no backend"
    /\ querying (state u) = false
    /\ engine u = None
    /\ View (ext := offline) u = RenderError (Collaborators := offline) (rd u)
                                   ("[error] " ++ "no backend").
Proof.
  apply (cli_start_failure_is_shown (ext := offline) cliExec writtenConfig None
           "no backend").
  - reflexivity.
  - reflexivity.
Defined.

Lemma reset_empties_engine_memory_witness :
  exists u',
    Update (ext := plain) chatting (KeyMsg ctrlR)
    = Done (u', Batch [PromptCmd; ClearScreen; Blink])
    /\ engine u' = Some {| eMode := ChatEngineMode; ePipe := ""; eMemory := [] |}
    /\ state u' = state chatting
    /\ config u' = config chatting.
Proof.
  destruct (reset_empties_engine_memory (ext := plain) chatting ctrlR
              {| eMode := ChatEngineMode; ePipe := "";
                 eMemory := ["hello"; "hi, how can I help?"] |} eq_refl eq_refl)
    as (_ & R).
  exact (R eq_refl eq_refl).
Defined.

Lemma first_configuration_ends_in_exec_prompt_witness :
  exists u1,
    Update (ext := plain) (ui worldBootstrap) (KeyMsg enterKey)
    = Done (u1, Sequence [ClearScreen;
                          Println (nl ++ "[settings ok]" ++ nl);
                          Blink;
                          FinishConfigReplFn])
    /\ configuring (state u1) = false
    /\ config u1 = Some writtenConfig
    /\ engine u1 = Some (freshEngine ExecEngineMode)
    /\ prompt (components (fst (finishConfigReplFn u1))) = NewPrompt ExecPromptMode.
Proof.
  destruct (first_configuration_ends_in_exec_prompt (ext := plain)
              (ui worldBootstrap) enterKey eq_refl eq_refl eq_refl)
    as (S & _).
  destruct (S writtenConfig (freshEngine ExecEngineMode) eq_refl eq_refl)
    as (u1 & U & F & C & E & P & _).
  exists u1. repeat split; assumption.
Defined.

Lemma view_shows_the_stream_so_far_witness :
  exists w,
    run (ext := plain) (flat_map deliver [chunk "Hel" false; chunk "lo" false])
      (awaiting chatting false) = Some w
    /\ View (ext := plain) (ui w) = "Hello".
Proof.
  apply (view_shows_the_stream_so_far (ext := plain) chatting
           {| eMode := ChatEngineMode; ePipe := "";
              eMemory := ["hello"; "hi, how can I help?"] |}
           false (chunk "Hel" false) [chunk "lo" false]).
  - reflexivity.
  - repeat constructor.
  - reflexivity.
  - reflexivity.
  - reflexivity.
Defined.

Lemma repl_start_builds_the_engine_witness :
  exists u,
    startReplFn (ext := plain) writtenConfig (NewUi replExec) = Done (u, None)
    /\ isIdle u = true
    /\ engine u = Some (freshEngine ExecEngineMode)
    /\ ui worldIdle = u.
Proof.
  destruct (repl_start_builds_the_engine (ext := plain) replExec writtenConfig eq_refl)
    as (_ & S & _).
  destruct (S (freshEngine ExecEngineMode) eq_refl) as (u & U & _ & _ & I & _ & E & _).
  exists u. repeat split; try assumption.
  vm_compute in U. injection U as <-. reflexivity.
Defined.

(** ** Errors, the end of a cycle and the decline, on the runtime *)

Lemma worldChatFailed_played :
  play (ext := plain) replChat (ConfigLoaded writtenConfig) toChatFailed
  = Some worldChatFailed.
Proof. vm_compute. reflexivity. Qed.

Lemma worldCliSecond_played :
  play (ext := plain) cliExec (ConfigLoaded writtenConfig) toCliSecond
  = Some worldCliSecond.
Proof. vm_compute. reflexivity. Qed.

Lemma worldBothFlags_played :
  play (ext := plain) replExec (ConfigLoaded writtenConfig) toBothFlags
  = Some worldBothFlags.
Proof. vm_compute. reflexivity. Qed.

Section Ends.

Context {ext : Collaborators}.

Lemma quitting_step (w w' : World) :
  step w w' -> quitting w = true -> quitting w' = true.
Proof. intros S Q. destruct S; simpl; try exact Q. now rewrite Q. Qed.

Lemma quitting_steps (w w' : World) :
  steps w w' -> quitting w = true -> quitting w' = true.
Proof.
  intros S Q. induction S as [| w w' w'' S IH T]; [exact Q |].
  apply quitting_step with (w := w'); auto.
Qed.

(** C4, as amended. When an error message arrives, [Update] stores it
    and returns no command, in either run mode: nothing quits the
    process, and the phase flags and the components are left as they
    are; [View] shows the stored error, and after any number of further
    moves of the runtime it still shows an error. Whether the session
    is idle is decided by the closure that returned the error: the
    closure of [startExec] has cleared [querying] when it returns the
    error, so that after [Update] the session is idle when no other
    flag was set; the closure of [startChatStream] returns the error
    with [querying] still set, so that after [Update] the session is
    still querying. *)
Theorem C4_error_is_stored_and_shown (u : Ui) (e : Error) :
  (exists u',
     Update u (ErrorMsg e) = Done (u', CmdNil)
     /\ hasQuit CmdNil = false
     /\ error (state u') = Some e
     /\ (configuring (state u'), querying (state u'),
         confirming (state u'), executing (state u'))
        = (configuring (state u), querying (state u),
           confirming (state u), executing (state u))
     /\ components u' = components u
     /\ View u' = RenderError (rd u) ("[error] " ++ e)
     /\ (forall w w',
           ui w = u' -> steps w w' ->
           exists e', error (state (ui w')) = Some e'
                      /\ View (ui w') = RenderError (rd (ui w')) ("[error] " ++ e')))
  /\ (snd (startExecReturn (inl e) u) = Some (ErrorMsg e)
      /\ exists u2,
           Update (fst (startExecReturn (inl e) u)) (ErrorMsg e) = Done (u2, CmdNil)
           /\ querying (state u2) = false
           /\ isIdle u2
              = negb (configuring (state u)) && negb (confirming (state u))
                && negb (executing (state u)))
  /\ (forall input u1,
        startChatStreamEnter input u = Done u1 ->
        snd (startChatStreamReturn (Some e) u1) = Some (ErrorMsg e)
        /\ exists u2,
             Update (fst (startChatStreamReturn (Some e) u1)) (ErrorMsg e)
             = Done (u2, CmdNil)
             /\ querying (state u2) = true
             /\ isIdle u2 = false).
Proof.
  split; [| split].
  - eexists. split; [reflexivity |]. simpl. repeat split.
    intros w w' W S.
    assert (F : failed (ui w)) by (rewrite W; unfold failed; simpl; discriminate).
    pose proof (keptBy_steps _ w w' failed_kept S F) as G. unfold failed in G.
    destruct (error (state (ui w'))) as [e' |] eqn:E; [| congruence].
    exists e'. split; [reflexivity |]. unfold View. now rewrite E.
  - split; [reflexivity |]. eexists. split; [reflexivity |].
    unfold isIdle. simpl. split; [reflexivity |].
    now rewrite andb_true_r.
  - intros input u1 H. enter_cases H.
    split; [reflexivity |]. eexists. split; [reflexivity |].
    unfold isIdle. simpl. split; [reflexivity |]. now rewrite andb_false_r.
Qed.

(** C7, as amended. At the end of a cycle in CLI mode, [Update]
    returns the sequence that prints the rendering of that end and
    then [tea.Quit], after the command of the prompt for a decline;
    when the runtime gives that message to [Update], the session has
    asked to quit, and has after every further move. In REPL mode
    [Update] returns the command that prints the same rendering, with
    the command of the prompt and the blinking cursor, and no
    [tea.Quit], no request and no subprocess, and the runtime is not
    asked to quit.
    An error message ends no cycle: [Update] returns no command for it
    in CLI mode as in REPL mode; and Enter on a session that is not
    configuring, querying or confirming and whose prompt is not empty
    submits the text of the prompt in CLI mode as in REPL mode, with
    or without a stored error. *)
Theorem C7_cli_quits_after_rendering (u : Ui) (m : Msg) :
  cycleEnd u m ->
  (runMode (state u) = CliMode ->
     (exists u',
        Update u m
        = Done (u', Sequence (promptPart m ++ [Println (cycleText u m); Quit])%list))
     /\ (forall w rest,
           ui w = u -> inbox w = m :: rest ->
           exists w1, sched Handle w = Some w1
                      /\ quitting w1 = true
                      /\ forall w2, steps w1 w2 -> quitting w2 = true))
  /\ (runMode (state u) = ReplMode ->
        (exists u' c,
           Update u m = Done (u', c)
           /\ printed c = [cycleText u m]
           /\ hasQuit c = false
           /\ hasRequest c = false
           /\ hasExecProcess c = false
           /\ c = replEnd u m)
        /\ (forall w rest,
              ui w = u -> inbox w = m :: rest ->
              exists w1, sched Handle w = Some w1 /\ quitting w1 = quitting w))
  /\ (forall e, exists u',
        Update u (ErrorMsg e) = Done (u', CmdNil) /\ hasQuit CmdNil = false)
  /\ (forall v k,
        keyType k = KeyEnter ->
        configuring (state v) = false ->
        querying (state v) = false ->
        confirming (state v) = false ->
        GetValue (prompt (components v)) <> "" ->
        exists v',
          Update v (KeyMsg k)
          = Done (v', Batch (submission (promptMode (state v)) (prompt (components v))
                               (promptAsString (prompt (components v)))))).
Proof.
  intros CE.
  assert (CLI : runMode (state u) = CliMode ->
                exists u',
                  Update u m
                  = Done (u', Sequence (promptPart m
                                          ++ [Println (cycleText u m); Quit])%list)).
  { intros R. destruct CE as [o L | o X | k C K N | r].
    - unfold Update. rewrite L. simpl. rewrite R. eexists. reflexivity.
    - unfold Update. rewrite X. simpl. rewrite R. eexists. reflexivity.
    - assert (E : String.eqb (ToLower (keyString k)) "y" = false)
        by now apply String.eqb_neq.
      destruct k as [kt ks]. unfold unnamedKey in K. simpl in *.
      unfold Update, updateKey, cancelNotice. simpl.
      destruct K as [K | K]; subst kt; simpl; rewrite C, E; simpl; rewrite R;
        eexists; reflexivity.
    - unfold Update. simpl. rewrite R. simpl. unfold cycleText.
      destruct (HasError r); eexists; reflexivity. }
  assert (REPL : runMode (state u) = ReplMode ->
                 exists u' c,
                   Update u m = Done (u', c)
                   /\ printed c = [cycleText u m]
                   /\ hasQuit c = false
                   /\ hasRequest c = false
                   /\ hasExecProcess c = false
                   /\ c = replEnd u m).
  { intros R. destruct CE as [o L | o X | k C K N | r].
    - unfold Update. rewrite L. simpl. rewrite R. do 2 eexists. repeat split.
    - unfold Update. rewrite X. simpl. rewrite R. do 2 eexists. repeat split.
    - assert (E : String.eqb (ToLower (keyString k)) "y" = false)
        by now apply String.eqb_neq.
      destruct k as [kt ks]. unfold unnamedKey in K. simpl in *.
      unfold Update, updateKey, cancelNotice. simpl.
      destruct K as [K | K]; subst kt; simpl; rewrite C, E; simpl; rewrite R;
        do 2 eexists; repeat split.
    - unfold Update. simpl. rewrite R. simpl. unfold cycleText.
      destruct (HasError r); do 2 eexists; repeat split. }
  split; [| split; [| split]].
  - intros R. split; [exact (CLI R) |].
    intros w rest W I. destruct (CLI R) as (u' & U).
    unfold sched. rewrite I, W, U. eexists. split; [reflexivity |].
    assert (Q : quitting
                  {| ui := u';
                     pending := (pending w
                                 ++ [Waiting (Sequence (promptPart m
                                        ++ [Println (cycleText u m); Quit]))])%list;
                     inbox := rest;
                     quitting := quitting w
                                 || hasQuit (Sequence (promptPart m
                                        ++ [Println (cycleText u m); Quit])) |}
                = true).
    { simpl. destruct m; simpl; now rewrite orb_true_r. }
    split; [exact Q |]. intros w2 S. now apply quitting_steps with (w := _) in S.
  - intros R. split; [exact (REPL R) |].
    intros w rest W I. destruct (REPL R) as (u' & c & U & _ & Q & _).
    unfold sched. rewrite I, W, U. eexists. split; [reflexivity |].
    simpl. rewrite Q. now rewrite orb_false_r.
  - intros e. eexists. split; reflexivity.
  - intros v [kt ks] K F Q C V. simpl in K. subst kt.
    unfold Update, updateKey, free, submission. simpl. rewrite F, Q, C. simpl.
    apply isEmpty_false in V. rewrite V. simpl.
    destruct (PromptMode_eqb (promptMode (state v)) ChatPromptMode);
      eexists; reflexivity.
Qed.

(** C8, as amended. When the user declines a pending command in REPL
    mode, [Update] prints the cancellation notice, clears [confirming],
    [executing], the buffer and the pending command, and leaves an
    empty prompt that has the focus; it leaves [querying] and
    [configuring] as they were, so that the session is idle after the
    decline exactly when it was neither querying nor configuring. The
    same decline in CLI mode prints the notice and then quits; it
    clears the same flags, the buffer and the prompt, and leaves the
    pending command stored. *)
Theorem C8_decline_clears_the_confirmation (u : Ui) (k : Key) :
  confirming (state u) = true ->
  unnamedKey k ->
  ToLower (keyString k) <> "y" ->
  (runMode (state u) = ReplMode ->
     exists u',
       Update u (KeyMsg k)
       = Done (u', Batch [PromptCmd;
                          Println (nl ++ RenderWarning (rd u) "[cancel]" ++ nl);
                          Blink])
       /\ confirming (state u') = false
       /\ executing (state u') = false
       /\ buffer (state u') = ""
       /\ command (state u') = ""
       /\ value (prompt (components u')) = ""
       /\ focused (prompt (components u')) = true
       /\ querying (state u') = querying (state u)
       /\ configuring (state u') = configuring (state u)
       /\ isIdle u' = negb (configuring (state u)) && negb (querying (state u)))
  /\ (runMode (state u) = CliMode ->
        exists u',
          Update u (KeyMsg k)
          = Done (u', Sequence [PromptCmd;
                                Println (nl ++ RenderWarning (rd u) "[cancel]" ++ nl);
                                Quit])
          /\ confirming (state u') = false
          /\ executing (state u') = false
          /\ buffer (state u') = ""
          /\ command (state u') = command (state u)
          /\ value (prompt (components u')) = ""
          /\ focused (prompt (components u')) = true).
Proof.
  intros C K N.
  assert (E : String.eqb (ToLower (keyString k)) "y" = false)
    by now apply String.eqb_neq.
  destruct k as [kt ks]. unfold unnamedKey in K. simpl in *.
  unfold Update, updateKey, isIdle, cancelNotice. simpl.
  split; intros R;
    destruct K as [K | K]; subst kt; simpl; rewrite C, E; simpl; rewrite R; simpl;
    eexists; split; try reflexivity; simpl; repeat split;
    now rewrite !andb_true_r.
Qed.

End Ends.

(** C4, counterexample. In CLI mode the completion fails and [Update]
    returns no command for the error: nothing quits the process. In
    REPL mode the call of the chat stream fails: once [Update] has the
    error the session is still querying, not idle. *)
Lemma C4_error_neither_quits_nor_idles :
  (reachable (ext := plain) worldCliFailure
   /\ runMode (state (ui worldCliFailure)) = CliMode
   /\ inbox worldCliFailure = [ErrorMsg "timeout"]
   /\ exists u',
        Update (ext := plain) (ui worldCliFailure) (ErrorMsg "timeout")
        = Done (u', CmdNil)
        /\ hasQuit CmdNil = false)
  /\ (reachable (ext := plain) worldChatFailed
      /\ runMode (state (ui worldChatFailed)) = ReplMode
      /\ error (state (ui worldChatFailed)) = Some "timeout"
      /\ inbox worldChatFailed = []
      /\ querying (state (ui worldChatFailed)) = true
      /\ isIdle (ui worldChatFailed) = false).
Proof.
  split.
  - split; [exact (play_reachable _ _ _ _ worldCliFailure_played) |].
    repeat split. eexists. split; reflexivity.
  - split; [exact (play_reachable _ _ _ _ worldChatFailed_played) |].
    repeat split.
Qed.

(** C7, counterexample. A CLI invocation whose completion has failed
    has not asked to quit; the user types [ls] and presses Enter, and
    [Update] returns a second request. *)
Lemma C7_cli_issues_a_second_request :
  reachable (ext := plain) worldCliSecond
  /\ runMode (state (ui worldCliSecond)) = CliMode
  /\ args (state (ui worldCliSecond)) = "list files"
  /\ quitting worldCliSecond = false
  /\ List.last (pending worldCliSecond) (Waiting CmdNil)
     = Waiting (Batch [PromptCmd; Println "> ls"; StartExecFn "ls"; SpinnerTick]).
Proof.
  split; [exact (play_reachable _ _ _ _ worldCliSecond_played) |].
  repeat split.
Qed.

(** C7 on the decline of the REPL session, which does not quit, and on
    the result of the command of a CLI invocation, which prints it and
    quits. *)
Lemma C7_cli_quits_after_rendering_witness :
  (exists u' c,
     Update (ext := plain) (ui worldConfirming) (KeyMsg (typed "n")) = Done (u', c)
     /\ printed c = [cancelNotice (ext := plain) (ui worldConfirming)]
     /\ hasQuit c = false)
  /\ (exists u',
        Update (ext := plain) cliRunning
          (RunOutputMsg (NewRunOutput None "[error]" "[ok]"))
        = Done (u', Sequence [Println (nl ++ "[ok]" ++ nl); Quit])).
Proof.
  split.
  - destruct (C7_cli_quits_after_rendering (ext := plain) (ui worldConfirming)
                (KeyMsg (typed "n")))
      as (_ & R & _).
    + apply end_declined; [reflexivity | left; reflexivity | discriminate].
    + destruct (R eq_refl) as ((u' & c & U & P & Q & _) & _).
      exists u', c. repeat split; assumption.
  - destruct (C7_cli_quits_after_rendering (ext := plain) cliRunning
                (RunOutputMsg (NewRunOutput None "[error]" "[ok]")))
      as (C & _).
    + apply end_run.
    + destruct (C eq_refl) as ((u' & U) & _). exists u'. exact U.
Defined.

(** C8, counterexample. The session is confirming and querying; the
    user declines: the session is not idle, and [View] is the
    spinner. *)
Lemma C8_decline_while_querying_is_not_idle :
  reachable (ext := plain) worldBothFlags
  /\ runMode (state (ui worldBothFlags)) = ReplMode
  /\ confirming (state (ui worldBothFlags)) = true
  /\ querying (state (ui worldBothFlags)) = true
  /\ exists u' c,
       Update (ext := plain) (ui worldBothFlags) (KeyMsg (typed "n")) = Done (u', c)
       /\ isIdle u' = false
       /\ View (ext := plain) u' = spinnerView (Collaborators := plain)
                                     (spinner (components u')).
Proof.
  split; [exact (play_reachable _ _ _ _ worldBothFlags_played) |].
  repeat split. do 2 eexists. repeat split.
Qed.

(** C8 on the session that asks whether to run [ls -la] and is not
    querying: the decline leaves it idle. *)
Lemma C8_decline_clears_the_confirmation_witness :
  exists u',
    Update (ext := plain) (ui worldConfirming) (KeyMsg (typed "n"))
    = Done (u', Batch [PromptCmd;
                       Println (cancelNotice (ext := plain) (ui worldConfirming));
                       Blink])
    /\ command (state u') = ""
    /\ value (prompt (components u')) = ""
    /\ focused (prompt (components u')) = true
    /\ isIdle u' = true.
Proof.
  destruct (C8_decline_clears_the_confirmation (ext := plain) (ui worldConfirming)
              (typed "n"))
    as (R & _).
  - reflexivity.
  - left. reflexivity.
  - discriminate.
  - destruct (R eq_refl) as (u' & U & _ & _ & _ & C & V & F & _ & _ & I).
    exists u'. repeat split; assumption.
Defined.

(** ** The chat stream, on the runtime *)

Lemma awaitsIn_app (a b : list Job) :
  awaitsIn (a ++ b) = awaitsIn a + awaitsIn b.
Proof. unfold awaitsIn. now rewrite filter_app, length_app. Qed.

Lemma awaitsIn_cons (j : Job) (l : list Job) :
  awaitsIn (j :: l) = (if isAwait j then 1 else 0) + awaitsIn l.
Proof. unfold awaitsIn. simpl. destruct (isAwait j); reflexivity. Qed.

Lemma chunksIn_cons (m : Msg) (l : list Msg) :
  chunksIn (m :: l) = (if isChunk m then 1 else 0) + chunksIn l.
Proof. unfold chunksIn. simpl. destruct (isChunk m); reflexivity. Qed.

Lemma chunksIn_post (om : option Msg) (box : list Msg) :
  chunksIn (post om box)
  = chunksIn box + match om with
                   | Some m => if isChunk m then 1 else 0
                   | None => 0
                   end.
Proof.
  unfold chunksIn. destruct om as [m |]; simpl; [| lia].
  rewrite filter_app, length_app. simpl. destruct (isChunk m); reflexivity.
Qed.

Lemma streamMsg_post (om : option Msg) (box : list Msg) :
  forallb streamMsg (post om box)
  = forallb streamMsg box && match om with
                             | Some m => streamMsg m
                             | None => true
                             end.
Proof.
  destruct om as [m |]; simpl; [| now rewrite andb_true_r].
  rewrite forallb_app. simpl. now rewrite andb_true_r.
Qed.

Lemma quiet_job (c : Cmd) :
  quietCmd c = true -> streamJob (Waiting c) = true /\ isAwait (Waiting c) = false.
Proof. destruct c; simpl; intros Q; split; try reflexivity; try assumption; discriminate Q. Qed.

Lemma quiet_jobs (cs : list Cmd) :
  forallb quietCmd cs = true ->
  forallb streamJob (map Waiting cs) = true /\ awaitsIn (map Waiting cs) = 0.
Proof.
  induction cs as [| c cs IH]; simpl; intros Q; [split; reflexivity |].
  apply andb_true_iff in Q as [Qc Qs].
  destruct (quiet_job c Qc) as [J A], (IH Qs) as [Js As].
  split.
  - change (streamJob (Waiting c) && forallb streamJob (map Waiting cs) = true).
    now rewrite J, Js.
  - now rewrite awaitsIn_cons, A, As.
Qed.

Lemma streamJob_await (j : Job) :
  streamJob j = true -> isAwait j = false ->
  match j with Waiting c => quietCmd c = true | _ => True end.
Proof. destruct j as [c | |]; try exact (fun _ _ => I). destruct c; simpl; congruence. Qed.

Section Stream.

Context {ext : Collaborators}.

(** The moves are the moves of the runtime, all of them. *)
Lemma pick_at {A : Type} (l1 l2 : list A) (x : A) :
  pick (length l1) (l1 ++ x :: l2) = Some (l1, x, l2).
Proof. induction l1 as [| y l1 IH]; simpl; [reflexivity | now rewrite IH]. Qed.

Lemma fires_fire (c : Cmd) (u : Ui) (r : outcome (Ui * option Msg)) :
  fires c u r -> exists a, fire c a u = Some r.
Proof.
  intros F. destruct F as [c u H | | r u | | | o u | c e u | c e load u].
  - exists NoAnswer. destruct c; simpl in H; try discriminate H; reflexivity.
  - exists NoAnswer. reflexivity.
  - exists (Completion r). reflexivity.
  - exists NoAnswer. reflexivity.
  - exists NoAnswer. reflexivity.
  - exists (Chunk o). reflexivity.
  - exists (Exit e (ConfigFileNotFound EmptyString)). reflexivity.
  - exists (Exit e load). reflexivity.
Qed.

Lemma move_step (m : Move) (w w' : World) :
  move m w = Some w' -> step w w'.
Proof.
  destruct m as [e | i]; [apply sched_step |]. simpl. intros H.
  destruct (pick i (pending w)) as [[[l1 j] l2] |] eqn:P; [| discriminate H].
  apply pick_split in P.
  destruct j as [c | |]; try discriminate H.
  destruct c as [| | | | | | | | | | | | | | | | cs |]; try discriminate H.
  destruct cs as [| c cs]; [discriminate H |].
  destruct (runsInOnePiece c) eqn:O; [discriminate H |].
  injection H as <-. now apply step_spawn.
Qed.

Lemma step_move (w w' : World) :
  step w w' -> exists m, move m w = Some w'.
Proof.
  intros S.
  destruct S as [w m T | w m rest u' c Box U | w l1 cs l2 P | w l1 c cs l2 u' om P F
                 | w l1 c cs l2 P O | w l1 c l2 u' om P F | w l1 input l2 u' P E
                 | w l1 l2 r P | w l1 input l2 u' P E | w l1 l2 r P].
  - exists (Sched (Arrive m)). simpl. now rewrite T.
  - exists (Sched Handle). simpl. now rewrite Box, U.
  - exists (Sched (Expand (length l1))). simpl. now rewrite P, pick_at.
  - destruct (fires_fire _ _ _ F) as [a Fa].
    exists (Sched (Next (length l1) a)). simpl. now rewrite P, pick_at, Fa.
  - exists (Spawn (length l1)). simpl. now rewrite P, pick_at, O.
  - destruct (fires_fire _ _ _ F) as [a Fa].
    exists (Sched (Run (length l1) a)). simpl. now rewrite P, pick_at, Fa.
  - exists (Sched (Enter (length l1))). simpl. now rewrite P, pick_at, E.
  - exists (Sched (ExecReturns (length l1) r)). simpl. now rewrite P, pick_at.
  - exists (Sched (Enter (length l1))). simpl. now rewrite P, pick_at, E.
  - exists (Sched (ChatReturns (length l1) r)). simpl. now rewrite P, pick_at.
Qed.

Lemma moves_app (l1 l2 : list Move) (w : World) :
  moves (l1 ++ l2) w
  = match moves l1 w with
    | Some w1 => moves l2 w1
    | None => None
    end.
Proof.
  revert w. induction l1 as [| m l1 IH]; intros w; [reflexivity |].
  cbn [app moves]. destruct (move m w); [apply IH | reflexivity].
Qed.

Lemma moves_steps (w w' : World) :
  steps w w' <-> exists ms, moves ms w = Some w'.
Proof.
  split.
  - intros S. induction S as [| w w' w'' S [ms IH] T]; [now exists [] |].
    destruct (step_move _ _ T) as [m M].
    exists (ms ++ [m])%list. rewrite moves_app, IH. cbn [moves]. now rewrite M.
  - intros [ms H]. revert w' H.
    induction ms as [| m ms IH] using rev_ind; intros w' H.
    + injection H as <-. constructor.
    + rewrite moves_app in H.
      destruct (moves ms w) as [w1 |]; [| discriminate H].
      cbn [moves] in H. destruct (move m w1) as [w2 |] eqn:M; [| discriminate H].
      injection H as <-.
      apply steps_more with (w' := w1); [now apply IH | now apply move_step with (m := m)].
Qed.

Lemma fire_quiet (c : Cmd) (a : Answer) (u u' : Ui) (om : option Msg) :
  quietCmd c = true -> fire c a u = Some (Done (u', om)) -> u' = u /\ om = None.
Proof.
  intros Q H.
  destruct c; simpl in Q; try discriminate Q; destruct a; simpl in H;
    try discriminate H; injection H as <- <-; split; reflexivity.
Qed.

(** While a stream is under way, [Update] answers a chunk before the
    last with the next await and nothing else, and any other message
    with a quiet command; the buffer, the engine and the three flags
    stay. *)
Lemma Update_while_streaming (u u' : Ui) (m : Msg) (c : Cmd) :
  querying (state u) = true ->
  confirming (state u) = false ->
  configuring (state u) = false ->
  streamMsg m = true ->
  Update u m = Done (u', c) ->
  buffer (state u') = buffer (state u)
  /\ engine u' = engine u
  /\ querying (state u') = true
  /\ confirming (state u') = false
  /\ configuring (state u') = false
  /\ (if isChunk m then c = AwaitChatStreamFn else quietCmd c = true).
Proof.
  intros Q C F M H.
  destruct m as [| ? ? | k | ? | o | ? | ? |]; simpl in M; try discriminate M;
    [ | | destruct k as [kt ks]; destruct kt | | | ];
    unfold_model H; simpl in H; rewrite ?Q, ?C, ?F in H; simpl in H;
    try (apply negb_true_iff in M; rewrite M in H);
    open_branches H; try discriminate H;
    injection H as <- <-; simpl; repeat split; assumption || reflexivity.
Qed.

(** A job taken out of the pending ones of a stream. *)
Lemma stream_pick (i : nat) (js l1 l2 : list Job) (j : Job) :
  pick i js = Some (l1, j, l2) ->
  forallb streamJob js = true ->
  streamJob j = true
  /\ forallb streamJob (l1 ++ l2) = true
  /\ awaitsIn js = awaitsIn l1 + (if isAwait j then 1 else 0) + awaitsIn l2.
Proof.
  intros P J. apply pick_split in P. subst js.
  rewrite forallb_app in J. simpl in J.
  apply andb_true_iff in J as [J1 J]. apply andb_true_iff in J as [Jj J2].
  rewrite forallb_app, J1, J2, awaitsIn_app, awaitsIn_cons.
  repeat split; [assumption | lia].
Qed.

(** One move of the runtime keeps the stream as it is, and a chunk
    that it delivers is appended to the buffer. *)
Lemma streamInv_sched (b : string) (e : Event) (w w' : World) :
  streamInv b w ->
  sched e w = Some w' ->
  Forall (fun o => IsLast o = false) (chunksOf [Sched e]) ->
  streamInv (b ++ fragments (chunksOf [Sched e])) w'.
Proof.
  intros (B & E & Q & C & F & J & M & N) S L.
  destruct e as [m | | i | i a | i a | i | i r | i r]; simpl in S.
  - (* a message of the terminal *)
    destruct (fromTerminal m) eqn:T; [| discriminate S].
    injection S as <-. simpl. rewrite append_empty_r.
    unfold streamInv. simpl.
    change (inbox w ++ [m])%list with (post (Some m) (inbox w)).
    rewrite streamMsg_post, chunksIn_post, M.
    repeat split; try assumption;
      destruct m; simpl in T; try discriminate T; simpl; try reflexivity; lia.
  - (* Update *)
    destruct (inbox w) as [| m rest] eqn:Box; [discriminate S |].
    destruct (Update (ui w) m) as [[u' c] |] eqn:U; [| discriminate S].
    injection S as <-. simpl. rewrite append_empty_r.
    simpl in M. apply andb_true_iff in M as [Mm Mr].
    destruct (Update_while_streaming _ _ _ _ Q C F Mm U)
      as (B' & E' & Q' & C' & F' & K).
    rewrite chunksIn_cons in N.
    assert (streamJob (Waiting c) = true
            /\ (if isAwait (Waiting c) then 1 else 0) = if isChunk m then 1 else 0)
      as [Jc Ac].
    { destruct (isChunk m); [subst c; split; reflexivity |].
      destruct (quiet_job c K) as [Jc Ac]. now rewrite Ac. }
    unfold streamInv. cbn [ui pending inbox].
    rewrite forallb_app, awaitsIn_app, awaitsIn_cons, J, Ac.
    cbn [forallb]. rewrite Jc.
    repeat split; try congruence.
    change (awaitsIn []) with 0. lia.
  - (* a Batch *)
    destruct (pick i (pending w)) as [[[l1 j] l2] |] eqn:P; [| discriminate S].
    destruct (stream_pick _ _ _ _ _ P J) as (Jj & Jr & A).
    destruct j as [c | |]; try discriminate S.
    destruct c; try discriminate S.
    injection S as <-. simpl. rewrite append_empty_r.
    simpl in Jj. destruct (quiet_jobs _ Jj) as [Jc Ac].
    rewrite forallb_app in Jr. apply andb_true_iff in Jr as [J1 J2].
    unfold streamInv. simpl.
    rewrite !forallb_app, !awaitsIn_app, J1, J2, Jc, Ac.
    simpl in A. repeat split; try assumption. lia.
  - (* a Sequence *)
    destruct (pick i (pending w)) as [[[l1 j] l2] |] eqn:P; [| discriminate S].
    destruct (stream_pick _ _ _ _ _ P J) as (Jj & Jr & A).
    destruct j as [c | |]; try discriminate S.
    destruct c as [| | | | | | | | | | | | | | | | cs |]; try discriminate S.
    destruct cs as [| c cs]; [discriminate S |].
    simpl in Jj. apply andb_true_iff in Jj as [Jc Js].
    destruct (fire c a (ui w)) as [[[u' om] |] |] eqn:Fi; try discriminate S.
    destruct (fire_quiet _ _ _ _ _ Jc Fi) as [-> ->].
    injection S as <-.
    assert (chunksOf [Sched (Next i a)] = []) as ->.
    { destruct a; try reflexivity.
      destruct c; simpl in Jc; try discriminate Jc; simpl in Fi; discriminate Fi. }
    simpl. rewrite append_empty_r.
    rewrite forallb_app in Jr. apply andb_true_iff in Jr as [J1 J2].
    unfold streamInv. simpl.
    rewrite forallb_app, awaitsIn_app, awaitsIn_cons, J1. simpl.
    rewrite Js, J2. simpl in A. repeat split; try assumption. lia.
  - (* a command *)
    destruct (pick i (pending w)) as [[[l1 j] l2] |] eqn:P; [| discriminate S].
    destruct (stream_pick _ _ _ _ _ P J) as (Jj & Jr & A).
    destruct j as [c | |]; try discriminate S.
    destruct (fire c a (ui w)) as [[[u' om] |] |] eqn:Fi; try discriminate S.
    injection S as <-.
    destruct (isAwait (Waiting c)) eqn:Aw.
    + (* the await *)
      destruct c; try discriminate Aw.
      destruct a as [| | o |]; try discriminate Fi.
      simpl in Fi. injection Fi as Fi.
      unfold awaitChatStreamFn, deref, bind in Fi.
      destruct (engine (ui w)) eqn:En; [| discriminate Fi].
      injection Fi as <- <-.
      simpl in L. apply Forall_inv in L.
      unfold streamInv. simpl.
      rewrite L, append_empty_r, B, En, Jr.
      change (inbox w ++ [EngineChatStreamOutputMsg o])%list
        with (post (Some (EngineChatStreamOutputMsg o)) (inbox w)).
      rewrite streamMsg_post, chunksIn_post, M, awaitsIn_app. simpl.
      rewrite L.
      repeat split; try assumption; try reflexivity; try discriminate.
      lia.
    + (* a quiet command *)
      pose proof (streamJob_await _ Jj Aw) as Qc. simpl in Qc.
      destruct (fire_quiet _ _ _ _ _ Qc Fi) as [-> ->].
      assert (chunksOf [Sched (Run i a)] = []) as ->.
      { destruct a; try reflexivity.
        destruct c; simpl in Qc; try discriminate Qc; simpl in Fi; discriminate Fi. }
      simpl. rewrite append_empty_r.
      unfold streamInv. simpl. rewrite awaitsIn_app.
      repeat split; try assumption. lia.
  - (* the engine is called *)
    destruct (pick i (pending w)) as [[[l1 j] l2] |] eqn:P; [| discriminate S].
    destruct (stream_pick _ _ _ _ _ P J) as (Jj & _).
    destruct j as [c | |]; try discriminate S.
    destruct c; try discriminate S; discriminate Jj.
  - (* ExecCompletion returns *)
    destruct (pick i (pending w)) as [[[l1 j] l2] |] eqn:P; [| discriminate S].
    destruct (stream_pick _ _ _ _ _ P J) as (Jj & _).
    destruct j as [c | |]; try discriminate S. discriminate Jj.
  - (* ChatStreamCompletion returns *)
    destruct (pick i (pending w)) as [[[l1 j] l2] |] eqn:P; [| discriminate S].
    destruct (stream_pick _ _ _ _ _ P J) as (Jj & Jr & A).
    destruct j as [c | |]; try discriminate S.
    injection S as <-. simpl. rewrite append_empty_r.
    unfold streamInv. simpl.
    rewrite streamMsg_post, chunksIn_post, M, Jr, awaitsIn_app.
    simpl in A.
    destruct r as [err |]; simpl; repeat split; try assumption; lia.
Qed.

Lemma fragments_app (a b : list EngineChatStreamOutput) :
  fragments (a ++ b) = fragments a ++ fragments b.
Proof.
  induction a as [| o a IH]; simpl; [reflexivity |].
  now rewrite IH, append_assoc'.
Qed.

Lemma chunksOf_cons (m : Move) (ms : list Move) :
  chunksOf (m :: ms) = (chunksOf [m] ++ chunksOf ms)%list.
Proof. unfold chunksOf. simpl. now rewrite app_nil_r. Qed.

(** A sequence of quiet commands whose first command is started beside
    it. *)
Lemma stream_spawn (i : nat) (w w' : World) :
  forallb streamJob (pending w) = true ->
  move (Spawn i) w = Some w' ->
  ui w' = ui w /\ inbox w' = inbox w
  /\ forallb streamJob (pending w') = true
  /\ awaitsIn (pending w') = awaitsIn (pending w).
Proof.
  intros J S. simpl in S.
  destruct (pick i (pending w)) as [[[l1 j] l2] |] eqn:P; [| discriminate S].
  destruct (stream_pick _ _ _ _ _ P J) as (Jj & Jr & A).
  destruct j as [c | |]; try discriminate S.
  destruct c as [| | | | | | | | | | | | | | | | cs |]; try discriminate S.
  destruct cs as [| c cs]; [discriminate S |].
  destruct (runsInOnePiece c); [discriminate S |].
  injection S as <-. simpl.
  simpl in Jj. apply andb_true_iff in Jj as [Jc Js].
  destruct (quiet_job c Jc) as [Jw Aw].
  rewrite forallb_app in Jr. apply andb_true_iff in Jr as [J1 J2].
  rewrite forallb_app, awaitsIn_app, !awaitsIn_cons, J1, Aw. cbn [forallb].
  rewrite Jw, J2. simpl in A. simpl.
  repeat split; [now rewrite Js | lia].
Qed.

Lemma streamInv_move (b : string) (m : Move) (w w' : World) :
  streamInv b w ->
  move m w = Some w' ->
  Forall (fun o => IsLast o = false) (chunksOf [m]) ->
  streamInv (b ++ fragments (chunksOf [m])) w'.
Proof.
  destruct m as [e | i]; [apply streamInv_sched |].
  intros (B & E & Q & C & F & J & M & N) S _.
  destruct (stream_spawn _ _ _ J S) as (U & Box & J' & A).
  simpl. rewrite append_empty_r. unfold streamInv.
  rewrite U, Box, A. repeat split; assumption.
Qed.

(** Any moves keep the stream as it is, and the buffer grows by the
    fragments that the awaits receive, in their order. *)
Lemma streamInv_moves (ms : list Move) (b : string) (w w' : World) :
  streamInv b w ->
  moves ms w = Some w' ->
  Forall (fun o => IsLast o = false) (chunksOf ms) ->
  streamInv (b ++ fragments (chunksOf ms)) w'.
Proof.
  revert b w. induction ms as [| m ms IH]; intros b w I H L.
  - simpl in H. injection H as <-. simpl. now rewrite append_empty_r.
  - cbn [moves] in H. destruct (move m w) as [w1 |] eqn:S; [| discriminate H].
    rewrite chunksOf_cons in L |- *. apply Forall_app in L as [Le Ls].
    rewrite fragments_app, <- append_assoc'.
    apply IH with (w := w1); [| exact H | exact Ls].
    now apply streamInv_move with (w := w).
Qed.

(** Once the last chunk waits for [Update], every move but [Update]
    leaves it the first message, and leaves the session. *)
Lemma streamEnds_move (u : Ui) (o : EngineChatStreamOutput) (m : Move) (w w' : World) :
  streamEnds u o w ->
  noHandle [m] = true ->
  move m w = Some w' ->
  streamEnds u o w'.
Proof.
  intros (U & (rest & Box & R) & J & N) NH S.
  destruct m as [e | i];
    [| destruct (stream_spawn _ _ _ J S) as (U' & Box' & J' & A);
       unfold streamEnds; rewrite U', Box', A;
       repeat split; try assumption; now exists rest ].
  destruct e as [m | | i | i a | i a | i | i r | i r]; simpl in S;
    try discriminate NH.
  - destruct (fromTerminal m) eqn:T; [| discriminate S].
    injection S as <-. unfold streamEnds. simpl.
    repeat split; try assumption.
    exists (rest ++ [m])%list. rewrite Box. split; [reflexivity |].
    change (rest ++ [m])%list with (post (Some m) rest).
    rewrite chunksIn_post, R. destruct m; try discriminate T; reflexivity.
  - destruct (pick i (pending w)) as [[[l1 j] l2] |] eqn:P; [| discriminate S].
    destruct (stream_pick _ _ _ _ _ P J) as (Jj & Jr & A).
    destruct j as [c | |]; try discriminate S.
    destruct c; try discriminate S.
    injection S as <-.
    simpl in Jj. destruct (quiet_jobs _ Jj) as [Jc Ac].
    rewrite forallb_app in Jr. apply andb_true_iff in Jr as [J1 J2].
    unfold streamEnds. simpl.
    rewrite !forallb_app, !awaitsIn_app, J1, J2, Jc, Ac.
    repeat split; try assumption; [now exists rest | simpl in A; lia].
  - destruct (pick i (pending w)) as [[[l1 j] l2] |] eqn:P; [| discriminate S].
    destruct (stream_pick _ _ _ _ _ P J) as (Jj & Jr & A).
    destruct j as [c | |]; try discriminate S.
    destruct c as [| | | | | | | | | | | | | | | | cs |]; try discriminate S.
    destruct cs as [| c cs]; [discriminate S |].
    simpl in Jj. apply andb_true_iff in Jj as [Jc Js].
    destruct (fire c a (ui w)) as [[[u' om] |] |] eqn:Fi; try discriminate S.
    destruct (fire_quiet _ _ _ _ _ Jc Fi) as [-> ->].
    injection S as <-.
    rewrite forallb_app in Jr. apply andb_true_iff in Jr as [J1 J2].
    unfold streamEnds. simpl.
    rewrite forallb_app, awaitsIn_app, awaitsIn_cons, J1. simpl.
    rewrite Js, J2. simpl in A.
    repeat split; try assumption; [now exists rest | lia].
  - destruct (pick i (pending w)) as [[[l1 j] l2] |] eqn:P; [| discriminate S].
    destruct (stream_pick _ _ _ _ _ P J) as (Jj & Jr & A).
    destruct j as [c | |]; try discriminate S.
    destruct (fire c a (ui w)) as [[[u' om] |] |] eqn:Fi; try discriminate S.
    injection S as <-.
    destruct (isAwait (Waiting c)) eqn:Aw; [simpl in A; lia |].
    pose proof (streamJob_await _ Jj Aw) as Qc. simpl in Qc.
    destruct (fire_quiet _ _ _ _ _ Qc Fi) as [-> ->].
    unfold streamEnds. simpl. rewrite awaitsIn_app.
    repeat split; try assumption; [now exists rest | lia].
  - destruct (pick i (pending w)) as [[[l1 j] l2] |] eqn:P; [| discriminate S].
    destruct (stream_pick _ _ _ _ _ P J) as (Jj & _).
    destruct j as [c | |]; try discriminate S.
    destruct c; try discriminate S; discriminate Jj.
  - destruct (pick i (pending w)) as [[[l1 j] l2] |] eqn:P; [| discriminate S].
    destruct (stream_pick _ _ _ _ _ P J) as (Jj & _).
    destruct j as [c | |]; try discriminate S. discriminate Jj.
  - destruct (pick i (pending w)) as [[[l1 j] l2] |] eqn:P; [| discriminate S].
    destruct (stream_pick _ _ _ _ _ P J) as (Jj & Jr & A).
    destruct j as [c | |]; try discriminate S.
    injection S as <-.
    unfold streamEnds. simpl. rewrite Jr, awaitsIn_app. simpl in A.
    repeat split; [now destruct r | | lia].
    destruct r as [err |]; simpl; rewrite Box; [| now exists rest].
    exists (rest ++ [ErrorMsg err])%list. split; [reflexivity |].
    change (rest ++ [ErrorMsg err])%list with (post (Some (ErrorMsg err)) rest).
    now rewrite chunksIn_post, R.
Qed.

Lemma streamEnds_moves (u : Ui) (o : EngineChatStreamOutput) (ms : list Move)
    (w w' : World) :
  streamEnds u o w ->
  noHandle ms = true ->
  moves ms w = Some w' ->
  streamEnds u o w'.
Proof.
  revert w. induction ms as [| m ms IH]; intros w I NH H; cbn [moves] in H.
  - now injection H as <-.
  - destruct (move m w) as [w1 |] eqn:S; [| discriminate H].
    simpl in NH. apply andb_true_iff in NH as [Ne Ns].
    apply IH with (w := w1); [| exact Ns | exact H].
    apply streamEnds_move with (m := m) (w := w); [exact I | | exact S].
    simpl. now rewrite Ne.
Qed.

(** The await that receives the last chunk while no message waits
    leaves the chunk as the one message that waits. *)
Lemma streamInv_last (b : string) (i : nat) (o : EngineChatStreamOutput) (w w' : World) :
  streamInv b w ->
  inbox w = [] ->
  sched (Run i (Chunk o)) w = Some w' ->
  streamEnds (st (set_querying (negb (IsLast o)))
                (st (set_buffer (b ++ GetContent o)) (ui w))) o w'.
Proof.
  intros (B & E & Q & C & F & J & M & N) Box S. simpl in S.
  destruct (pick i (pending w)) as [[[l1 j] l2] |] eqn:P; [| discriminate S].
  destruct (stream_pick _ _ _ _ _ P J) as (Jj & Jr & A).
  destruct j as [c | |]; try discriminate S.
  destruct (fire c (Chunk o) (ui w)) as [[[u' om] |] |] eqn:Fi; try discriminate S.
  injection S as <-.
  destruct c; try discriminate Fi; try discriminate Jj.
  simpl in Fi. injection Fi as Fi.
  unfold awaitChatStreamFn, deref, bind in Fi.
  destruct (engine (ui w)) eqn:En; [| discriminate Fi].
  injection Fi as <- <-.
  rewrite Box in N. simpl in A. change (chunksIn []) with 0 in N.
  unfold streamEnds. simpl. rewrite B, Box, Jr, awaitsIn_app.
  repeat split; [| lia].
  exists []. split; reflexivity.
Qed.

(** A chat submission on a session at rest puts a stream under way:
    [Update] gets Enter, the batch starts its commands, and the
    closure of [startChatStream] calls the engine. *)
Lemma stream_starts (w : World) (k : Key) :
  keyType k = KeyEnter ->
  inbox w = [KeyMsg k] ->
  forallb streamJob (pending w) = true ->
  awaitsIn (pending w) = 0 ->
  engine (ui w) <> None ->
  configuring (state (ui w)) = false ->
  querying (state (ui w)) = false ->
  confirming (state (ui w)) = false ->
  promptMode (state (ui w)) = ChatPromptMode ->
  GetValue (prompt (components (ui w))) <> "" ->
  exists w',
    moves [Sched Handle; Sched (Expand (length (pending w)));
           Sched (Enter (length (pending w) + 2))] w = Some w'
    /\ streamInv "" w'.
Proof.
  intros K Box J A E F Q C M V. destruct k as [kt ks]. simpl in K. subst kt.
  apply isEmpty_false in V.
  assert (U : Update (ui w) (KeyMsg {| keyType := KeyEnter; keyString := ks |})
              = Done (updatePrompt (KeyMsg {| keyType := KeyEnter; keyString := ks |})
                        (pr Blur (pr (SetValue "")
                           (with_history (Add (GetValue (prompt (components (ui w))))
                                            (history (ui w))) (ui w)))),
                      Batch (submission ChatPromptMode (prompt (components (ui w)))
                               (promptAsString (prompt (components (ui w))))))).
  { unfold Update, updateKey, free, submission. simpl. rewrite F, Q, C. simpl.
    rewrite V. simpl. rewrite M. reflexivity. }
  cbn [moves move sched]. rewrite Box, U. cbn [pending ui inbox quitting].
  rewrite pick_at. unfold submission. cbn [PromptMode_eqb map app].
  cbn [pending ui inbox quitting].
  replace (pending w ++ [Waiting PromptCmd;
                         Waiting (Println (promptAsString (prompt (components (ui w)))));
                         Waiting (StartChatStreamFn (GetValue (prompt (components (ui w)))));
                         Waiting AwaitChatStreamFn])%list
    with ((pending w ++ [Waiting PromptCmd;
                         Waiting (Println (promptAsString (prompt (components (ui w)))))])
            ++ Waiting (StartChatStreamFn (GetValue (prompt (components (ui w)))))
               :: [Waiting AwaitChatStreamFn])%list
    by (now rewrite <- app_assoc).
  replace (length (pending w) + 2)
    with (length (pending w ++ [Waiting PromptCmd;
                                Waiting (Println (promptAsString
                                                    (prompt (components (ui w)))))])%list)
    by (rewrite length_app; reflexivity).
  rewrite pick_at.
  unfold startChatStreamEnter, deref, bind. simpl.
  destruct (engine (ui w)) as [e |] eqn:En; [| now destruct E].
  eexists. split; [reflexivity |].
  unfold streamInv. simpl. rewrite En, !forallb_app, !awaitsIn_app, J, A. simpl.
  repeat split; try assumption; discriminate.
Qed.

(** [Update] on the last chunk: the buffer is rendered and emptied,
    and no await is returned. *)
Lemma Update_last_chunk (u : Ui) (o : EngineChatStreamOutput) :
  IsLast o = true ->
  Update u (EngineChatStreamOutputMsg o)
  = Done (pr Focus (st (set_buffer "") u),
          Sequence [Println (RenderContent (rd u) (buffer (state u))); afterStream u]).
Proof.
  intros L. simpl. rewrite L. unfold afterStream. simpl.
  destruct (RunMode_eqb (runMode (state u)) CliMode); reflexivity.
Qed.

(** C6, as amended. A chat stream is under way in [w0] and is the one
    request of the session: the session has an engine, is querying and
    is neither confirming nor configuring; the jobs of the runtime are
    one await, quiet commands and the call of the engine by
    [startChatStream]; the messages that wait are those of the
    terminal, errors and chunks before the last; and one await is
    under way or one chunk waits for [Update].  Then, for all moves
    [ms] of the runtime from [w0] in which the chunks received are all
    before the last, in the world [w] that they reach: the buffer is
    the buffer of [w0] followed by the fragments of all the chunks of
    [ms], in the order in which they were received; the stream is
    under way as in [w0], with again one await under way or one chunk
    waiting for [Update], never two.  When the last chunk is received
    in [w] while no message waits, then, whatever the runtime does
    before [Update] gets its next message, that message is the last
    chunk: [Update] prints the rendering of all the fragments, the
    last one included, followed by [tea.Quit] in CLI mode and by the
    blinking cursor in REPL mode; no await is under way and no chunk
    waits any more, the buffer is empty and the session is no longer
    querying.  For every session: the closure of [awaitChatStream]
    appends the chunk it receives to the buffer and sets [querying] to
    the negation of [isLast]; [Update] answers a chunk before the last
    with exactly the next await and leaves the session as it is; and
    [Update] answers the last chunk with the rendering of the buffer
    and no await.  And a chat submission on a session at rest puts
    such a stream under way: when Enter is the one message that waits,
    no await is under way, the jobs are those above, and the session
    has an engine, is in chat mode, is not configuring, querying or
    confirming and has a prompt that is not empty, then once [Update]
    has had Enter, the batch has started its commands and the closure
    of [startChatStream] has called the engine, the stream is under
    way as above, with an empty buffer. *)
Theorem C6_fragments_in_order_whatever_the_moves
    (w0 w : World) (ms : list Move) :
  streamInv (buffer (state (ui w0))) w0 ->
  moves ms w0 = Some w ->
  Forall (fun o => IsLast o = false) (chunksOf ms) ->
  streamInv (buffer (state (ui w0)) ++ fragments (chunksOf ms)) w
  /\ (forall i final ms2 w2,
        inbox w = [] ->
        IsLast final = true ->
        noHandle ms2 = true ->
        moves (Sched (Run i (Chunk final)) :: ms2) w = Some w2 ->
        exists w3,
          sched Handle w2 = Some w3
          /\ List.last (pending w3) (Waiting CmdNil)
             = Waiting (Sequence
                 [Println (RenderContent (rd (ui w))
                             (buffer (state (ui w0))
                              ++ fragments (chunksOf ms ++ [final])));
                  afterStream (ui w)])
          /\ awaitsIn (pending w3) = 0
          /\ chunksIn (inbox w3) = 0
          /\ buffer (state (ui w3)) = ""
          /\ querying (state (ui w3)) = false)
  /\ (forall u o,
        engine u <> None ->
        awaitChatStreamFn o u
        = Done (st (set_querying (negb (IsLast o)))
                  (st (set_buffer (buffer (state u) ++ GetContent o)) u),
                Some (EngineChatStreamOutputMsg o)))
  /\ (forall u o,
        IsLast o = false ->
        Update u (EngineChatStreamOutputMsg o) = Done (u, AwaitChatStreamFn))
  /\ (forall u o,
        IsLast o = true ->
        Update u (EngineChatStreamOutputMsg o)
        = Done (pr Focus (st (set_buffer "") u),
                Sequence [Println (RenderContent (rd u) (buffer (state u)));
                          afterStream u])
        /\ hasAwait (Sequence [Println (RenderContent (rd u) (buffer (state u)));
                               afterStream u]) = false)
  /\ (forall v k,
        keyType k = KeyEnter ->
        inbox v = [KeyMsg k] ->
        forallb streamJob (pending v) = true ->
        awaitsIn (pending v) = 0 ->
        engine (ui v) <> None ->
        configuring (state (ui v)) = false ->
        querying (state (ui v)) = false ->
        confirming (state (ui v)) = false ->
        promptMode (state (ui v)) = ChatPromptMode ->
        GetValue (prompt (components (ui v))) <> "" ->
        exists v',
          moves [Sched Handle; Sched (Expand (length (pending v)));
                 Sched (Enter (length (pending v) + 2))] v = Some v'
          /\ streamInv "" v').
Proof.
  intros I0 R L.
  pose proof (streamInv_moves ms _ w0 w I0 R L) as I.
  split; [exact I |]. split; [| split; [| split; [| split]]].
  - intros i final ms2 w2 Box La NH R2. cbn [moves move] in R2.
    destruct (sched (Run i (Chunk final)) w) as [w1 |] eqn:S; [| discriminate R2].
    pose proof (streamInv_last _ _ _ _ _ I Box S) as En.
    destruct (streamEnds_moves _ _ _ _ _ En NH R2)
      as (U & (rest & Box2 & R3) & J2 & N2).
    eexists. split.
    { simpl. rewrite Box2, (Update_last_chunk _ _ La). reflexivity. }
    cbn [pending inbox ui]. rewrite last_last, awaitsIn_app, N2, U.
    unfold afterStream, rd. simpl. rewrite La.
    rewrite fragments_app. simpl. rewrite append_empty_r, append_assoc'.
    repeat split. exact R3.
  - intros u o E. unfold awaitChatStreamFn, deref, bind.
    destruct (engine u); [reflexivity | now destruct E].
  - intros u o La. simpl. now rewrite La.
  - intros u o La. split; [exact (Update_last_chunk u o La) |].
    unfold afterStream. simpl.
    destruct (RunMode_eqb (runMode (state u)) CliMode); reflexivity.
  - exact stream_starts.
Qed.

End Stream.

Lemma worldStreaming_played :
  play (ext := plain) replChat (ConfigLoaded writtenConfig) toStreaming = Some worldStreaming.
Proof. vm_compute. reflexivity. Qed.

Lemma worldStreamReceived_played :
  play (ext := plain) replChat (ConfigLoaded writtenConfig) toStreamReceived
  = Some worldStreamReceived.
Proof. vm_compute. reflexivity. Qed.

Lemma worldTwoStreams_played :
  play (ext := plain) replChat (ConfigLoaded writtenConfig) toTwoStreams
  = Some worldTwoStreams.
Proof. vm_compute. reflexivity. Qed.

(** C6, counterexample. In a REPL session the user submits [hi] and
    presses Ctrl-S; the await receives the one chunk [Hello], which is
    the last, and appends it to the buffer before [Update] has had the
    key.  [Update] then gets the key, which finds the session no
    longer querying and empties the buffer, and then the chunk, for
    which it prints the rendering of the empty buffer: the fragment is
    lost.  And in the session in which [a] and [b] are submitted
    before the closure of the first request has run, two awaits are
    under way at once. *)
Lemma C6_fragment_lost_and_two_awaits :
  (reachable (ext := plain) worldStreamReceived
   /\ buffer (state (ui worldStreamReceived)) = "Hello"
   /\ inbox worldStreamReceived
      = [KeyMsg ctrlS; EngineChatStreamOutputMsg (chunk "Hello" true)]
   /\ run (ext := plain) [Handle; Handle] worldStreamReceived = Some worldStreamLost
   /\ List.last (pending worldStreamLost) (Waiting CmdNil)
      = Waiting (Sequence
          [Println (RenderContent (Collaborators := plain)
                      (rd (ui worldStreamReceived)) "");
           Blink])
   /\ buffer (state (ui worldStreamLost)) = "")
  /\ (reachable (ext := plain) worldTwoStreams
      /\ awaitsIn (pending worldTwoStreams) = 2).
Proof.
  split.
  - split; [exact (play_reachable _ _ _ _ worldStreamReceived_played) |].
    repeat split.
  - split; [exact (play_reachable _ _ _ _ worldTwoStreams_played) |].
    reflexivity.
Qed.

(** C6 on the stream of [hi]: while the chunks [Hel] and [lo] are
    received among a key and a resize, the buffer holds [Hello] and one
    await is under way; the last chunk [!] is then received, Ctrl-S is
    pressed after it, and [Update] prints the rendering of [Hello!]. *)
Lemma C6_fragments_in_order_whatever_the_moves_witness :
  reachable (ext := plain) worldStreaming
  /\ buffer (state (ui worldStreamingOn)) = "Hello"
  /\ awaitsIn (pending worldStreamingOn) + chunksIn (inbox worldStreamingOn) = 1
  /\ exists w3,
       sched (ext := plain) Handle worldStreamingLast = Some w3
       /\ List.last (pending w3) (Waiting CmdNil)
          = Waiting (Sequence
              [Println (RenderContent (Collaborators := plain)
                          (rd (ui worldStreamingOn)) "Hello!");
               Blink])
       /\ awaitsIn (pending w3) = 0
       /\ buffer (state (ui w3)) = "".
Proof.
  split; [exact (play_reachable _ _ _ _ worldStreaming_played) |].
  assert (I0 : streamInv (buffer (state (ui worldStreaming))) worldStreaming).
  { repeat split; discriminate. }
  assert (R : moves (ext := plain) (map Sched whileStreaming) worldStreaming
              = Some worldStreamingOn).
  { vm_compute. reflexivity. }
  assert (L : Forall (fun o => IsLast o = false) (chunksOf (map Sched whileStreaming))).
  { repeat constructor. }
  destruct (C6_fragments_in_order_whatever_the_moves (ext := plain)
              worldStreaming worldStreamingOn (map Sched whileStreaming) I0 R L)
    as ((B & _ & _ & _ & _ & _ & _ & N) & Fin & _).
  split; [exact B |]. split; [exact N |].
  destruct (Fin 8 (chunk "!" true) [Sched (Arrive (KeyMsg ctrlS))] worldStreamingLast)
    as (w3 & S & La & A & _ & Bu & _);
    try reflexivity.
  exists w3. repeat split; assumption.
Defined.
